(** * ZenWatch: the commit-to-report pipeline

    A shallow embedding of the three Go packages of the repository
    ([internal/git], [internal/metrics], [internal/report]) and of its
    two programs, together with the parts of the Go standard library
    that they call, and the properties of the pipeline proved over that
    embedding.

    Go strings are byte sequences: they are modelled as [string]
    (a list of 8-bit [ascii] characters).  Go's [int] is modelled as [Z];
    where the source adds two ints the 64-bit wrap-around is written out.
    A [float64] is modelled by the inductive [spec_float] of the
    standard library (sign, mantissa and exponent), which needs no
    primitive floating-point arithmetic. *)

From Stdlib Require Import ZArith Ascii String List Lia.
From Stdlib Require Import Numbers.DecimalString Floats.SpecFloat.
From Stdlib Require Import Numbers.DecimalPos Numbers.DecimalZ.
From stdpp Require Import gmap strings list sorting.

Local Open Scope Z_scope.

(** ** Strings as byte sequences *)

Module Bytes.

(** The bytes of a string, in order. *)
Definition chars (s : string) : list ascii := String.list_ascii_of_string s.

(** Concatenation of a list of strings ([strings.Builder] writes). *)
Fixpoint sconcat (l : list string) : string :=
  match l with
  | [] => ""
  | s :: l' => s +:+ sconcat l'
  end.

(** Byte-wise substitution: every byte is replaced by a string. *)
Fixpoint flat_map_bytes (f : ascii -> string) (s : string) : string :=
  match s with
  | EmptyString => ""
  | String c s' => f c +:+ flat_map_bytes f s'
  end.

(** [contains s sub] is Go's [strings.Contains]. *)
Fixpoint contains (s sub : string) : bool :=
  String.prefix sub s ||
  match s with
  | EmptyString => false
  | String _ s' => contains s' sub
  end.

(** [n] copies of the byte [c]. *)
Fixpoint repeat_byte (c : ascii) (n : nat) : string :=
  match n with
  | O => ""
  | S k => String c (repeat_byte c k)
  end.

End Bytes.

Import Bytes.

(** ** Package [strings] of the Go standard library *)

Module go_strings.

(** The loop of [strings.Replace] with [n = -1] for a non-empty [old]:
    scan left to right, copy bytes until the next occurrence of [old],
    write [new] and continue after the occurrence.  [skip] counts the
    bytes of the occurrence just replaced that are still to be jumped
    over. *)
Fixpoint replace_from (old new : string) (skip : nat) (s : string) : string :=
  match s with
  | EmptyString => ""
  | String c s' =>
      match skip with
      | S k => replace_from old new k s'
      | O =>
          if String.prefix old s
          then new +:+ replace_from old new (Nat.pred (String.length old)) s'
          else String c (replace_from old new 0 s')
      end
  end.

(** [strings.ReplaceAll(s, old, new)].  For an empty [old] Go inserts
    [new] before every rune and at the end; a rune is taken to be one
    byte there (ASCII input). *)
Definition ReplaceAll (s old new : string) : string :=
  if decide (old = new) then s
  else match old with
       | EmptyString => new +:+ flat_map_bytes (fun c => String c new) s
       | String _ _ => replace_from old new 0 s
       end.

(** The loop of [strings.Split] ([genSplit] with [n = -1]) for a
    non-empty separator: the piece under construction and the pieces
    after it. *)
Fixpoint split_from (sep : string) (skip : nat) (s : string) : string * list string :=
  match s with
  | EmptyString => ("", [])
  | String c s' =>
      match skip with
      | S k => split_from sep k s'
      | O =>
          if String.prefix sep s
          then let '(p, ps) := split_from sep (Nat.pred (String.length sep)) s' in
               ("", p :: ps)
          else let '(p, ps) := split_from sep 0 s' in
               (String c p, ps)
      end
  end.

(** [strings.Split(s, sep)].  With an empty separator Go explodes the
    string into runes (bytes here). *)
Definition Split (s sep : string) : list string :=
  match sep with
  | EmptyString => map (fun c => String c "") (chars s)
  | String _ _ => let '(p, ps) := split_from sep 0 s in p :: ps
  end.

(** ASCII lower-casing of one byte. *)
Definition lower_byte (c : ascii) : ascii :=
  let n := N_of_ascii c in
  if ((65 <=? n) && (n <=? 90))%N then ascii_of_N (n + 32) else c.

Definition isASCII (s : string) : bool :=
  forallb (fun c => (N_of_ascii c <? 128)%N) (chars s).

(** [strings.ToLower]: byte-wise on ASCII input; otherwise the runes
    are mapped through [unicode.ToLower], whose table is a parameter
    [unicodeLower] of the model. *)
Definition ToLower (unicodeLower : string -> string) (s : string) : string :=
  if isASCII s then flat_map_bytes (fun c => String (lower_byte c) "") s
  else unicodeLower s.

End go_strings.

(** ** Package [path/filepath] *)

Module go_filepath.

(** [os.IsPathSeparator] on the platform of the tool (Unix). *)
Definition IsPathSeparator (c : ascii) : bool :=
  if decide (c = "/"%char) then true else false.

(** [filepath.Ext]: the suffix beginning at the final dot of the final
    element of the path, empty if there is none.  The Go loop runs from
    the last byte backwards; [ext_scan] folds from the front and keeps
    the last dot seen since the last separator. *)
Fixpoint ext_scan (s : string) (acc : string) : string :=
  match s with
  | EmptyString => acc
  | String c s' =>
      if IsPathSeparator c then ext_scan s' ""
      else if decide (c = "."%char) then ext_scan s' s
      else ext_scan s' acc
  end.

Definition Ext (path : string) : string := ext_scan path "".

End go_filepath.

(** ** Package [fmt]: the verbs the program uses *)

Module go_fmt.

(** [%d] of an integer. *)
Definition fmt_d (n : Z) : string := NilZero.string_of_int (Z.to_int n).

(** The decimal digits of a natural number, at least one. *)
Definition digits (n : Z) : string := NilZero.string_of_uint (N.to_uint (Z.to_N n)).

(** [n] written with at least [w] digits, zero-padded on the left. *)
Definition pad_digits (w : nat) (n : Z) : string :=
  let d := digits n in
  repeat_byte "0" (w - String.length d) +:+ d.

(** The value [m * 2^e] scaled by [10^prec] and rounded to the nearest
    integer, ties to even ([strconv]'s [decimal.Round] on the exact
    decimal expansion). *)
Definition round_scaled (prec : nat) (m : positive) (e : Z) : Z :=
  let num := Z.pos m * 10 ^ Z.of_nat prec in
  if 0 <=? e then num * 2 ^ e
  else
    let den := 2 ^ (- e) in
    let q := num / den in
    let r := num mod den in
    if (den <? 2 * r) || ((den =? 2 * r) && Z.odd q) then q + 1 else q.

(** A non-negative scaled integer printed in fixed-point notation. *)
Definition fixed (prec : nat) (q : Z) : string :=
  let p := 10 ^ Z.of_nat prec in
  digits (q / p) +:+
  match prec with
  | O => ""
  | S _ => "." +:+ pad_digits prec (q mod p)
  end.

Definition sign_string (s : bool) : string := if s then "-" else "".

(** [%.<prec>f] of a float64. *)
Definition fmt_f (prec : nat) (f : spec_float) : string :=
  match f with
  | S754_nan => "NaN"
  | S754_infinity false => "+Inf"
  | S754_infinity true => "-Inf"
  | S754_zero s => sign_string s +:+ fixed prec 0
  | S754_finite s m e => sign_string s +:+ fixed prec (round_scaled prec m e)
  end.

End go_fmt.

(** ** Go's [int] *)

(** A mathematical integer reduced to the 64-bit two's-complement range. *)
Definition int_wrap (z : Z) : Z := (z + 2 ^ 63) mod 2 ^ 64 - 2 ^ 63.

(** Addition of two Go [int]s. *)
Definition int_add (a b : Z) : Z := int_wrap (a + b).

(** ** Errors and results *)

(** A Go [error] is modelled by its message; [fmt.Errorf("...: %w", err)]
    wraps by prefixing the message. *)
Definition error := string.

(** The outcome of a call that returns [(T, error)]. *)
Inductive result (A : Type) : Type :=
| Ok (a : A)
| Err (e : error).

Arguments Ok {A} a.
Arguments Err {A} e.

(** ** The version-control library (go-git), an external collaborator *)

Module object.

(** [object.Signature]; [When] is kept as the text that
    [time.Time.String()] produces for it. *)
Record Signature := { Name : string; Email : string; When : string }.

(** [object.FileStat]. *)
Record FileStat := { StatName : string; Addition : Z; Deletion : Z }.

(** [diff.File]: only its [Path()] is read. *)
Record File := { Path : string }.

(** [diff.FilePatch]: [Files()] returns the [from] and the [to] file,
    either of which may be nil. *)
Record FilePatch := { from : option File; to : option File }.

(** [*object.Patch]: its [FilePatches()]. *)
Record Patch := { FilePatches : list FilePatch }.

End object.

(** The calls of go-git that the analyzer makes.  The object types are
    abstract; every method that returns an error is a function into
    [result].  A [*object.Patch] returned without error may still be nil
    ([None]). *)
Class VersionControlProvider := {
  Repository : Type;
  Commit : Type;
  Tree : Type;
  Changes : Type;
  PlainOpen : string -> result Repository;
  Head : Repository -> result string;
  CommitObject : Repository -> string -> result Commit;
  commit_Hash : Commit -> string;
  commit_Message : Commit -> string;
  commit_Author : Commit -> object.Signature;
  commit_Stats : Commit -> result (list object.FileStat);
  commit_Tree : Commit -> result Tree;
  commit_NumParents : Commit -> nat;
  commit_Parent : Commit -> nat -> result Commit;
  DiffTree : option Tree -> Tree -> result Changes;
  changes_Patch : Changes -> result (option object.Patch);
  tree_Patch : Tree -> Tree -> result (option object.Patch);
}.

(** ** The file system seen by [CloneRepository] *)

Module os.

(** A file system is the set of the paths that exist,
    a [gset string]. *)

(** [p] is [dir] itself or lies below it. *)
Definition under (dir p : string) : bool :=
  if decide (p = dir) then true else String.prefix (dir +:+ "/") p.

(** [os.RemoveAll]: removes the path and any children it contains. *)
Definition RemoveAll (path : string) (fs : gset string) : gset string :=
  filter (fun p => under path p = false) fs.

(** What the environment decides for one run of [CloneRepository]:
    the outcome of [os.MkdirTemp] in a given file system (the name of
    the directory it created), and the outcome of [git.PlainClone]
    into a directory: the file system it leaves and its error, if
    any. *)
Record Env := {
  MkdirTemp : string -> string -> gset string -> result string;
  PlainClone : string -> string -> gset string -> gset string * option error;
}.

End os.

(** ** Package [internal/git] *)

Module git.

Record CommitInfo := {
  Hash : string;
  Message : string;
  Author : string;
  Email : string;
  Date : string;
}.

Record ChangedFileStats := {
  Path : string;
  FileType : string;
  LinesAdded : Z;
  LinesDeleted : Z;
}.

Record RepositoryInfo := {
  URL : string;
  TempPath : string;
  LatestCommit : CommitInfo;
  ChangedFiles : list ChangedFileStats;
  TotalLinesAdded : Z;
  TotalLinesDeleted : Z;
}.

(** [CloneRepository]: the file system after the call and the pair
    the function returns. *)
Definition CloneRepository (env : os.Env) (url : string) (fs : gset string)
  : gset string * (string * option error) :=
  match os.MkdirTemp env "" "zenwatch-clone-*" fs with
  | Err err => (fs, ("", Some ("failed to create temp dir: " +:+ err)))
  | Ok tempDir =>
      let fs1 := {[ tempDir ]} ∪ fs in
      match os.PlainClone env tempDir url fs1 with
      | (fs2, Some err) =>
          (os.RemoveAll tempDir fs2,
           ("", Some ("failed to clone repository " +:+ url +:+ ": " +:+ err)))
      | (fs2, None) => (fs2, (tempDir, None))
      end
  end.

(** [Cleanup]. *)
Definition Cleanup (repoPath : string) (fs : gset string) : gset string :=
  os.RemoveAll repoPath fs.

Section Analyzer.

Context `{VCS : VersionControlProvider}.

(** The rune table of [unicode.ToLower], used by [strings.ToLower]
    on paths that are not ASCII. *)
Variable unicodeLower : string -> string.

(** The loop over [commitStats] (lines 104-107). *)
Definition sumStats (stats : list object.FileStat) : Z * Z :=
  fold_left
    (fun '(totalAdded, totalDeleted) fileStat =>
       (int_add totalAdded (object.Addition fileStat),
        int_add totalDeleted (object.Deletion fileStat)))
    stats (0, 0).

(** The path chosen for one file patch (lines 157-163). *)
Definition resolvePath (filePatch : object.FilePatch) : string :=
  match object.to filePatch with
  | Some to => object.Path to
  | None =>
      match object.from filePatch with
      | Some from => object.Path from
      | None => ""
      end
  end.

(** The loop over [patch.FilePatches()] (lines 156-173). *)
Fixpoint collectChangedFiles (filePatches : list object.FilePatch)
  : list ChangedFileStats :=
  match filePatches with
  | [] => []
  | filePatch :: rest =>
      let filePath := resolvePath filePatch in
      if decide (filePath = "") then collectChangedFiles rest
      else
        {| Path := filePath;
           FileType := go_strings.ToLower unicodeLower (go_filepath.Ext filePath);
           LinesAdded := 0;
           LinesDeleted := 0 |} :: collectChangedFiles rest
  end.

(** The patch of the latest commit (lines 120-153). *)
Definition latestPatch (latestCommit : Commit) (currentTree : Tree)
  : result (option object.Patch) :=
  if decide (commit_NumParents latestCommit = 0%nat) then
    match DiffTree None currentTree with
    | Err errDiff => Err ("failed to diff initial commit tree: " +:+ errDiff)
    | Ok changes =>
        match changes_Patch changes with
        | Err err =>
            Err ("failed to get patch from changes (initial commit): " +:+ err)
        | Ok patch => Ok patch
        end
    end
  else
    match commit_Parent latestCommit 0 with
    | Err errParent =>
        match DiffTree None currentTree with
        | Err diffErr =>
            Err ("failed to diff current tree with empty (parent fetch failed: "
                   +:+ errParent +:+ "): " +:+ diffErr)
        | Ok changes =>
            match changes_Patch changes with
            | Err err =>
                Err ("failed to get patch from changes (fallback to empty tree): "
                       +:+ err)
            | Ok patch => Ok patch
            end
        end
    | Ok parentCommit =>
        match commit_Tree parentCommit with
        | Err errParentTree =>
            Err ("failed to get parent commit tree: " +:+ errParentTree)
        | Ok parentTree =>
            match tree_Patch parentTree currentTree with
            | Err err =>
                Err ("failed to create patch between parent and current tree: "
                       +:+ err)
            | Ok patch => Ok patch
            end
        end
    end.

(** [AnalyzeLatestCommit].  The outer [option] is [None] when the
    function panics: indexing [strings.Split(...)[0]] is a run-time
    panic on an empty slice. *)
Definition AnalyzeLatestCommit (repoPath : string)
  : option (result RepositoryInfo) :=
  match PlainOpen repoPath with
  | Err err =>
      Some (Err ("failed to open repository at " +:+ repoPath +:+ ": " +:+ err))
  | Ok repo =>
  match Head repo with
  | Err err => Some (Err ("failed to get HEAD reference: " +:+ err))
  | Ok headRef =>
  match CommitObject repo headRef with
  | Err err => Some (Err ("failed to get latest commit object: " +:+ err))
  | Ok latestCommit =>
  match go_strings.Split (commit_Message latestCommit) (String "010"%char "") !! 0%nat with
  | None => None
  | Some firstLine =>
  let commitInfo :=
    {| Hash := commit_Hash latestCommit;
       Message := firstLine;
       Author := object.Name (commit_Author latestCommit);
       Email := object.Email (commit_Author latestCommit);
       Date := object.When (commit_Author latestCommit) |} in
  let '(totalAdded, totalDeleted) :=
    match commit_Stats latestCommit with
    | Err _ => (0, 0)
    | Ok commitStats => sumStats commitStats
    end in
  match commit_Tree latestCommit with
  | Err err => Some (Err ("failed to get commit tree: " +:+ err))
  | Ok currentTree =>
  match latestPatch latestCommit currentTree with
  | Err err => Some (Err err)
  | Ok patch =>
      let changedFileStatsList :=
        match patch with
        | Some patch => collectChangedFiles (object.FilePatches patch)
        | None => []
        end in
      Some (Ok {| URL := "";
                  TempPath := repoPath;
                  LatestCommit := commitInfo;
                  ChangedFiles := changedFileStatsList;
                  TotalLinesAdded := totalAdded;
                  TotalLinesDeleted := totalDeleted |})
  end end end end end end.

End Analyzer.

End git.

(** ** Package [internal/metrics] *)

Module metrics.

Record FileTypeStat := { Extension : string; Count : Z }.

Record ComplexityStat := {
  Complexity : Z;
  Package : string;
  FunctionName : string;
  File : string;
  Line : Z;
}.

(** [FileStats] maps an extension to a [*FileTypeStat]; a nil pointer
    stored in the map is [None]. *)
Record OverallStats := {
  TotalLinesAdded : Z;
  TotalLinesDeleted : Z;
  FunctionsOverThreshold : Z;
  AverageComplexity : spec_float;
  FileStats : gmap string (option FileTypeStat);
  ComplexityStats : list ComplexityStat;
}.

(** Modelled from the spec: the StatsAggregator's histogram loop.  The
    package declares only the types above; the function that fills
    [FileStats] is not among the sources.  Spec 4.2: "Builds the
    extension histogram by iterating the changed-file list once,
    incrementing the per-extension counter (creating a new
    zero-initialized entry the first time an extension is seen)". *)
Definition ensureEntry (ext : string) (m : gmap string (option FileTypeStat))
  : gmap string (option FileTypeStat) :=
  match m !! ext with
  | Some _ => m
  | None => <[ ext := Some {| Extension := ext; Count := 0 |} ]> m
  end.

Definition incrementEntry (ext : string) (m : gmap string (option FileTypeStat))
  : gmap string (option FileTypeStat) :=
  alter (fmap (fun st => {| Extension := Extension st;
                            Count := int_add (Count st) 1 |})) ext m.

Definition countFile (m : gmap string (option FileTypeStat))
  (cf : git.ChangedFileStats) : gmap string (option FileTypeStat) :=
  incrementEntry (git.FileType cf) (ensureEntry (git.FileType cf) m).

Definition buildFileStats (changedFiles : list git.ChangedFileStats)
  : gmap string (option FileTypeStat) :=
  fold_left countFile changedFiles ∅.

End metrics.

(** ** Package [html/template] *)

Module html_template.

(** [htmlReplacementTable]: the bytes that [htmlEscaper] rewrites.
    NUL becomes U+FFFD (three bytes in UTF-8); a byte of a multi-byte
    rune lies outside the table and is copied. *)
Definition htmlReplacement (c : ascii) : string :=
  if decide (c = "000"%char) then
    String "239"%char (String "191"%char (String "189"%char ""))
  else if decide (c = "034"%char) then "&#34;"
  else if decide (c = "&"%char) then "&amp;"
  else if decide (c = "'"%char) then "&#39;"
  else if decide (c = "+"%char) then "&#43;"
  else if decide (c = "<"%char) then "&lt;"
  else if decide (c = ">"%char) then "&gt;"
  else String c "".

(** [htmlEscaper] on a value that is not of type [template.HTML]. *)
Definition htmlEscaper (s : string) : string :=
  flat_map_bytes htmlReplacement s.

Definition asciiAlpha (c : ascii) : bool :=
  let n := N_of_ascii c in
  ((65 <=? n) && (n <=? 90) || (97 <=? n) && (n <=? 122))%N.

(** [tText]: a text node keeps the escaper in the text state unless
    it opens a comment or a tag: a [<] followed by [!--], or by an
    ASCII letter, or by [/] and an ASCII letter.  A [<] that is the
    last byte of the node opens nothing. *)
Fixpoint staysText (s : string) : bool :=
  match s with
  | EmptyString => true
  | String c s' =>
      (if decide (c = "<"%char) then
         match s' with
         | EmptyString => true
         | String d s'' =>
             negb (String.prefix "!--" s') &&
             (if decide (d = "/"%char) then
                match s'' with
                | EmptyString => true
                | String d' _ => negb (asciiAlpha d')
                end
              else negb (asciiAlpha d))
         end
       else true) && staysText s'
  end.

(** ASCII upper-casing of one byte. *)
Definition upper_byte (c : ascii) : ascii :=
  let n := N_of_ascii c in
  if ((97 <=? n) && (n <=? 122))%N then ascii_of_N (n - 32) else c.

(** [bytes.HasPrefix(bytes.ToUpper(s), pattern)] for an upper-case
    ASCII [pattern] and ASCII letters in [s]. *)
Fixpoint hasUpperPrefix (pattern s : string) : bool :=
  match pattern, s with
  | EmptyString, _ => true
  | String _ _, EmptyString => false
  | String a pattern', String b s' =>
      Ascii.eqb a (upper_byte b) && hasUpperPrefix pattern' s'
  end.

(** [escapeText] on a text node that stays in the text state: a [<] of
    the template's own text that opens no tag is written as [&lt;],
    unless it starts a [<!DOCTYPE]. *)
Fixpoint escapeText (s : string) : string :=
  match s with
  | EmptyString => ""
  | String c s' =>
      if decide (c = "<"%char) then
        if hasUpperPrefix "!DOCTYPE" s' then String c (escapeText s')
        else "&lt;" +:+ escapeText s'
      else String c (escapeText s')
  end.

End html_template.

(** ** Package [internal/report] *)

Module report.

Import html_template.

(** [Commit] and [Stats] are pointers and may be nil. *)
Record ReportData := {
  RepoURL : string;
  ReportDate : string;
  BadgeURL : string;
  Commit : option git.CommitInfo;
  Stats : option metrics.OverallStats;
  ComplexityThreshold : Z;
}.

(** *** Template execution

    [Execute] writes to the file as it goes: the state of an execution
    is the text written so far and the error that stopped it, if any. *)
Definition exec : Type := string * option error.

Definition seq (a b : exec) : exec :=
  match a with
  | (out, Some err) => (out, Some err)
  | (out, None) => (out +:+ fst b, snd b)
  end.

Declare Scope exec_scope.
Delimit Scope exec_scope with exec.
Bind Scope exec_scope with exec.
Notation "a ;; b" := (seq a b)
  (at level 100, b at level 200, right associativity) : exec_scope.
Local Open Scope exec_scope.

(** A text node of the template, after html/template's escape pass. *)
Definition text (s : string) : exec := (escapeText s, None).

(** An action [{{pipeline}}] in the text state: the escape pass
    appends [_html_template_htmlescaper] to the pipeline. *)
Definition action (value : string) : exec := (htmlEscaper value, None).

(** Field access through a pointer: a nil pointer stops the execution. *)
Definition field {A : Type} (typ name : string) (ptr : option A)
  (get : A -> string) : exec :=
  match ptr with
  | Some a => action (get a)
  | None => ("", Some ("nil pointer evaluating " +:+ typ +:+ "." +:+ name))
  end.

(** The body of a [range], once per element. *)
Fixpoint range {A : Type} (body : A -> exec) (l : list A) : exec :=
  match l with
  | [] => ("", None)
  | x :: l' => body x ;; range body l'
  end.

(** text/template visits a map in the order of its sorted keys. *)
Definition sortedEntries {V : Type} (m : gmap string V) : list (string * V) :=
  merge_sort (fun a b => String.le (fst a) (fst b)) (map_to_list m).

Definition commitField (data : ReportData) (name : string)
  (get : git.CommitInfo -> string) : exec :=
  field "*git.CommitInfo" name (Commit data) get.

Definition statsField (data : ReportData) (name : string)
  (get : metrics.OverallStats -> string) : exec :=
  field "*metrics.OverallStats" name (Stats data) get.

(** Lines 20-22 of the template. *)
Definition badgeSection (data : ReportData) : exec :=
  if decide (BadgeURL data = "") then ("", None)
  else
    text "
![ZenWatch Stats](" ;; action (BadgeURL data) ;; text ")
".

(** Lines 38-40: one row per entry of [FileStats]. *)
Definition fileTypeRow (entry : string * option metrics.FileTypeStat) : exec :=
  text "| " ;; action (fst entry) ;; text " | " ;;
  field "*metrics.FileTypeStat" "Count" (snd entry)
    (fun stat => go_fmt.fmt_d (metrics.Count stat)) ;;
  text " |
".

Definition fileTypeRows (data : ReportData) : exec :=
  match Stats data with
  | None => ("", Some "nil pointer evaluating *metrics.OverallStats.FileStats")
  | Some stats => range fileTypeRow (sortedEntries (metrics.FileStats stats))
  end.

(** Line 51: one row per [ComplexityStat]. *)
Definition complexityRow (stat : metrics.ComplexityStat) : exec :=
  text "| " ;; action (go_fmt.fmt_d (metrics.Complexity stat)) ;;
  text " | " ;; action (metrics.FunctionName stat) ;;
  text "                     | " ;; action (metrics.File stat) ;;
  text ":" ;; action (go_fmt.fmt_d (metrics.Line stat)) ;;
  text " | " ;; action (metrics.Package stat) ;;
  text "    |
".

(** Lines 46-55 of the template. *)
Definition complexitySection (data : ReportData) : exec :=
  match Stats data with
  | None =>
      ("", Some "nil pointer evaluating *metrics.OverallStats.FunctionsOverThreshold")
  | Some stats =>
      if 0 <? metrics.FunctionsOverThreshold stats then
        text "### Functions Over Complexity Threshold
| Complexity | Function                               | File:Line        | Package        |
|------------|----------------------------------------|------------------|----------------|
" ;;
        range complexityRow (metrics.ComplexityStats stats) ;;
        text "
"
      else
        text "No functions found with cyclomatic complexity greater than " ;;
        action (go_fmt.fmt_d (ComplexityThreshold data)) ;;
        text ".
"
  end.

(** Lines 15-19 of the template: the header. *)
Definition headerPart (data : ReportData) : exec :=
  text "
# ZenWatch Analysis Report

**Repository:** " ;; action (RepoURL data) ;;
  text "
**Analyzed At:** " ;; action (ReportDate data) ;;
  text "

".

(** Lines 22-28: the commit block. *)
Definition commitPart (data : ReportData) : exec :=
  text "

## Latest Commit Analyzed
- **Hash:** " ;; commitField data "Hash" git.Hash ;;
  text "
- **Author:** " ;; commitField data "Author" git.Author ;;
  text " <" ;; commitField data "Email" git.Email ;;
  text ">
- **Date:** " ;; commitField data "Date" git.Date ;;
  text "
- **Message:** " ;; commitField data "Message" git.Message.

(** Lines 28-40: the code statistics and the file-type table. *)
Definition statsPart (data : ReportData) : exec :=
  text "

## Code Statistics
- **Total Lines Added:** " ;;
  statsField data "TotalLinesAdded"
    (fun stats => go_fmt.fmt_d (metrics.TotalLinesAdded stats)) ;;
  text "
- **Total Lines Deleted:** " ;;
  statsField data "TotalLinesDeleted"
    (fun stats => go_fmt.fmt_d (metrics.TotalLinesDeleted stats)) ;;
  text "
  *Note: Line counts are overall for the commit. Per-file line counts were not available with current git analysis settings.*

### File Type Distribution
| Extension | Count |
|-----------|-------|
" ;;
  fileTypeRows data.

(** Lines 40-46: the head of the complexity section. *)
Definition complexityHead (data : ReportData) : exec :=
  text "

## Cyclomatic Complexity Analysis (Threshold > " ;;
  action (go_fmt.fmt_d (ComplexityThreshold data)) ;;
  text ")
- **Average Complexity (of functions over threshold):** " ;;
  statsField data "AverageComplexity"
    (fun stats => go_fmt.fmt_f 2 (metrics.AverageComplexity stats)) ;;
  text "
- **Functions Over Threshold:** " ;;
  statsField data "FunctionsOverThreshold"
    (fun stats => go_fmt.fmt_d (metrics.FunctionsOverThreshold stats)) ;;
  text "

".

(** [markdownTemplate], executed on [data]: the sections in the order
    of the template, and its last line feed. *)
Definition Execute (data : ReportData) : exec :=
  headerPart data ;;
  badgeSection data ;;
  commitPart data ;;
  statsPart data ;;
  complexityHead data ;;
  complexitySection data ;;
  text "
".

(** What the environment decides for one run of
    [GenerateMarkdownReport]: the directory part of a path
    ([filepath.Dir]) and the outcomes of [os.MkdirAll] and
    [os.Create]. *)
Record FileEnv := {
  Dir : string -> string;
  MkdirAll : string -> option error;
  Create : string -> option error;
}.

(** [GenerateMarkdownReport]: the content of the file at [outputPath]
    after the call ([None] if the file was not created) and the error
    returned.  The fixed template parses; writes to the created file
    succeed. *)
Definition GenerateMarkdownReport (env : FileEnv) (data : ReportData)
  (outputPath : string) : option string * option error :=
  let outputDir := Dir env outputPath in
  match MkdirAll env outputDir with
  | Some err =>
      (None, Some ("failed to create output directory " +:+ outputDir +:+ ": " +:+ err))
  | None =>
      match Create env outputPath with
      | Some err =>
          (None, Some ("failed to create report file " +:+ outputPath +:+ ": " +:+ err))
      | None =>
          match Execute data with
          | (out, Some err) => (Some out, Some ("failed to execute template: " +:+ err))
          | (out, None) => (Some out, None)
          end
      end
  end.

(** [GenerateBadgeURL]. *)
Definition GenerateBadgeURL (totalChangedLines : Z) (avgComplexity : spec_float)
  : string :=
  let label := "ZenWatch" in
  let message :=
    "changes " +:+ go_fmt.fmt_d totalChangedLines +:+
    " | avg complx " +:+ go_fmt.fmt_f 1 avgComplexity in
  let color := "blue" in
  let safeMessage := go_strings.ReplaceAll message " " "%20" in
  let safeMessage := go_strings.ReplaceAll safeMessage "|" "%7C" in
  "https://img.shields.io/badge/" +:+ label +:+ "-" +:+ safeMessage +:+ "-" +:+ color.

End report.

(** ** The statements' vocabulary *)

Module Spec.

(** The line feed, Go's ["\n"]. *)
Definition LF : ascii := "010"%char.

(** The badge message as the specification words it:
    "changes {n} | avg complx {a to one decimal place}". *)
Definition badge_message (n : Z) (a : spec_float) : string :=
  "changes " +:+ go_fmt.fmt_d n +:+ " | avg complx " +:+ go_fmt.fmt_f 1 a.

(** A space is written [%20], the pipe [%7C], any other byte itself. *)
Definition percent_encode_byte (c : ascii) : string :=
  if decide (c = " "%char) then "%20"
  else if decide (c = "|"%char) then "%7C"
  else String c "".

Definition percent_encode (s : string) : string :=
  flat_map_bytes percent_encode_byte s.

(** The badge image line of a report, for a URL as it is to appear. *)
Definition badge_line (shown : string) : string :=
  "
![ZenWatch Stats](" +:+ shown +:+ ")
".

(** What the report shows for a badge URL. *)
Definition badge_part (url : string) : string :=
  if decide (url = "") then "" else badge_line (html_template.htmlEscaper url).

(** The bytes that html/template's escaper leaves as they are. *)
Definition html_plain (c : ascii) : bool :=
  if decide (html_template.htmlReplacement c = String c "") then true else false.

(** The sentence of a report without flagged functions. *)
Definition no_functions_sentence (threshold : Z) : string :=
  "No functions found with cyclomatic complexity greater than "
    +:+ go_fmt.fmt_d threshold +:+ ".".

(** The head of the complexity table. *)
Definition complexity_table_head : string :=
  "### Functions Over Complexity Threshold
| Complexity | Function                               | File:Line        | Package        |
|------------|----------------------------------------|------------------|----------------|
".

(** One row of the complexity table: complexity, function name,
    file:line, package. *)
Definition complexity_table_row (stat : metrics.ComplexityStat) : string :=
  "| " +:+ go_fmt.fmt_d (metrics.Complexity stat) +:+
  " | " +:+ html_template.htmlEscaper (metrics.FunctionName stat) +:+
  "                     | " +:+ html_template.htmlEscaper (metrics.File stat) +:+
  ":" +:+ go_fmt.fmt_d (metrics.Line stat) +:+
  " | " +:+ html_template.htmlEscaper (metrics.Package stat) +:+
  "    |
".

(** The commit author line of a report. *)
Definition author_line (author email : string) : string :=
  "- **Author:** " +:+ html_template.htmlEscaper author +:+
  " &lt;" +:+ html_template.htmlEscaper email +:+ ">".

(** The double quote. *)
Definition DQUOTE : ascii := "034"%char.

(** The carriage return, Go's ["\r"]. *)
Definition CR : ascii := "013"%char.

(** The text before the first line break of [s], where a line break is
    a line feed or a carriage return and a line feed; all of [s] when
    it has no line break. *)
Fixpoint text_before_line_break (s : string) : string :=
  match s with
  | EmptyString => ""
  | String c rest =>
      if decide (c = LF) then ""
      else if decide (c = CR /\ String.prefix (String LF "") rest = true) then ""
      else String c (text_before_line_break rest)
  end.

(** The seven bytes that are not shown as they are in the text of an
    HTML page, each with what stands for it: the replacement character
    U+FFFD (three bytes in UTF-8) for NUL, a character reference for
    the others. *)
Definition escape_table : list (ascii * string) :=
  [ ("000"%char, String "239"%char (String "191"%char (String "189"%char "")));
    (DQUOTE, "&#34;");
    ("&"%char, "&amp;");
    ("'"%char, "&#39;");
    ("+"%char, "&#43;");
    ("<"%char, "&lt;");
    (">"%char, "&gt;") ].

(** [c] is one of the seven bytes. *)
Definition escaped_byte (c : ascii) : bool :=
  existsb (Ascii.eqb c) (map fst escape_table).

(** What the table gives for a byte: its entry, or the byte itself. *)
Definition written_for (c : ascii) : string :=
  match find (fun entry => Ascii.eqb c (fst entry)) escape_table with
  | Some entry => snd entry
  | None => String c ""
  end.

(** A text with none of the seven bytes. *)
Definition shown_verbatim (s : string) : bool :=
  forallb (fun c => negb (escaped_byte c)) (chars s).

(** How often the byte [c] occurs in [s]. *)
Definition count_byte (c : ascii) (s : string) : nat :=
  count_occ ascii_dec (chars s) c.

(** The character references html/template writes, after their [&]. *)
Definition entity_bodies : list string :=
  [ "amp;"; "lt;"; "gt;"; "#39;"; "#34;"; "#43;" ].

(** Every [&] of [s] starts one of those character references. *)
Fixpoint entities_only (s : string) : bool :=
  match s with
  | EmptyString => true
  | String c s' =>
      (if decide (c = "&"%char)
       then existsb (fun body => String.prefix body s') entity_bodies
       else true) && entities_only s'
  end.

(** [s], put before a text whose [&]s all start character references,
    gives such a text again. *)
Definition entity_closed (s : string) : Prop :=
  forall rest, entities_only rest = true -> entities_only (s +:+ rest) = true.

(** The markup bytes that no report holds: [<], ['] and the double
    quote. *)
Definition raw_markup (c : ascii) : bool :=
  existsb (Ascii.eqb c) [ "<"%char; "'"%char; DQUOTE ].

Definition markup_free (s : string) : bool :=
  forallb (fun c => negb (raw_markup c)) (chars s).

(** The header of a report. *)
Definition report_header (data : report.ReportData) : string :=
  "
# ZenWatch Analysis Report

**Repository:** " +:+ html_template.htmlEscaper (report.RepoURL data) +:+
  "
**Analyzed At:** " +:+ html_template.htmlEscaper (report.ReportDate data) +:+
  "

".

(** One visit of a file of extension [ext], seen from the map entry of
    [ext]: a missing entry is created with count zero, and the entry is
    incremented. *)
Definition visit (ext : string) (entry : option (option metrics.FileTypeStat))
  : option (option metrics.FileTypeStat) :=
  Some (match entry with
        | None => Some {| metrics.Extension := ext; metrics.Count := int_add 0 1 |}
        | Some ptr =>
            (fun st => {| metrics.Extension := metrics.Extension st;
                          metrics.Count := int_add (metrics.Count st) 1 |}) <$> ptr
        end).

(** The commit block of a report. *)
Definition commit_block (commit : git.CommitInfo) : string :=
  "

## Latest Commit Analyzed
- **Hash:** " +:+ html_template.htmlEscaper (git.Hash commit) +:+ "
" +:+ author_line (git.Author commit) (git.Email commit) +:+ "
- **Date:** " +:+ html_template.htmlEscaper (git.Date commit) +:+ "
- **Message:** " +:+ html_template.htmlEscaper (git.Message commit).

(** The code statistics and the head of the file-type table. *)
Definition stats_block (stats : metrics.OverallStats) : string :=
  "

## Code Statistics
- **Total Lines Added:** " +:+ go_fmt.fmt_d (metrics.TotalLinesAdded stats) +:+ "
- **Total Lines Deleted:** " +:+ go_fmt.fmt_d (metrics.TotalLinesDeleted stats) +:+ "
  *Note: Line counts are overall for the commit. Per-file line counts were not available with current git analysis settings.*

### File Type Distribution
| Extension | Count |
|-----------|-------|
".

(** One row of the file-type table. *)
Definition file_type_row (row : string * metrics.FileTypeStat) : string :=
  "| " +:+ html_template.htmlEscaper (fst row) +:+ " | "
    +:+ go_fmt.fmt_d (metrics.Count (snd row)) +:+ " |
".

(** The head of the complexity section. *)
Definition complexity_head (threshold : Z) (stats : metrics.OverallStats) : string :=
  "

## Cyclomatic Complexity Analysis (Threshold > " +:+ go_fmt.fmt_d threshold +:+ ")
- **Average Complexity (of functions over threshold):** "
    +:+ html_template.htmlEscaper (go_fmt.fmt_f 2 (metrics.AverageComplexity stats)) +:+ "
- **Functions Over Threshold:** "
    +:+ go_fmt.fmt_d (metrics.FunctionsOverThreshold stats) +:+ "

".

(** The complexity table, or the sentence that stands for it. *)
Definition complexity_section (threshold : Z) (stats : metrics.OverallStats) : string :=
  if 0 <? metrics.FunctionsOverThreshold stats then
    complexity_table_head
      +:+ sconcat (map complexity_table_row (metrics.ComplexityStats stats)) +:+ "
"
  else no_functions_sentence threshold +:+ "
".

(** A whole report, every field written through the HTML escaper;
    [rows] are the entries of [FileStats] in the order of their keys. *)
Definition report_text (data : report.ReportData) (commit : git.CommitInfo)
  (stats : metrics.OverallStats) (rows : list (string * metrics.FileTypeStat)) : string :=
  report_header data +:+ badge_part (report.BadgeURL data) +:+ commit_block commit
    +:+ stats_block stats +:+ sconcat (map file_type_row rows)
    +:+ complexity_head (report.ComplexityThreshold data) stats
    +:+ complexity_section (report.ComplexityThreshold data) stats +:+ "
".

(** An entry of [FileStats] whose pointer is not nil. *)
Definition present (row : string * metrics.FileTypeStat)
  : string * option metrics.FileTypeStat :=
  (fst row, Some (snd row)).

(** The number of changed files of a given file type. *)
Definition files_of_type (ext : string) (files : list git.ChangedFileStats) : nat :=
  length (filter (fun cf => git.FileType cf = ext) files).

(** [data] with another badge URL. *)
Definition with_badge (url : string) (data : report.ReportData) : report.ReportData :=
  {| report.RepoURL := report.RepoURL data;
     report.ReportDate := report.ReportDate data;
     report.BadgeURL := url;
     report.Commit := report.Commit data;
     report.Stats := report.Stats data;
     report.ComplexityThreshold := report.ComplexityThreshold data |}.

(** [stats] with another list of flagged functions. *)
Definition with_complexity (l : list metrics.ComplexityStat)
  (stats : metrics.OverallStats) : metrics.OverallStats :=
  {| metrics.TotalLinesAdded := metrics.TotalLinesAdded stats;
     metrics.TotalLinesDeleted := metrics.TotalLinesDeleted stats;
     metrics.FunctionsOverThreshold := metrics.FunctionsOverThreshold stats;
     metrics.AverageComplexity := metrics.AverageComplexity stats;
     metrics.FileStats := metrics.FileStats stats;
     metrics.ComplexityStats := l |}.

Definition with_stats (stats : option metrics.OverallStats)
  (data : report.ReportData) : report.ReportData :=
  {| report.RepoURL := report.RepoURL data;
     report.ReportDate := report.ReportDate data;
     report.BadgeURL := report.BadgeURL data;
     report.Commit := report.Commit data;
     report.Stats := stats;
     report.ComplexityThreshold := report.ComplexityThreshold data |}.

End Spec.

(** ** Concrete inputs *)

Module Fixture.

(** The float64 18.0: mantissa [18 * 2^48], exponent [-48]. *)
Definition float_18 : spec_float := S754_finite false 5066549580791808 (-48).

Definition path_patch (p : string) : object.FilePatch :=
  {| object.from := None; object.to := Some {| object.Path := p |} |}.

(** A depth-1 clone as go-git presents it: the head commit names one
    parent, which is not in the object store, so [Stats()] and
    [Parent(0)] fail and the tree is compared with the empty tree.
    The patch lists an added file, a deleted file, an entry with no
    file on either side, and a file whose name has no extension. *)
Definition shallowClone : VersionControlProvider :=
  {| Repository := unit;
     Commit := unit;
     Tree := unit;
     Changes := unit;
     PlainOpen := fun _ => Ok tt;
     Head := fun _ => Ok "6ecf0ef2c2dffb796033e5a02219af86ec6584e5";
     CommitObject := fun _ _ => Ok tt;
     commit_Hash := fun _ => "6ecf0ef2c2dffb796033e5a02219af86ec6584e5";
     commit_Message := fun _ => "add feature

Adds vendor/foo.go.
";
     commit_Author := fun _ =>
       {| object.Name := "Max Cong";
          object.Email := "max@git-extensions.com";
          object.When := "2015-04-05 23:30:47 +0200 +0200" |};
     commit_Stats := fun _ => Err "object not found";
     commit_Tree := fun _ => Ok tt;
     commit_NumParents := fun _ => 1%nat;
     commit_Parent := fun _ _ => Err "object not found";
     DiffTree := fun _ _ => Ok tt;
     changes_Patch := fun _ =>
       Ok (Some {| object.FilePatches :=
                     [ path_patch "vendor/foo.GO";
                       {| object.from := Some {| object.Path := "old.txt" |};
                          object.to := None |};
                       {| object.from := None; object.to := None |};
                       path_patch "LICENSE" ] |});
     tree_Patch := fun _ _ => Err "not called" |}.

(** The same clone with a commit message written with CR LF line
    endings. *)
Definition crlfClone : VersionControlProvider :=
  {| Repository := unit;
     Commit := unit;
     Tree := unit;
     Changes := unit;
     PlainOpen := fun _ => Ok tt;
     Head := fun _ => Ok "6ecf0ef2c2dffb796033e5a02219af86ec6584e5";
     CommitObject := fun _ _ => Ok tt;
     commit_Hash := fun _ => "6ecf0ef2c2dffb796033e5a02219af86ec6584e5";
     commit_Message := fun _ =>
       "fix line endings"
         +:+ String "013"%char (String "010"%char
               (String "013"%char (String "010"%char "Body.")));
     commit_Author := fun _ =>
       {| object.Name := "Max Cong";
          object.Email := "max@git-extensions.com";
          object.When := "2015-04-05 23:30:47 +0200 +0200" |};
     commit_Stats := fun _ => Err "object not found";
     commit_Tree := fun _ => Ok tt;
     commit_NumParents := fun _ => 1%nat;
     commit_Parent := fun _ _ => Err "object not found";
     DiffTree := fun _ _ => Ok tt;
     changes_Patch := fun _ =>
       Ok (Some {| object.FilePatches := [ path_patch "LICENSE" ] |});
     tree_Patch := fun _ _ => Err "not called" |}.

(** The paths of the fixture are ASCII: the rune table is not consulted. *)
Definition asciiOnly (s : string) : string := s.

(** What [AnalyzeLatestCommit] returns for [shallowClone]. *)
Definition shallowInfo : git.RepositoryInfo :=
  {| git.URL := "";
     git.TempPath := "/tmp/zenwatch-clone-1";
     git.LatestCommit :=
       {| git.Hash := "6ecf0ef2c2dffb796033e5a02219af86ec6584e5";
          git.Message := "add feature";
          git.Author := "Max Cong";
          git.Email := "max@git-extensions.com";
          git.Date := "2015-04-05 23:30:47 +0200 +0200" |};
     git.ChangedFiles :=
       [ {| git.Path := "vendor/foo.GO"; git.FileType := ".go";
            git.LinesAdded := 0; git.LinesDeleted := 0 |};
         {| git.Path := "old.txt"; git.FileType := ".txt";
            git.LinesAdded := 0; git.LinesDeleted := 0 |};
         {| git.Path := "LICENSE"; git.FileType := "";
            git.LinesAdded := 0; git.LinesDeleted := 0 |} ];
     git.TotalLinesAdded := 0;
     git.TotalLinesDeleted := 0 |}.

Definition commit : git.CommitInfo :=
  {| git.Hash := "a1b2c3d4e5f6";
     git.Message := "feat: implement amazing new features";
     git.Author := "Jules Verne";
     git.Email := "jules@example.com";
     git.Date := "Wed, 04 Jun 2025 04:50:44 UTC" |}.

(** The data of [main_test_report.go]. *)
Definition overallStats : metrics.OverallStats :=
  {| metrics.TotalLinesAdded := 150;
     metrics.TotalLinesDeleted := 30;
     metrics.FunctionsOverThreshold := 2;
     metrics.AverageComplexity := float_18;
     metrics.FileStats :=
       <[ ".go" := Some {| metrics.Extension := ".go"; metrics.Count := 5 |} ]>
         (<[ ".md" := Some {| metrics.Extension := ".md"; metrics.Count := 2 |} ]> ∅);
     metrics.ComplexityStats :=
       [ {| metrics.Complexity := 20; metrics.Package := "main";
            metrics.FunctionName := "complexFunc";
            metrics.File := "main.go"; metrics.Line := 42 |};
         {| metrics.Complexity := 16; metrics.Package := "helper";
            metrics.FunctionName := "anotherComplex";
            metrics.File := "utils/helper.go"; metrics.Line := 101 |} ] |}.

Definition reportData (badge : string) : report.ReportData :=
  {| report.RepoURL := "https://github.com/user/testrepo";
     report.ReportDate := "2025-06-04 04:50:44 UTC";
     report.BadgeURL := badge;
     report.Commit := Some commit;
     report.Stats := Some overallStats;
     report.ComplexityThreshold := 15 |}.

(** The same report with no function over the threshold. *)
Definition quietStats : metrics.OverallStats :=
  {| metrics.TotalLinesAdded := 150;
     metrics.TotalLinesDeleted := 30;
     metrics.FunctionsOverThreshold := 0;
     metrics.AverageComplexity := S754_zero false;
     metrics.FileStats := metrics.FileStats overallStats;
     metrics.ComplexityStats := metrics.ComplexityStats overallStats |}.

Definition quietData : report.ReportData :=
  Spec.with_stats (Some quietStats) (reportData "").

(** A commit whose author fields hold markup characters. *)
Definition markupCommit : git.CommitInfo :=
  {| git.Hash := "a1b2c3d4e5f6";
     git.Message := "fix: compare a<b && c>d in 'parse'";
     git.Author := "Verne & Sons <R&D>";
     git.Email := "jules+zen@example.com";
     git.Date := "Wed, 04 Jun 2025 04:50:44 UTC" |}.

Definition markupData : report.ReportData :=
  {| report.RepoURL := "https://github.com/user/testrepo?tab=readme&plain=1";
     report.ReportDate := "2025-06-04 04:50:44 UTC";
     report.BadgeURL := "";
     report.Commit := Some markupCommit;
     report.Stats := Some overallStats;
     report.ComplexityThreshold := 15 |}.

(** The content of [test_report_no_badge.md], which the repository
    keeps as the output of [main_test_report.go], with the line feeds
    that end the template after the last row of the table. *)
Definition test_report_no_badge : string :=
  "
# ZenWatch Analysis Report

**Repository:** https://github.com/user/testrepo
**Analyzed At:** 2025-06-04 04:50:44 UTC



## Latest Commit Analyzed
- **Hash:** a1b2c3d4e5f6
- **Author:** Jules Verne &lt;jules@example.com>
- **Date:** Wed, 04 Jun 2025 04:50:44 UTC
- **Message:** feat: implement amazing new features

## Code Statistics
- **Total Lines Added:** 150
- **Total Lines Deleted:** 30
  *Note: Line counts are overall for the commit. Per-file line counts were not available with current git analysis settings.*

### File Type Distribution
| Extension | Count |
|-----------|-------|
| .go | 5 |
| .md | 2 |


## Cyclomatic Complexity Analysis (Threshold > 15)
- **Average Complexity (of functions over threshold):** 18.00
- **Functions Over Threshold:** 2

### Functions Over Complexity Threshold
| Complexity | Function                               | File:Line        | Package        |
|------------|----------------------------------------|------------------|----------------|
| 20 | complexFunc                     | main.go:42 | main    |
| 16 | anotherComplex                     | utils/helper.go:101 | helper    |


".

(** A file system in which every directory and file can be created. *)
Definition fileEnv : report.FileEnv :=
  {| report.Dir := fun _ => ".";
     report.MkdirAll := fun _ => None;
     report.Create := fun _ => None |}.

(** A badge URL with a query string. *)
Definition queryBadge : string :=
  "https://img.shields.io/badge/ZenWatch-ok-blue?style=flat&logo=git".

(** A clone that fails after it has written into the directory. *)
Definition failingClone : os.Env :=
  {| os.MkdirTemp := fun _ _ _ => Ok "/tmp/zenwatch-clone-1";
     os.PlainClone := fun dir _ fs =>
       ({[ dir +:+ "/.git" ]} ∪ fs, Some "repository not found") |}.

Definition someFiles : gset string := {[ "/tmp/other"; "/home/user/notes.txt" ]}.

End Fixture.

(** ** Package [flag] of the Go standard library, as the command uses it *)

Module flag.

(** One [FlagSet] named [analyze] with the single string flag [out] and
    error handling [ExitOnError]. *)

(** What [Parse] leaves: the value of [out] and the remaining arguments,
    or the reason it exits the process. *)
Inductive parsed : Type :=
| Parsed (out : string) (args : list string)
| Help
| Failed (message : string).

(** A flag's text after its minuses is split at the first [=] that is
    not its first byte: the name, and the value if there is one. *)
Fixpoint split_value (name : string) : string * option string :=
  match name with
  | EmptyString => ("", None)
  | String c rest =>
      if decide (c = "="%char) then ("", Some rest)
      else let '(n, v) := split_value rest in (String c n, v)
  end.

Definition name_value (name : string) : string * option string :=
  match name with
  | EmptyString => ("", None)
  | String c rest => let '(n, v) := split_value rest in (String c n, v)
  end.

(** What [parseOne] does once it holds a flag's name and value; [rest]
    are the arguments after the flag. *)
Inductive flag_step : Type :=
| SetOut (value : string)
| SetOutNext
| StepHelp
| StepFailed (message : string).

(** [parseOne] on the first argument [s]: [None] when [s] is no flag
    (shorter than two bytes, or not starting with a minus) or is the
    terminator [--], which is dropped ([true]). *)
Definition classify (s : string) : (bool * option flag_step) :=
  match s with
  | String c0 (String c1 s2) =>
      if decide (c0 = "-"%char) then
        if decide (c1 = "-"%char /\ s2 = "") then (true, None)
        else
          let name := if decide (c1 = "-"%char) then s2 else String c1 s2 in
          match name with
          | EmptyString => (false, Some (StepFailed ("bad flag syntax: " +:+ s)))
          | String c _ =>
              if decide (c = "-"%char \/ c = "="%char)
              then (false, Some (StepFailed ("bad flag syntax: " +:+ s)))
              else
                let '(name, value) := name_value name in
                if decide (name = "out") then
                  match value with
                  | Some v => (false, Some (SetOut v))
                  | None => (false, Some SetOutNext)
                  end
                else if decide (name = "help" \/ name = "h") then (false, Some StepHelp)
                else (false,
                      Some (StepFailed ("flag provided but not defined: -" +:+ name)))
          end
      else (false, None)
  | _ => (false, None)
  end.

(** The loop of [Parse] over [parseOne]. *)
Fixpoint Parse (out : string) (arguments : list string) : parsed :=
  match arguments with
  | [] => Parsed out []
  | s :: rest =>
      match classify s with
      | (true, _) => Parsed out rest
      | (false, None) => Parsed out arguments
      | (false, Some (SetOut v)) => Parse v rest
      | (false, Some SetOutNext) =>
          match rest with
          | v :: rest' => Parse v rest'
          | [] => Failed "flag needs an argument: -out"
          end
      | (false, Some StepHelp) => Help
      | (false, Some (StepFailed message)) => Failed message
      end
  end.

(** [defaultUsage]: what [Usage()] writes to standard error. *)
Definition usage : string :=
  "Usage of analyze:
  -out string
    " +:+ String "009"%char "Path to save the output Markdown report (default "
    +:+ String "034"%char "reports/latest.md" +:+ String "034"%char ")
".

End flag.

(** ** Command [zenwatch] *)

Module zenwatch.

(** What a run of the command shows: standard output, standard error and
    the exit status. *)
Record run := { stdout : string; stderr : string; status : Z }.

(** [main], on the arguments of the process ([os.Args]). *)
Definition main (Args : list string) : run :=
  match Args with
  | [] | [_] =>
      {| stdout := "Expected 'analyze' subcommand
"; stderr := ""; status := 1 |}
  | _ :: subcommand :: rest =>
      if decide (subcommand = "analyze") then
        match flag.Parse "reports/latest.md" rest with
        | flag.Help => {| stdout := ""; stderr := flag.usage; status := 0 |}
        | flag.Failed message =>
            {| stdout := "";
               stderr := message +:+ String "010"%char "" +:+ flag.usage;
               status := 2 |}
        | flag.Parsed outFilePath [] =>
            {| stdout := "Usage: zenwatch analyze <repo-url> --out <output-file>
";
               stderr := flag.usage;
               status := 1 |}
        | flag.Parsed outFilePath (repoURL :: _) =>
            {| stdout := "Repository URL: " +:+ repoURL +:+ "
Output File: " +:+ outFilePath +:+ "
";
               stderr := "";
               status := 0 |}
        end
      else
        {| stdout := "Expected 'analyze' subcommand
"; stderr := ""; status := 1 |}
  end.

End zenwatch.

(** ** Program [main_test_report.go] *)

Module test_report.

(** What the environment decides for one run: the two readings of the
    clock, already formatted ([time.Now().Format(...)]), and the file
    system. *)
Record Env := {
  now_RFC1123 : string;
  now_stamp : string;
  files : report.FileEnv;
}.

(** What a run leaves: standard output, the files created with their
    content in the order of creation, and the exit status. *)
Record run := {
  stdout : string;
  written : list (string * string);
  status : Z;
}.

Definition commitInfo (env : Env) : git.CommitInfo :=
  {| git.Hash := "a1b2c3d4e5f6";
     git.Author := "Jules Verne";
     git.Email := "jules@example.com";
     git.Date := now_RFC1123 env;
     git.Message := "feat: implement amazing new features" |}.

Definition reportData (env : Env) (badgeURL : string) : report.ReportData :=
  {| report.RepoURL := "https://github.com/user/testrepo";
     report.ReportDate := now_stamp env;
     report.BadgeURL := badgeURL;
     report.Commit := Some (commitInfo env);
     report.Stats := Some Fixture.overallStats;
     report.ComplexityThreshold := 15 |}.

(** The file a call of [GenerateMarkdownReport] leaves, if it made one. *)
Definition created (outputPath : string) (result : option string * option error)
  : list (string * string) :=
  match fst result with
  | Some content => [(outputPath, content)]
  | None => []
  end.

(** The line [GenerateMarkdownReport] prints when it returns no error
    (line 91 of the report package). *)
Definition generated_line (outputPath : string) : string :=
  "Markdown report generated at " +:+ outputPath +:+ "
".

(** [main]. *)
Definition main (env : Env) : run :=
  let totalChanges :=
    int_add (metrics.TotalLinesAdded Fixture.overallStats)
      (metrics.TotalLinesDeleted Fixture.overallStats) in
  let badgeURL :=
    report.GenerateBadgeURL totalChanges
      (metrics.AverageComplexity Fixture.overallStats) in
  let out0 := "Generated Badge URL: " +:+ badgeURL +:+ "
" in
  let outputFilePath := "test_report.md" in
  let first :=
    report.GenerateMarkdownReport (files env) (reportData env badgeURL) outputFilePath in
  match snd first with
  | Some err =>
      {| stdout := out0 +:+ "Error generating report: " +:+ err +:+ "
";
         written := created outputFilePath first;
         status := 1 |}
  | None =>
      let out1 :=
        out0 +:+ generated_line outputFilePath
          +:+ "Report generation test complete. Check " +:+ outputFilePath +:+ "
" in
      let outputFilePathNoBadge := "test_report_no_badge.md" in
      let second :=
        report.GenerateMarkdownReport (files env) (reportData env "")
          outputFilePathNoBadge in
      match snd second with
      | Some err =>
          {| stdout := out1 +:+ "Error generating report without badge: " +:+ err +:+ "
";
             written := created outputFilePath first
                          ++ created outputFilePathNoBadge second;
             status := 1 |}
      | None =>
          {| stdout :=
               out1 +:+ generated_line outputFilePathNoBadge
                 +:+ "Report generation (no badge) test complete. Check "
                 +:+ outputFilePathNoBadge +:+ "
";
             written := created outputFilePath first
                          ++ created outputFilePathNoBadge second;
             status := 0 |}
      end
  end.

End test_report.

(** ** More of the statements' vocabulary *)

Module Extra.

(** The sum of the added lines of the files of a commit. *)
Definition sum_additions (stats : list object.FileStat) : Z :=
  fold_right (fun fileStat acc => object.Addition fileStat + acc) 0 stats.

Definition sum_deletions (stats : list object.FileStat) : Z :=
  fold_right (fun fileStat acc => object.Deletion fileStat + acc) 0 stats.

(** The sign bit of a float64; not-a-number is printed without a sign. *)
Definition float_sign (a : spec_float) : bool :=
  match a with
  | S754_zero s | S754_infinity s | S754_finite s _ _ => s
  | S754_nan => false
  end.

(** The bytes a number is printed with by [%d] and [%.1f], the
    infinities and not-a-number apart: digits, the minus and the
    point. *)
Definition number_byte (c : ascii) : bool :=
  existsb (Ascii.eqb c) (chars "0123456789-.").

(** Reading a percent-encoded message back: [%20] is a space, [%7C] the
    pipe. *)
Fixpoint percent_decode (s : string) : string :=
  match s with
  | EmptyString => ""
  | String c rest =>
      if decide (c = "%"%char) then
        match rest with
        | String d1 (String d2 rest') =>
            if decide (d1 = "2"%char /\ d2 = "0"%char)
            then String " "%char (percent_decode rest')
            else if decide (d1 = "7"%char /\ d2 = "C"%char)
            then String "|"%char (percent_decode rest')
            else String c (percent_decode rest)
        | _ => String c (percent_decode rest)
        end
      else String c (percent_decode rest)
  end.

(** An ASCII capital letter. *)
Definition upper_case (c : ascii) : bool :=
  let n := N_of_ascii c in ((65 <=? n) && (n <=? 90))%N.

(** The report up to the place where a nil [Commit] stops it. *)
Definition report_until_commit (data : report.ReportData) : string :=
  Spec.report_header data +:+ Spec.badge_part (report.BadgeURL data) +:+ "

## Latest Commit Analyzed
- **Hash:** ".

(** Two rows of the file-type table in the order of the report: the
    extension of the first is below that of the second. *)
Definition row_before (a b : string * metrics.FileTypeStat) : Prop :=
  String.le (fst a) (fst b) /\ fst a <> fst b.

End Extra.

(** ** More concrete inputs *)

Module Sample.

(** A clone with its history: the head commit has a parent that loads,
    [Stats()] succeeds, and the patch between the two trees renames
    nothing. *)
Definition fullClone : VersionControlProvider :=
  {| Repository := unit;
     Commit := bool;
     Tree := bool;
     Changes := unit;
     PlainOpen := fun _ => Ok tt;
     Head := fun _ => Ok "6ecf0ef2c2dffb796033e5a02219af86ec6584e5";
     CommitObject := fun _ _ => Ok true;
     commit_Hash := fun _ => "6ecf0ef2c2dffb796033e5a02219af86ec6584e5";
     commit_Message := fun _ => "add feature";
     commit_Author := fun _ =>
       {| object.Name := "Max Cong";
          object.Email := "max@git-extensions.com";
          object.When := "2015-04-05 23:30:47 +0200 +0200" |};
     commit_Stats := fun _ =>
       Ok [ {| object.StatName := "vendor/foo.go";
               object.Addition := 7; object.Deletion := 0 |};
            {| object.StatName := "CHANGELOG";
               object.Addition := 1; object.Deletion := 3 |} ];
     commit_Tree := fun c => Ok c;
     commit_NumParents := fun c => if c then 1%nat else 0%nat;
     commit_Parent := fun c _ => if c then Ok false else Err "object not found";
     DiffTree := fun _ _ => Err "not called";
     changes_Patch := fun _ => Err "not called";
     tree_Patch := fun _ _ =>
       Ok (Some {| object.FilePatches :=
                     [ Fixture.path_patch "vendor/foo.go";
                       Fixture.path_patch "CHANGELOG" ] |}) |}.

(** A path that holds no repository. *)
Definition notARepository : VersionControlProvider :=
  {| Repository := unit;
     Commit := unit;
     Tree := unit;
     Changes := unit;
     PlainOpen := fun _ => Err "repository does not exist";
     Head := fun _ => Err "not called";
     CommitObject := fun _ _ => Err "not called";
     commit_Hash := fun _ => "";
     commit_Message := fun _ => "";
     commit_Author := fun _ =>
       {| object.Name := ""; object.Email := ""; object.When := "" |};
     commit_Stats := fun _ => Err "not called";
     commit_Tree := fun _ => Err "not called";
     commit_NumParents := fun _ => 0%nat;
     commit_Parent := fun _ _ => Err "not called";
     DiffTree := fun _ _ => Err "not called";
     changes_Patch := fun _ => Err "not called";
     tree_Patch := fun _ _ => Err "not called" |}.

(** A clone that succeeds and writes below the directory only. *)
Definition workingClone : os.Env :=
  {| os.MkdirTemp := fun _ _ _ => Ok "/tmp/zenwatch-clone-1";
     os.PlainClone := fun dir _ fs =>
       ({[ dir +:+ "/.git"; dir +:+ "/LICENSE" ]} ∪ fs, None) |}.

(** Report data whose commit pointer is nil. *)
Definition noCommit : report.ReportData :=
  {| report.RepoURL := "https://github.com/user/testrepo";
     report.ReportDate := "2025-06-04 04:50:44 UTC";
     report.BadgeURL := "";
     report.Commit := None;
     report.Stats := Some Fixture.overallStats;
     report.ComplexityThreshold := 15 |}.

Definition clock : test_report.Env :=
  {| test_report.now_RFC1123 := "Wed, 04 Jun 2025 04:50:44 UTC";
     test_report.now_stamp := "2025-06-04 04:50:44 UTC";
     test_report.files := Fixture.fileEnv |}.

End Sample.

(** ** Proof automation *)

(** Replaces every text node of the goal by the text it writes. *)
Ltac norm_text :=
  repeat match goal with
    | |- context [report.text ?s] =>
        let v := eval vm_compute in (html_template.escapeText s) in
        change (report.text s) with (v, @None error)
    end.

(** Re-associates appends to the right; [lem] is associativity. *)
Ltac assoc_r_with lem :=
  repeat match goal with
    | |- context [(?a +:+ ?b) +:+ ?c] => rewrite (lem a b c)
    end.

(** Proves that what an execution writes satisfies a predicate, from
    tactics that reduce the goal for a sequence, an action, a field
    access and a range; [on_text] proves it for a text node. *)
Ltac closed_exec on_seq on_action on_field on_range on_text :=
  repeat match goal with
    | |- context [fst ?e] =>
        lazymatch e with
        | report.seq _ _ => on_seq
        | report.action _ => on_action
        | report.field _ _ _ _ => on_field
        | report.range _ _ => on_range; intros ?
        | _ => on_text
        end
    end.


(** * Properties *)

(** ** Byte sequences *)

Lemma append_nil_r (s : string) : s +:+ "" = s.
Proof. induction s as [|c s IH]; [done|]. unfold String.app in *. simpl. by rewrite IH. Qed.

Lemma append_assoc (a b c : string) : (a +:+ b) +:+ c = a +:+ (b +:+ c).
Proof. induction a as [|x a IH]; [done|]. unfold String.app in *. simpl. by rewrite IH. Qed.

Lemma append_cons (c : ascii) (a b : string) : String c a +:+ b = String c (a +:+ b).
Proof. done. Qed.

Lemma chars_app (a b : string) : chars (a +:+ b) = chars a ++ chars b.
Proof. induction a as [|x a IH]; [done|]. rewrite append_cons. unfold chars in *. simpl. by rewrite IH. Qed.

Lemma chars_cons (c : ascii) (s : string) : chars (String c s) = c :: chars s.
Proof. done. Qed.

Lemma append_inj_r (a b c : string) : a +:+ c = b +:+ c -> a = b.
Proof.
  intros H. apply (f_equal chars) in H. rewrite !chars_app in H.
  apply app_inv_tail in H. unfold chars in H.
  by rewrite <- (String.string_of_list_ascii_of_string a),
    <- (String.string_of_list_ascii_of_string b), H.
Qed.

Lemma flat_map_bytes_app (f : ascii -> string) (a b : string) :
  flat_map_bytes f (a +:+ b) = flat_map_bytes f a +:+ flat_map_bytes f b.
Proof.
  induction a as [|x a IH]; [done|].
  rewrite append_cons. simpl. by rewrite IH, append_assoc.
Qed.

Lemma flat_map_bytes_ext (f g : ascii -> string) (s : string) :
  (forall c, c ∈ chars s -> f c = g c) -> flat_map_bytes f s = flat_map_bytes g s.
Proof.
  induction s as [|x s IH]; intros H; [done|]. simpl.
  rewrite (H x) by (rewrite chars_cons; left).
  f_equal. apply IH. intros c Hc. apply H. rewrite chars_cons. by right.
Qed.

Lemma flat_map_bytes_id (f : ascii -> string) (s : string) :
  (forall c, c ∈ chars s -> f c = String c "") -> flat_map_bytes f s = s.
Proof.
  induction s as [|x s IH]; intros H; [done|]. simpl.
  rewrite (H x) by (rewrite chars_cons; left).
  rewrite append_cons. f_equal. apply IH. intros c Hc. apply H. rewrite chars_cons. by right.
Qed.

Lemma flat_map_bytes_compose (f g : ascii -> string) (s : string) :
  flat_map_bytes g (flat_map_bytes f s) = flat_map_bytes (fun c => flat_map_bytes g (f c)) s.
Proof.
  induction s as [|x s IH]; [done|]. simpl. by rewrite flat_map_bytes_app, IH.
Qed.

Lemma chars_flat_map_bytes (P : ascii -> Prop) (f : ascii -> string) (s : string) :
  (forall c, c ∈ chars s -> Forall P (chars (f c))) -> Forall P (chars (flat_map_bytes f s)).
Proof.
  induction s as [|x s IH]; intros H; simpl; [constructor|].
  rewrite chars_app. apply Forall_app. split.
  - apply H. rewrite chars_cons. left.
  - apply IH. intros c Hc. apply H. rewrite chars_cons. by right.
Qed.

(** ** [strings.ReplaceAll] with a one-byte pattern *)

Lemma prefix_single (c d : ascii) (s : string) :
  String.prefix (String c "") (String d s) = if decide (d = c) then true else false.
Proof.
  simpl. destruct (ascii_dec c d) as [->|Hne].
  - rewrite decide_True by done. by destruct s.
  - rewrite decide_False; [done|]. intros ->. by apply Hne.
Qed.

Lemma replace_from_single (c : ascii) (new s : string) :
  go_strings.replace_from (String c "") new 0 s
  = flat_map_bytes (fun d => if decide (d = c) then new else String d "") s.
Proof.
  induction s as [|d s IH]; [done|].
  cbn [go_strings.replace_from flat_map_bytes].
  rewrite prefix_single. cbn [String.length Nat.pred].
  destruct (decide (d = c)); rewrite IH; done.
Qed.

Lemma ReplaceAll_single (c : ascii) (new s : string) :
  new <> String c "" ->
  go_strings.ReplaceAll s (String c "") new
  = flat_map_bytes (fun d => if decide (d = c) then new else String d "") s.
Proof.
  intros Hne. unfold go_strings.ReplaceAll.
  rewrite decide_False by (intros H; by apply Hne).
  apply replace_from_single.
Qed.

(** The two replacements of [GenerateBadgeURL], one after the other,
    amount to one pass that encodes each byte on its own. *)
Lemma ReplaceAll_space_pipe (s : string) :
  go_strings.ReplaceAll (go_strings.ReplaceAll s " " "%20") "|" "%7C"
  = Spec.percent_encode s.
Proof.
  rewrite !ReplaceAll_single by done.
  rewrite flat_map_bytes_compose. unfold Spec.percent_encode.
  apply flat_map_bytes_ext. intros c _. unfold Spec.percent_encode_byte.
  destruct (decide (c = " "%char)) as [->|Hs]; [done|].
  cbn [flat_map_bytes]. rewrite append_nil_r.
  destruct (decide (c = "|"%char)); done.
Qed.

Lemma percent_encode_no_space_pipe (s : string) :
  Forall (fun c => c <> " "%char /\ c <> "|"%char) (chars (Spec.percent_encode s)).
Proof.
  apply chars_flat_map_bytes. intros c _. unfold Spec.percent_encode_byte.
  destruct (decide (c = " "%char)); [repeat constructor; done|].
  destruct (decide (c = "|"%char)); repeat constructor; done.
Qed.

(** ** Fixed-point formatting *)

(** [round_scaled] is exact for a non-negative exponent, and otherwise
    within half a unit of the scaled value, a tie going to the even
    neighbour. *)
Lemma round_scaled_nearest (prec : nat) (m : positive) (e : Z) :
  let num := Z.pos m * 10 ^ Z.of_nat prec in
  let q := go_fmt.round_scaled prec m e in
  0 <= q
  /\ (0 <= e -> q = num * 2 ^ e)
  /\ (e < 0 ->
      Z.abs (2 * (q * 2 ^ (- e) - num)) <= 2 ^ (- e)
      /\ (Z.abs (2 * (q * 2 ^ (- e) - num)) = 2 ^ (- e) -> Z.even q = true)).
Proof.
  cbn zeta. unfold go_fmt.round_scaled.
  assert (Hnum : 0 <= Z.pos m * 10 ^ Z.of_nat prec) by (apply Z.mul_nonneg_nonneg; lia).
  destruct (0 <=? e) eqn:He.
  - apply Z.leb_le in He. split; [|split; [done | lia]].
    apply Z.mul_nonneg_nonneg; [done | lia].
  - apply Z.leb_gt in He.
    set (num := Z.pos m * 10 ^ Z.of_nat prec) in *.
    set (den := 2 ^ (- e)).
    assert (Hden : 0 < den) by (apply Z.pow_pos_nonneg; lia).
    pose proof (Z.div_mod num den ltac:(lia)) as Hdm.
    pose proof (Z.mod_pos_bound num den Hden) as Hr.
    pose proof (Z.div_pos num den Hnum Hden) as Hq.
    set (q := num / den) in *. set (r := num mod den) in *.
    destruct ((den <? 2 * r) || (den =? 2 * r) && Z.odd q) eqn:Hup.
    + split; [lia|]. split; [lia|]. intros _.
      apply orb_true_iff in Hup as [Hlt|Htie].
      * apply Z.ltb_lt in Hlt. split; [lia|]. intros Habs. lia.
      * apply andb_true_iff in Htie as [Heq Hodd]. apply Z.eqb_eq in Heq.
        split; [lia|]. intros _. rewrite Z.even_add, <- Z.negb_odd, Hodd. done.
    + split; [lia|]. split; [lia|]. intros _.
      apply orb_false_iff in Hup as [Hlt Htie]. apply Z.ltb_ge in Hlt.
      split; [lia|]. intros Habs.
      assert (Heq : (den =? 2 * r) = true) by (apply Z.eqb_eq; lia).
      rewrite Heq in Htie. cbn in Htie. by rewrite <- Z.negb_odd, Htie.
Qed.

Lemma digits_single (n : Z) :
  0 <= n < 10 ->
  exists d, go_fmt.digits n = String d ""
            /\ existsb (Ascii.eqb d) (chars "0123456789") = true.
Proof.
  intros H. rewrite <- (Z2Nat.id n) by lia.
  assert (Hk : (Z.to_nat n < 10)%nat) by lia.
  revert Hk. generalize (Z.to_nat n). intros k Hk.
  do 10 (destruct k as [|k]; [eexists; split; reflexivity|]). lia.
Qed.

(** With one decimal place a number ends in a point and one digit. *)
Lemma fixed_one_decimal (q : Z) :
  0 <= q ->
  exists d, go_fmt.fixed 1 q = go_fmt.digits (q / 10) +:+ "." +:+ String d ""
            /\ existsb (Ascii.eqb d) (chars "0123456789") = true.
Proof.
  intros Hq. unfold go_fmt.fixed, go_fmt.pad_digits.
  change (10 ^ Z.of_nat 1) with 10.
  destruct (digits_single (q mod 10)) as (d & -> & Hd); [apply Z.mod_pos_bound; lia|].
  exists d. split; [reflexivity | exact Hd].
Qed.

Lemma fmt_f_one_decimal (a : spec_float) :
  In (go_fmt.fmt_f 1 a) [ "NaN"; "+Inf"; "-Inf" ]
  \/ exists whole d,
       go_fmt.fmt_f 1 a = whole +:+ "." +:+ String d ""
       /\ existsb (Ascii.eqb d) (chars "0123456789") = true.
Proof.
  destruct a as [s|s| |s m e]; cbn [go_fmt.fmt_f].
  - right. destruct (fixed_one_decimal 0) as (d & -> & Hd); [lia|].
    exists (go_fmt.sign_string s +:+ go_fmt.digits (0 / 10)), d.
    rewrite append_assoc. done.
  - left. destruct s; cbn; tauto.
  - left. cbn. tauto.
  - right. destruct (round_scaled_nearest 1 m e) as (Hq & _).
    destruct (fixed_one_decimal _ Hq) as (d & -> & Hd).
    exists (go_fmt.sign_string s +:+ go_fmt.digits (go_fmt.round_scaled 1 m e / 10)), d.
    rewrite append_assoc. done.
Qed.

(** C1. [GenerateBadgeURL n a] is the badge-service URL whose label is
    [ZenWatch], whose colour is the constant [blue] and whose message
    segment is "changes n | avg complx a", each space written [%20] and
    the pipe [%7C]: the segment holds neither a space nor a pipe.  The
    number [a] is written with one decimal place: a point and one
    digit end it, unless [a] is not a number or infinite.  For 150 and
    18.0 the segment is [changes%20150%20%7C%20avg%20complx%2018.0]. *)
Theorem GenerateBadgeURL_message_segment :
  (forall (n : Z) (a : spec_float),
     report.GenerateBadgeURL n a
     = "https://img.shields.io/badge/ZenWatch-"
         +:+ Spec.percent_encode (Spec.badge_message n a) +:+ "-blue"
     /\ Forall (fun c => c <> " "%char /\ c <> "|"%char)
          (chars (Spec.percent_encode (Spec.badge_message n a)))
     /\ (In (go_fmt.fmt_f 1 a) [ "NaN"; "+Inf"; "-Inf" ]
         \/ exists whole d,
              go_fmt.fmt_f 1 a = whole +:+ "." +:+ String d ""
              /\ existsb (Ascii.eqb d) (chars "0123456789") = true))
  /\ Spec.percent_encode (Spec.badge_message 150 Fixture.float_18)
     = "changes%20150%20%7C%20avg%20complx%2018.0"
  /\ report.GenerateBadgeURL 150 Fixture.float_18
     = "https://img.shields.io/badge/ZenWatch-changes%20150%20%7C%20avg%20complx%2018.0-blue".
Proof.
  split; [|split; vm_compute; reflexivity].
  intros n a. split; [|split; [apply percent_encode_no_space_pipe|apply fmt_f_one_decimal]].
  unfold report.GenerateBadgeURL. rewrite ReplaceAll_space_pipe. done.
Qed.

(** ** [strings.Split] with a one-byte separator *)

Lemma split_from_single (c : ascii) (s : string) :
  let p := fst (go_strings.split_from (String c "") 0 s) in
  (c ∉ chars p) /\ (s = p \/ exists rest, s = p +:+ String c rest).
Proof.
  induction s as [|d s IH]; cbn zeta.
  - split; [apply not_elem_of_nil | by left].
  - cbn [go_strings.split_from]. rewrite prefix_single.
    destruct (decide (d = c)) as [->|Hne].
    + cbn [String.length Nat.pred].
      destruct (go_strings.split_from (String c "") 0 s) as [p ps]. cbn [fst].
      split; [apply not_elem_of_nil | right; by exists s].
    + destruct (go_strings.split_from (String c "") 0 s) as [p ps].
      cbn [fst] in *. destruct IH as [Hp Hs]. split.
      * rewrite chars_cons, not_elem_of_cons. split; [congruence | done].
      * destruct Hs as [->|[rest ->]]; [by left | right; by exists rest].
Qed.

Lemma Split_single_head (c : ascii) (s : string) :
  exists p ps, go_strings.Split s (String c "") = p :: ps
    /\ (c ∉ chars p) /\ (s = p \/ exists rest, s = p +:+ String c rest).
Proof.
  unfold go_strings.Split.
  pose proof (split_from_single c s) as H. cbn zeta in H.
  destruct (go_strings.split_from (String c "") 0 s) as [p ps].
  exists p, ps. done.
Qed.

(** ** [AnalyzeLatestCommit] *)

Section AnalyzerFacts.

Context `{VCS : VersionControlProvider}.
Variable unicodeLower : string -> string.

Lemma collectChangedFiles_zero (fps : list object.FilePatch) :
  Forall (fun cf => git.LinesAdded cf = 0 /\ git.LinesDeleted cf = 0)
    (git.collectChangedFiles unicodeLower fps).
Proof.
  induction fps as [|fp fps IH]; cbn [git.collectChangedFiles]; [constructor|].
  destruct (decide (git.resolvePath fp = "")); [done|].
  constructor; done.
Qed.

Lemma collectChangedFiles_paths (fps : list object.FilePatch) :
  map git.Path (git.collectChangedFiles unicodeLower fps)
  = filter (fun p => p <> "") (map git.resolvePath fps).
Proof.
  induction fps as [|fp fps IH]; cbn [git.collectChangedFiles map]; [done|].
  destruct (decide (git.resolvePath fp = "")) as [He|Hne].
  - rewrite filter_cons_False by (intros H; by apply H). done.
  - rewrite filter_cons_True by done. cbn [map]. by rewrite IH.
Qed.

Lemma collectChangedFiles_types (fps : list object.FilePatch) :
  Forall (fun cf => git.FileType cf
                    = go_strings.ToLower unicodeLower (go_filepath.Ext (git.Path cf)))
    (git.collectChangedFiles unicodeLower fps).
Proof.
  induction fps as [|fp fps IH]; cbn [git.collectChangedFiles]; [constructor|].
  destruct (decide (git.resolvePath fp = "")); [done|].
  constructor; done.
Qed.

(** The steps of a successful analysis, read back from its result. *)
Lemma AnalyzeLatestCommit_Ok_inv (repoPath : string) (info : git.RepositoryInfo) :
  git.AnalyzeLatestCommit unicodeLower repoPath = Some (Ok info) ->
  exists repo headRef latestCommit firstLine totals currentTree patch,
    PlainOpen repoPath = Ok repo
    /\ Head repo = Ok headRef
    /\ CommitObject repo headRef = Ok latestCommit
    /\ go_strings.Split (commit_Message latestCommit) (String Spec.LF "") !! 0%nat
       = Some firstLine
    /\ totals = match commit_Stats latestCommit with
                | Err _ => (0, 0)
                | Ok commitStats => git.sumStats commitStats
                end
    /\ commit_Tree latestCommit = Ok currentTree
    /\ git.latestPatch latestCommit currentTree = Ok patch
    /\ info = {| git.URL := "";
                 git.TempPath := repoPath;
                 git.LatestCommit :=
                   {| git.Hash := commit_Hash latestCommit;
                      git.Message := firstLine;
                      git.Author := object.Name (commit_Author latestCommit);
                      git.Email := object.Email (commit_Author latestCommit);
                      git.Date := object.When (commit_Author latestCommit) |};
                 git.ChangedFiles :=
                   match patch with
                   | Some patch =>
                       git.collectChangedFiles unicodeLower (object.FilePatches patch)
                   | None => []
                   end;
                 git.TotalLinesAdded := fst totals;
                 git.TotalLinesDeleted := snd totals |}.
Proof.
  unfold git.AnalyzeLatestCommit. intros H.
  destruct (PlainOpen repoPath) as [repo|] eqn:Hopen; [|discriminate].
  destruct (Head repo) as [headRef|] eqn:Hhead; [|discriminate].
  destruct (CommitObject repo headRef) as [latestCommit|] eqn:Hcommit; [|discriminate].
  fold Spec.LF in H.
  destruct (go_strings.Split _ _ !! 0%nat) as [firstLine|] eqn:Hsplit; [|discriminate].
  set (totals := match commit_Stats latestCommit with
                 | Err _ => (0, 0)
                 | Ok commitStats => git.sumStats commitStats
                 end) in *.
  destruct totals as [totalAdded totalDeleted] eqn:Htotals.
  destruct (commit_Tree latestCommit) as [currentTree|] eqn:Htree; [|discriminate].
  destruct (git.latestPatch latestCommit currentTree) as [patch|] eqn:Hpatch;
    [|discriminate].
  injection H as <-.
  exists repo, headRef, latestCommit, firstLine, (totalAdded, totalDeleted),
    currentTree, patch.
  repeat split; try done.
Qed.

End AnalyzerFacts.

(** C2. Whenever [AnalyzeLatestCommit] succeeds, every entry of the
    returned [ChangedFiles] has [LinesAdded = 0] and [LinesDeleted = 0]. *)
Theorem per_file_line_counts_are_zero `{VCS : VersionControlProvider}
  (unicodeLower : string -> string) (repoPath : string) (info : git.RepositoryInfo) :
  git.AnalyzeLatestCommit unicodeLower repoPath = Some (Ok info) ->
  Forall (fun cf => git.LinesAdded cf = 0 /\ git.LinesDeleted cf = 0)
    (git.ChangedFiles info).
Proof.
  intros H. apply AnalyzeLatestCommit_Ok_inv in H.
  destruct H as (repo & headRef & c & firstLine & totals & t & patch & H).
  destruct H as (_ & _ & _ & _ & _ & _ & _ & ->). cbn [git.ChangedFiles].
  destruct patch as [patch|]; [apply collectChangedFiles_zero | constructor].
Qed.

Lemma per_file_line_counts_are_zero_witness :
  @git.AnalyzeLatestCommit Fixture.shallowClone Fixture.asciiOnly "/tmp/zenwatch-clone-1"
  = Some (Ok Fixture.shallowInfo)
  /\ Forall (fun cf => git.LinesAdded cf = 0 /\ git.LinesDeleted cf = 0)
       (git.ChangedFiles Fixture.shallowInfo).
Proof.
  split; [reflexivity|].
  apply (@per_file_line_counts_are_zero Fixture.shallowClone Fixture.asciiOnly
           "/tmp/zenwatch-clone-1" Fixture.shallowInfo).
  reflexivity.
Defined.

(** C3. When the commit's [Stats()] fails, [AnalyzeLatestCommit] does
    not fail for that reason: it returns normally, an error it returns
    comes from a later step (the commit's tree or the patch), and when
    those steps succeed it returns a [RepositoryInfo] whose
    [TotalLinesAdded] and [TotalLinesDeleted] are both 0 and whose
    changed files are those of the patch. *)
Theorem stats_failure_defaults_to_zero `{VCS : VersionControlProvider}
  (unicodeLower : string -> string) (repoPath : string)
  (repo : Repository) (headRef : string) (latestCommit : Commit) (e : error) :
  PlainOpen repoPath = Ok repo ->
  Head repo = Ok headRef ->
  CommitObject repo headRef = Ok latestCommit ->
  commit_Stats latestCommit = Err e ->
  (exists r, git.AnalyzeLatestCommit unicodeLower repoPath = Some r)
  /\ (forall err,
        git.AnalyzeLatestCommit unicodeLower repoPath = Some (Err err) ->
        (exists treeErr, commit_Tree latestCommit = Err treeErr)
        \/ (exists currentTree,
              commit_Tree latestCommit = Ok currentTree
              /\ git.latestPatch latestCommit currentTree = Err err))
  /\ (forall currentTree patch,
        commit_Tree latestCommit = Ok currentTree ->
        git.latestPatch latestCommit currentTree = Ok patch ->
        exists info,
          git.AnalyzeLatestCommit unicodeLower repoPath = Some (Ok info)
          /\ git.TotalLinesAdded info = 0
          /\ git.TotalLinesDeleted info = 0
          /\ git.ChangedFiles info
             = match patch with
               | Some patch =>
                   git.collectChangedFiles unicodeLower (object.FilePatches patch)
               | None => []
               end).
Proof.
  intros Hopen Hhead Hcommit Hstats.
  destruct (Split_single_head Spec.LF (commit_Message latestCommit))
    as (p & ps & Hsplit & _).
  unfold git.AnalyzeLatestCommit.
  rewrite Hopen, Hhead, Hcommit, Hstats. fold Spec.LF. rewrite Hsplit.
  cbn [lookup list_lookup].
  destruct (commit_Tree latestCommit) as [currentTree|treeErr] eqn:Htree.
  - destruct (git.latestPatch latestCommit currentTree) as [patch|patchErr] eqn:Hpatch.
    + split; [eauto|]. split; [discriminate|].
      intros t' patch' [= <-] Hp. rewrite Hpatch in Hp. injection Hp as <-.
      eexists. split; [reflexivity|]. done.
    + split; [eauto|]. split.
      * intros err [= <-]. right. eauto.
      * intros t' patch' [= <-] Hp. rewrite Hpatch in Hp. discriminate.
  - split; [eauto|]. split.
    + intros err _. left. eauto.
    + intros ? ? [=].
Qed.

Lemma stats_failure_defaults_to_zero_witness :
  commit_Stats (VersionControlProvider := Fixture.shallowClone) tt = Err "object not found"
  /\ exists info,
       @git.AnalyzeLatestCommit Fixture.shallowClone Fixture.asciiOnly
         "/tmp/zenwatch-clone-1" = Some (Ok info)
       /\ git.TotalLinesAdded info = 0
       /\ git.TotalLinesDeleted info = 0
       /\ length (git.ChangedFiles info) = 3%nat.
Proof.
  split; [reflexivity|].
  destruct (@stats_failure_defaults_to_zero Fixture.shallowClone Fixture.asciiOnly
              "/tmp/zenwatch-clone-1" tt
              "6ecf0ef2c2dffb796033e5a02219af86ec6584e5" tt "object not found"
              eq_refl eq_refl eq_refl eq_refl) as (_ & _ & H).
  destruct (H tt _ eq_refl eq_refl) as (info & Hinfo & Hadd & Hdel & Hfiles).
  exists info. repeat split; try assumption.
  rewrite Hfiles. reflexivity.
Defined.

(** ** The first line of a message *)

Lemma prefix_LF_none (p rest : string) :
  Spec.LF ∉ chars p ->
  String.prefix (String Spec.LF "") (p +:+ String Spec.LF rest) = true -> p = "".
Proof.
  destruct p as [|d p]; [done|]. rewrite chars_cons, append_cons, prefix_single.
  intros Hno. destruct (decide (d = Spec.LF)) as [->|]; [|done].
  exfalso. apply Hno. left.
Qed.

(** A text without line feed has no line break. *)
Lemma text_before_line_break_all (p : string) :
  Spec.LF ∉ chars p -> Spec.text_before_line_break p = p.
Proof.
  induction p as [|c p IH]; [done|]. rewrite chars_cons. intros Hno.
  cbn [Spec.text_before_line_break].
  rewrite decide_False by (intros ->; apply Hno; left).
  assert (Hp : Spec.LF ∉ chars p) by (intros H; apply Hno; by right).
  rewrite decide_False, IH; [done | done |].
  intros [_ Hpre]. destruct p as [|d p]; [done|].
  rewrite prefix_single in Hpre. destruct (decide (d = Spec.LF)) as [->|]; [|done].
  apply Hp. rewrite chars_cons. left.
Qed.

(** Up to the first line feed: the text before the first line break is
    what stands before that line feed, less a carriage return at its
    end. *)
Lemma text_before_line_break_LF (p rest : string) :
  Spec.LF ∉ chars p ->
  Spec.text_before_line_break (p +:+ String Spec.LF rest) = p
  \/ (exists q, p = q +:+ String Spec.CR ""
                /\ Spec.text_before_line_break (p +:+ String Spec.LF rest) = q).
Proof.
  induction p as [|c p IH].
  - intros _. left. change ("" +:+ String Spec.LF rest) with (String Spec.LF rest).
    cbn [Spec.text_before_line_break]. by rewrite decide_True.
  - rewrite chars_cons. intros Hno. rewrite append_cons.
    cbn [Spec.text_before_line_break].
    rewrite decide_False by (intros ->; apply Hno; left).
    assert (Hp : Spec.LF ∉ chars p) by (intros H; apply Hno; by right).
    destruct (decide (c = Spec.CR /\ _)) as [[-> Hpre]|_].
    + apply prefix_LF_none in Hpre; [|done]. subst p. right. by exists "".
    + destruct (IH Hp) as [->|(q & -> & ->)]; [by left|].
      right. by exists (String c q).
Qed.

(** C4, as amended. The [Message] of the returned [CommitInfo] is the
    loaded commit's message up to its first line feed: it holds no line
    feed, and either the full message has no line feed and is the
    [Message], or the full message is the [Message], a line feed, and a
    remainder.  It is the text before the first line break unless that
    line break is a carriage return and a line feed: then the carriage
    return is kept as the last byte of the [Message]. *)
Theorem commit_message_is_first_line `{VCS : VersionControlProvider}
  (unicodeLower : string -> string) (repoPath : string)
  (repo : Repository) (headRef : string) (latestCommit : Commit)
  (info : git.RepositoryInfo) :
  PlainOpen repoPath = Ok repo ->
  Head repo = Ok headRef ->
  CommitObject repo headRef = Ok latestCommit ->
  git.AnalyzeLatestCommit unicodeLower repoPath = Some (Ok info) ->
  Forall (fun c => c <> Spec.LF) (chars (git.Message (git.LatestCommit info)))
  /\ ((Forall (fun c => c <> Spec.LF) (chars (commit_Message latestCommit))
       /\ git.Message (git.LatestCommit info) = commit_Message latestCommit)
      \/ (exists rest,
            commit_Message latestCommit
            = git.Message (git.LatestCommit info) +:+ String Spec.LF rest))
  /\ (git.Message (git.LatestCommit info)
      = Spec.text_before_line_break (commit_Message latestCommit)
      \/ (exists rest,
            commit_Message latestCommit
            = Spec.text_before_line_break (commit_Message latestCommit)
                +:+ String Spec.CR (String Spec.LF rest)
            /\ git.Message (git.LatestCommit info)
               = Spec.text_before_line_break (commit_Message latestCommit)
                   +:+ String Spec.CR "")).
Proof.
  intros Hopen Hhead Hcommit H. apply AnalyzeLatestCommit_Ok_inv in H.
  destruct H as (repo' & headRef' & c' & firstLine & totals & t & patch & H).
  destruct H as (Hopen' & Hhead' & Hcommit' & Hsplit & _ & _ & _ & ->).
  rewrite Hopen in Hopen'. injection Hopen' as <-.
  rewrite Hhead in Hhead'. injection Hhead' as <-.
  rewrite Hcommit in Hcommit'. injection Hcommit' as <-.
  cbn [git.LatestCommit git.Message].
  destruct (Split_single_head Spec.LF (commit_Message latestCommit))
    as (p & ps & Hp & Hno & Hshape).
  rewrite Hp in Hsplit. injection Hsplit as <-.
  assert (Hp' : Forall (fun c => c <> Spec.LF) (chars p)).
  { apply Forall_forall. intros c Hc ->. by apply Hno. }
  split; [done|].
  destruct Hshape as [Heq|[rest Heq]].
  - split; [left; by rewrite Heq|].
    left. by rewrite Heq, text_before_line_break_all.
  - split; [right; by exists rest|]. rewrite Heq.
    destruct (text_before_line_break_LF p rest Hno) as [->|(q & -> & ->)]; [by left|].
    right. exists rest. by rewrite append_assoc.
Qed.

Lemma commit_message_is_first_line_witness :
  Forall (fun c => c <> Spec.LF) (chars (git.Message (git.LatestCommit Fixture.shallowInfo)))
  /\ ((Forall (fun c => c <> Spec.LF)
         (chars (commit_Message (VersionControlProvider := Fixture.shallowClone) tt))
       /\ git.Message (git.LatestCommit Fixture.shallowInfo)
          = commit_Message (VersionControlProvider := Fixture.shallowClone) tt)
      \/ (exists rest,
            commit_Message (VersionControlProvider := Fixture.shallowClone) tt
            = git.Message (git.LatestCommit Fixture.shallowInfo) +:+ String Spec.LF rest)).
Proof.
  destruct (@commit_message_is_first_line Fixture.shallowClone Fixture.asciiOnly
              "/tmp/zenwatch-clone-1" tt
              "6ecf0ef2c2dffb796033e5a02219af86ec6584e5" tt Fixture.shallowInfo
              eq_refl eq_refl eq_refl eq_refl) as (Hno & Hshape & _).
  split; [exact Hno | exact Hshape].
Defined.

(** C4 as stated fails: of a message whose first line ends in a carriage
    return and a line feed, the text before the first line break is the
    first line, and the [Message] is the first line and the carriage
    return. *)
Lemma crlf_message_keeps_carriage_return :
  exists info,
    @git.AnalyzeLatestCommit Fixture.crlfClone Fixture.asciiOnly "/tmp/zenwatch-clone-1"
    = Some (Ok info)
    /\ Spec.text_before_line_break
         (commit_Message (VersionControlProvider := Fixture.crlfClone) tt)
       = "fix line endings"
    /\ git.Message (git.LatestCommit info) = "fix line endings" +:+ String Spec.CR ""
    /\ String.eqb (git.Message (git.LatestCommit info))
         (Spec.text_before_line_break
            (commit_Message (VersionControlProvider := Fixture.crlfClone) tt))
       = false.
Proof.
  eexists. split; [vm_compute; reflexivity|].
  repeat split; vm_compute; reflexivity.
Qed.

(** The three cases of the path of a changed entry. *)
Lemma resolvePath_cases (fp : object.FilePatch) :
  (forall f, object.to fp = Some f -> git.resolvePath fp = object.Path f)
  /\ (forall f, object.to fp = None -> object.from fp = Some f ->
      git.resolvePath fp = object.Path f)
  /\ (object.to fp = None -> object.from fp = None -> git.resolvePath fp = "").
Proof.
  unfold git.resolvePath. destruct fp as [[from|] [to|]]; cbn; repeat split; congruence.
Qed.

(** C5. Every entry of [ChangedFiles] has a non-empty [Path].  The
    paths are, in the order of the patch, the non-empty resolved paths
    of its entries, where an entry resolves to its post-change path when
    it has a post-change file, to its pre-change path when it has only a
    pre-change file (a deletion), and to nothing when it has neither:
    such an entry leaves no record. *)
Theorem changed_file_paths_are_nonempty `{VCS : VersionControlProvider}
  (unicodeLower : string -> string) (repoPath : string) (info : git.RepositoryInfo) :
  git.AnalyzeLatestCommit unicodeLower repoPath = Some (Ok info) ->
  Forall (fun cf => git.Path cf <> "") (git.ChangedFiles info)
  /\ (exists repo headRef latestCommit currentTree patch,
        PlainOpen repoPath = Ok repo
        /\ Head repo = Ok headRef
        /\ CommitObject repo headRef = Ok latestCommit
        /\ commit_Tree latestCommit = Ok currentTree
        /\ git.latestPatch latestCommit currentTree = Ok patch
        /\ map git.Path (git.ChangedFiles info)
           = filter (fun p => p <> "")
               (map git.resolvePath
                  (match patch with
                   | Some patch => object.FilePatches patch
                   | None => []
                   end)))
  /\ (forall fp : object.FilePatch,
        (forall f, object.to fp = Some f -> git.resolvePath fp = object.Path f)
        /\ (forall f, object.to fp = None -> object.from fp = Some f ->
            git.resolvePath fp = object.Path f)
        /\ (object.to fp = None -> object.from fp = None ->
            git.resolvePath fp = "")).
Proof.
  intros H. apply AnalyzeLatestCommit_Ok_inv in H.
  destruct H as (repo & headRef & c & firstLine & totals & t & patch & H).
  destruct H as (Hopen & Hhead & Hcommit & _ & _ & Htree & Hpatch & ->).
  cbn [git.ChangedFiles].
  assert (Hpaths :
    map git.Path
      (match patch with
       | Some patch => git.collectChangedFiles unicodeLower (object.FilePatches patch)
       | None => []
       end)
    = filter (fun p => p <> "")
        (map git.resolvePath
           (match patch with
            | Some patch => object.FilePatches patch
            | None => []
            end))).
  { destruct patch; [apply collectChangedFiles_paths | done]. }
  split; [|split; [|apply resolvePath_cases]].
  - apply Forall_forall. intros cf Hcf.
    assert (Hin : git.Path cf ∈ map git.Path
                    (match patch with
                     | Some patch =>
                         git.collectChangedFiles unicodeLower (object.FilePatches patch)
                     | None => []
                     end)).
    { apply list_elem_of_fmap. by exists cf. }
    rewrite Hpaths in Hin. apply list_elem_of_filter in Hin. tauto.
  - exists repo, headRef, c, t, patch. done.
Qed.

Lemma changed_file_paths_are_nonempty_witness :
  Forall (fun cf => git.Path cf <> "") (git.ChangedFiles Fixture.shallowInfo)
  /\ map git.Path (git.ChangedFiles Fixture.shallowInfo)
     = ["vendor/foo.GO"; "old.txt"; "LICENSE"].
Proof.
  split; [|reflexivity].
  apply (@changed_file_paths_are_nonempty Fixture.shallowClone Fixture.asciiOnly
           "/tmp/zenwatch-clone-1" Fixture.shallowInfo).
  reflexivity.
Defined.

(** ** [CloneRepository] *)

Lemma RemoveAll_spec (dir p : string) (fs : gset string) :
  p ∈ os.RemoveAll dir fs <-> os.under dir p = false /\ p ∈ fs.
Proof. unfold os.RemoveAll. by rewrite elem_of_filter. Qed.

(** C9. When the clone fails after the temporary directory was made,
    [CloneRepository] returns the wrapped error, and in the file system
    it leaves neither the temporary directory nor anything below it
    exists; paths elsewhere are as the failed clone left them. *)
Theorem clone_failure_removes_temp_dir (env : os.Env) (url : string)
  (fs : gset string) (tempDir : string) (fs2 : gset string) (err : error) :
  os.MkdirTemp env "" "zenwatch-clone-*" fs = Ok tempDir ->
  os.PlainClone env tempDir url ({[ tempDir ]} ∪ fs) = (fs2, Some err) ->
  snd (git.CloneRepository env url fs)
  = ("", Some ("failed to clone repository " +:+ url +:+ ": " +:+ err))
  /\ (forall p, os.under tempDir p = true ->
      (p ∈ fst (git.CloneRepository env url fs)) -> False)
  /\ (forall p, os.under tempDir p = false ->
      (p ∈ fst (git.CloneRepository env url fs) <-> p ∈ fs2)).
Proof.
  intros Hmk Hclone. unfold git.CloneRepository. rewrite Hmk, Hclone. cbn [fst snd].
  split; [done|]. split.
  - intros p Hp Hin. apply RemoveAll_spec in Hin. destruct Hin as [Hq _]. congruence.
  - intros p Hp. rewrite RemoveAll_spec. tauto.
Qed.

Lemma clone_failure_removes_temp_dir_witness :
  snd (git.CloneRepository Fixture.failingClone "https://example.invalid/repo.git"
         Fixture.someFiles)
  = ("", Some "failed to clone repository https://example.invalid/repo.git: repository not found")
  /\ ("/tmp/zenwatch-clone-1" ∈
        fst (git.CloneRepository Fixture.failingClone "https://example.invalid/repo.git"
               Fixture.someFiles) -> False)
  /\ ("/tmp/zenwatch-clone-1/.git" ∈
        fst (git.CloneRepository Fixture.failingClone "https://example.invalid/repo.git"
               Fixture.someFiles) -> False)
  /\ "/tmp/other" ∈
        fst (git.CloneRepository Fixture.failingClone "https://example.invalid/repo.git"
               Fixture.someFiles).
Proof.
  destruct (clone_failure_removes_temp_dir Fixture.failingClone
              "https://example.invalid/repo.git" Fixture.someFiles
              "/tmp/zenwatch-clone-1"
              ({[ "/tmp/zenwatch-clone-1/.git" ]} ∪ ({[ "/tmp/zenwatch-clone-1" ]} ∪ Fixture.someFiles))
              "repository not found" eq_refl eq_refl) as (Hret & Hgone & Hkept).
  split; [exact Hret|].
  split; [apply Hgone; reflexivity|].
  split; [apply Hgone; reflexivity|].
  apply Hkept; [reflexivity|]. unfold Fixture.someFiles. set_solver.
Defined.

(** ** [Cleanup] *)

(** [Cleanup] leaves nothing at or below the path, touches nothing
    else, and changes nothing when it runs again or when the path never
    existed. *)
Lemma Cleanup_idempotent (repoPath : string) (fs : gset string) :
  (forall p, p ∈ git.Cleanup repoPath fs <-> os.under repoPath p = false /\ p ∈ fs)
  /\ git.Cleanup repoPath (git.Cleanup repoPath fs) = git.Cleanup repoPath fs
  /\ ((forall p, p ∈ fs -> os.under repoPath p = false) -> git.Cleanup repoPath fs = fs).
Proof.
  unfold git.Cleanup. split; [intros p; apply RemoveAll_spec|]. split.
  - apply set_eq. intros p. rewrite !RemoveAll_spec. tauto.
  - intros H. apply set_eq. intros p. rewrite RemoveAll_spec. split; [tauto|].
    intros Hp. split; [by apply H | done].
Qed.

(** ** The extension histogram *)

Lemma int_wrap_add_l (a b : Z) : int_wrap (int_wrap a + b) = int_wrap (a + b).
Proof.
  unfold int_wrap.
  replace (((a + 2 ^ 63) mod 2 ^ 64 - 2 ^ 63 + b + 2 ^ 63))
    with ((a + 2 ^ 63) mod 2 ^ 64 + b) by lia.
  rewrite Zplus_mod_idemp_l. f_equal. f_equal. lia.
Qed.

Lemma int_wrap_small (z : Z) : - 2 ^ 63 <= z < 2 ^ 63 -> int_wrap z = z.
Proof. intros H. unfold int_wrap. rewrite Z.mod_small; lia. Qed.

Lemma countFile_lookup (m : gmap string (option metrics.FileTypeStat))
  (cf : git.ChangedFileStats) (ext : string) :
  metrics.countFile m cf !! ext
  = if decide (git.FileType cf = ext) then Spec.visit ext (m !! ext) else m !! ext.
Proof.
  unfold metrics.countFile, metrics.incrementEntry, metrics.ensureEntry.
  destruct (decide (git.FileType cf = ext)) as [->|Hne].
  - rewrite lookup_alter_eq. destruct (m !! ext) as [ptr|] eqn:Hm.
    + rewrite Hm. done.
    + rewrite lookup_insert_eq. done.
  - rewrite lookup_alter_ne by done.
    destruct (m !! git.FileType cf); [done|]. by rewrite lookup_insert_ne.
Qed.

Lemma fold_countFile_lookup (files : list git.ChangedFileStats)
  (m : gmap string (option metrics.FileTypeStat)) (ext : string) :
  fold_left metrics.countFile files m !! ext
  = Nat.iter (Spec.files_of_type ext files) (Spec.visit ext) (m !! ext).
Proof.
  revert m. induction files as [|cf files IH]; intros m; [done|].
  cbn [fold_left]. rewrite IH, countFile_lookup. unfold Spec.files_of_type.
  destruct (decide (git.FileType cf = ext)) as [Heq|Hne].
  - rewrite filter_cons_True by done. cbn [length]. by rewrite Nat.iter_succ_r.
  - rewrite filter_cons_False by done. done.
Qed.

Lemma iter_visit_fresh (ext : string) (n : nat) :
  Nat.iter (S n) (Spec.visit ext) None
  = Some (Some {| metrics.Extension := ext;
                  metrics.Count := int_wrap (Z.of_nat (S n)) |}).
Proof.
  induction n as [|n IH]; [done|].
  rewrite Nat.iter_succ, IH. unfold Spec.visit. cbn [fmap option_fmap option_map metrics.Extension metrics.Count].
  do 3 f_equal. unfold int_add. rewrite int_wrap_add_l. f_equal. lia.
Qed.

(** C8. The histogram built over the changed-file list maps each
    extension that occurs to an entry whose count is the number of
    files with that extension (as a Go [int]) and has no entry for an
    extension that does not occur; the count is exact for any list of
    fewer than [2^63] files.  For the files [a.go], [b.go] and [README]
    as the analyzer records them, the map holds [.go] with count 2 and
    the empty extension with count 1, and nothing else. *)
Theorem histogram_counts_files_per_extension :
  (forall (files : list git.ChangedFileStats) (ext : string),
     metrics.buildFileStats files !! ext
     = if decide (Spec.files_of_type ext files = 0%nat) then None
       else Some (Some {| metrics.Extension := ext;
                          metrics.Count :=
                            int_wrap (Z.of_nat (Spec.files_of_type ext files)) |}))
  /\ (forall (files : list git.ChangedFileStats) (ext : string),
        int_wrap (Z.of_nat (Spec.files_of_type ext files))
        = Z.of_nat (Spec.files_of_type ext files)
        \/ 2 ^ 63 <= Z.of_nat (length files))
  /\ metrics.buildFileStats
       (git.collectChangedFiles Fixture.asciiOnly
          [ Fixture.path_patch "a.go"; Fixture.path_patch "b.go";
            Fixture.path_patch "README" ])
     = <[ ".go" := Some {| metrics.Extension := ".go"; metrics.Count := 2 |} ]>
         (<[ "" := Some {| metrics.Extension := ""; metrics.Count := 1 |} ]> ∅).
Proof.
  split; [|split].
  - intros files ext. unfold metrics.buildFileStats.
    rewrite fold_countFile_lookup, lookup_empty.
    destruct (Spec.files_of_type ext files) as [|n]; [done|].
    rewrite decide_False by done. apply iter_visit_fresh.
  - intros files ext.
    destruct (Z_lt_le_dec (Z.of_nat (length files)) (2 ^ 63)) as [Hlt|Hge]; [left|by right].
    apply int_wrap_small. unfold Spec.files_of_type.
    pose proof (length_filter (fun cf => git.FileType cf = ext) files). lia.
  - set (files := git.collectChangedFiles _ _).
    assert (Hfiles : files
      = [ {| git.Path := "a.go"; git.FileType := ".go";
             git.LinesAdded := 0; git.LinesDeleted := 0 |};
          {| git.Path := "b.go"; git.FileType := ".go";
             git.LinesAdded := 0; git.LinesDeleted := 0 |};
          {| git.Path := "README"; git.FileType := "";
             git.LinesAdded := 0; git.LinesDeleted := 0 |} ]) by reflexivity.
    clearbody files. subst files.
    apply map_eq. intros ext. unfold metrics.buildFileStats.
    rewrite fold_countFile_lookup, lookup_empty. unfold Spec.files_of_type.
    destruct (decide (ext = ".go")) as [->|Hgo]; [by rewrite lookup_insert_eq|].
    rewrite lookup_insert_ne by done.
    destruct (decide (ext = "")) as [->|He]; [by rewrite lookup_insert_eq|].
    rewrite lookup_insert_ne by done. rewrite lookup_empty.
    rewrite !filter_cons_False by (cbn; congruence). done.
Qed.

(** ** The report

    The lemmas of this section read the names of package [report]
    unqualified. *)

Section ReportFacts.

Import report.
Local Open Scope exec_scope.

(** ** Template execution *)

Lemma exec_eta (e : exec) : e = (fst e, snd e).
Proof. by destruct e. Qed.

Lemma seq_snd (a b : exec) :
  snd (a ;; b) = match snd a with Some err => Some err | None => snd b end.
Proof. by destruct a as [oa [ea|]]. Qed.

Lemma seq_fst (a b : exec) :
  fst (a ;; b) = fst a +:+ match snd a with Some _ => "" | None => fst b end.
Proof. destruct a as [oa [ea|]]; [|done]. cbn. by rewrite append_nil_r. Qed.

Lemma seq_fst_ok (a b : exec) : snd a = None -> fst (a ;; b) = fst a +:+ fst b.
Proof. intros H. by rewrite seq_fst, H. Qed.

Lemma seq_ok (a b : exec) : snd (a ;; b) = None <-> snd a = None /\ snd b = None.
Proof. rewrite seq_snd. destruct (snd a); intuition discriminate. Qed.

Lemma range_ok {A : Type} (body : A -> exec) (l : list A) :
  snd (range body l) = None <-> Forall (fun x => snd (body x) = None) l.
Proof.
  induction l as [|x l IH]; cbn [range].
  - split; [constructor | done].
  - rewrite seq_ok, IH, Forall_cons. done.
Qed.

Lemma field_ok {A : Type} (typ name : string) (ptr : option A) (get : A -> string) :
  snd (field typ name ptr get) = None <-> exists a, ptr = Some a.
Proof.
  destruct ptr as [a|]; cbn; split; try discriminate; eauto.
  intros [a [=]].
Qed.

(** [GenerateMarkdownReport] succeeds exactly when the directory and
    the file can be made and the template executes without error; the
    file then holds what the execution wrote. *)
Lemma GenerateMarkdownReport_ok (env : FileEnv) (data : ReportData)
  (outputPath report : string) :
  GenerateMarkdownReport env data outputPath = (Some report, None)
  <-> MkdirAll env (Dir env outputPath) = None
      /\ Create env outputPath = None
      /\ Execute data = (report, None).
Proof.
  unfold GenerateMarkdownReport.
  destruct (MkdirAll env (Dir env outputPath)); [intuition discriminate|].
  destruct (Create env outputPath); [intuition discriminate|].
  destruct (Execute data) as [out [err|]]; [intuition discriminate|].
  split; [intros [= ->]; done | intros (_ & _ & [= ->]); done].
Qed.

(** The sections of a report that was executed without error. *)
Lemma Execute_parts (data : ReportData) :
  snd (Execute data) = None ->
  snd (headerPart data) = None
  /\ snd (badgeSection data) = None
  /\ snd (commitPart data) = None
  /\ snd (statsPart data) = None
  /\ snd (complexityHead data) = None
  /\ snd (complexitySection data) = None
  /\ fst (Execute data)
     = fst (headerPart data) +:+ fst (badgeSection data) +:+ fst (commitPart data)
         +:+ fst (statsPart data) +:+ fst (complexityHead data)
         +:+ fst (complexitySection data) +:+ String Spec.LF "".
Proof.
  unfold Execute. rewrite !seq_ok. intros (H1 & H2 & H3 & H4 & H5 & H6 & _).
  repeat (split; [assumption|]).
  rewrite !seq_fst_ok by (rewrite ?seq_ok; auto). done.
Qed.

(** ** The badge line *)

Lemma htmlEscaper_plain (s : string) :
  forallb Spec.html_plain (chars s) = true -> html_template.htmlEscaper s = s.
Proof.
  intros H. apply flat_map_bytes_id. intros c Hc.
  rewrite forallb_forall in H. apply list_elem_of_In, H in Hc.
  unfold Spec.html_plain in Hc. by destruct (decide _).
Qed.

Lemma headerPart_run (data : ReportData) :
  headerPart data = (Spec.report_header data, None).
Proof. reflexivity. Qed.

Lemma badgeSection_run (data : ReportData) :
  badgeSection data = (Spec.badge_part (BadgeURL data), None).
Proof.
  unfold badgeSection, Spec.badge_part.
  destruct (decide (BadgeURL data = "")); reflexivity.
Qed.

Lemma commitPart_heading (data : ReportData) :
  exists rest,
    fst (commitPart data)
    = "

## Latest Commit Analyzed
- **Hash:** " +:+ rest.
Proof.
  unfold commitPart. rewrite seq_fst_ok by done. eexists. reflexivity.
Qed.

Lemma with_badge_same (data : ReportData) : Spec.with_badge (BadgeURL data) data = data.
Proof. by destruct data. Qed.

(** ** What the escaper rewrites *)

(** The table of the escaper, byte by byte. *)
Lemma htmlReplacement_written_for (c : ascii) :
  html_template.htmlReplacement c = Spec.written_for c.
Proof.
  unfold html_template.htmlReplacement, Spec.written_for, Spec.escape_table, Spec.DQUOTE.
  cbn [find fst snd].
  repeat match goal with
    | |- context [Ascii.eqb c ?k] =>
        destruct (Ascii.eqb_spec c k) as [->|?];
        [reflexivity | rewrite decide_False by done]
    end.
  reflexivity.
Qed.

Lemma htmlReplacement_length (c : ascii) :
  (Spec.escaped_byte c = false /\ html_template.htmlReplacement c = String c "")
  \/ (Spec.escaped_byte c = true
      /\ (1 < String.length (html_template.htmlReplacement c))%nat).
Proof.
  rewrite htmlReplacement_written_for.
  unfold Spec.written_for, Spec.escaped_byte, Spec.escape_table, Spec.DQUOTE.
  cbn [find fst snd map existsb].
  repeat match goal with
    | |- context [Ascii.eqb c ?k] =>
        destruct (Ascii.eqb_spec c k) as [->|?]; [right; split; [done | cbn; lia]|]
    end.
  left. done.
Qed.

Lemma length_append (a b : string) :
  String.length (a +:+ b) = (String.length a + String.length b)%nat.
Proof.
  induction a as [|c a IH]; [done|]. rewrite append_cons. cbn [String.length].
  by rewrite IH.
Qed.

Lemma htmlEscaper_length (s : string) :
  (String.length s <= String.length (html_template.htmlEscaper s))%nat
  /\ (String.length (html_template.htmlEscaper s) = String.length s ->
      Spec.shown_verbatim s = true).
Proof.
  induction s as [|c s [IH1 IH2]]; [done|].
  cbn [html_template.htmlEscaper flat_map_bytes]. fold (html_template.htmlEscaper s).
  unfold Spec.shown_verbatim. rewrite length_append, chars_cons. cbn [String.length forallb].
  destruct (htmlReplacement_length c) as [[-> ->]|[_ Hlen]].
  - cbn [String.length negb andb]. split; [lia|]. intros H. apply IH2. lia.
  - split; lia.
Qed.

(** A text is written as it stands exactly when it has none of the
    seven bytes. *)
Lemma htmlEscaper_verbatim_iff (s : string) :
  html_template.htmlEscaper s = s <-> Spec.shown_verbatim s = true.
Proof.
  split.
  - intros H. apply htmlEscaper_length. by rewrite H.
  - intros H. apply flat_map_bytes_id. intros c Hc.
    unfold Spec.shown_verbatim in H. rewrite forallb_forall in H.
    apply list_elem_of_In, H in Hc.
    destruct (htmlReplacement_length c) as [[_ ->]|[Hesc _]]; [done|].
    by rewrite Hesc in Hc.
Qed.

Lemma htmlEscaper_written_for (s : string) :
  html_template.htmlEscaper s = flat_map_bytes Spec.written_for s.
Proof. apply flat_map_bytes_ext. intros c _. apply htmlReplacement_written_for. Qed.

Lemma badge_line_inj (a b : string) : Spec.badge_line a = Spec.badge_line b -> a = b.
Proof.
  unfold Spec.badge_line. intros H.
  apply (inj (String.app _)) in H. by apply append_inj_r in H.
Qed.

(** C6, as amended. A report that was written consists of the header,
    the badge part and a remainder that starts with the commit block
    and is the same whatever the badge URL is.  The badge part is empty
    exactly when [BadgeURL] is empty; otherwise it is the badge image
    line with the URL as html/template's escaper writes it: NUL as
    U+FFFD, and the double quote, [&], ['], [+], [<] and [>] as the
    character references [&#34;], [&amp;], [&#39;], [&#43;], [&lt;]
    and [&gt;].  The line shows the URL itself exactly when the URL
    holds none of these seven bytes. *)
Theorem badge_line_follows_badge_url (env : FileEnv) (data : ReportData)
  (outputPath report : string) :
  GenerateMarkdownReport env data outputPath = (Some report, None) ->
  exists rest,
    report = Spec.report_header data +:+ Spec.badge_part (BadgeURL data)
               +:+ "

## Latest Commit Analyzed
- **Hash:** " +:+ rest
    /\ (forall url,
          GenerateMarkdownReport env (Spec.with_badge url data) outputPath
          = (Some (Spec.report_header data +:+ Spec.badge_part url
                     +:+ "

## Latest Commit Analyzed
- **Hash:** " +:+ rest), None))
    /\ Spec.badge_part "" = ""
    /\ (Spec.badge_part (BadgeURL data) = "" <-> BadgeURL data = "")
    /\ (BadgeURL data <> "" ->
        Spec.badge_part (BadgeURL data)
        = Spec.badge_line (html_template.htmlEscaper (BadgeURL data)))
    /\ html_template.htmlEscaper (BadgeURL data)
       = flat_map_bytes Spec.written_for (BadgeURL data)
    /\ (html_template.htmlEscaper (BadgeURL data) = BadgeURL data
        <-> Spec.shown_verbatim (BadgeURL data) = true)
    /\ (BadgeURL data <> "" ->
        (Spec.badge_part (BadgeURL data) = Spec.badge_line (BadgeURL data)
         <-> Spec.shown_verbatim (BadgeURL data) = true)).
Proof.
  intros H. apply GenerateMarkdownReport_ok in H. destruct H as (Hmk & Hcr & Hex).
  assert (Hok : snd (Execute data) = None) by (by rewrite Hex).
  unfold Execute in Hok. rewrite !seq_ok in Hok.
  destruct Hok as (_ & _ & Hc & Hs & Hh & Hx & _).
  destruct (commitPart_heading data) as [rest0 Hrest0].
  set (tail := statsPart data ;; complexityHead data ;; complexitySection data ;;
               text (String Spec.LF "")).
  assert (Htail : snd tail = None) by (subst tail; rewrite !seq_ok; auto).
  assert (Hall : forall url,
            Execute (Spec.with_badge url data)
            = (Spec.report_header data +:+ Spec.badge_part url
                 +:+ "

## Latest Commit Analyzed
- **Hash:** " +:+ rest0 +:+ fst tail, None)).
  { intros url. rewrite (exec_eta (Execute _)). unfold Execute.
    change (commitPart (Spec.with_badge url data)) with (commitPart data).
    change (statsPart (Spec.with_badge url data) ;; _) with tail.
    change (headerPart (Spec.with_badge url data)) with (headerPart data).
    rewrite headerPart_run, badgeSection_run. cbn [BadgeURL Spec.with_badge].
    f_equal.
    - rewrite !seq_fst_ok by (rewrite ?seq_ok; auto). cbn [fst].
      rewrite Hrest0, !append_assoc. done.
    - rewrite !seq_ok. auto. }
  assert (Hline : BadgeURL data <> "" ->
            Spec.badge_part (BadgeURL data)
            = Spec.badge_line (html_template.htmlEscaper (BadgeURL data))).
  { intros Hne. unfold Spec.badge_part. by rewrite decide_False. }
  exists (rest0 +:+ fst tail). split; [|split; [|split; [|split; [|split; [|split; [|split]]]]]].
  - specialize (Hall (BadgeURL data)). rewrite with_badge_same, Hex in Hall.
    by injection Hall.
  - intros url. apply GenerateMarkdownReport_ok. auto.
  - done.
  - unfold Spec.badge_part. destruct (decide (BadgeURL data = "")); [done|].
    split; [discriminate | done].
  - exact Hline.
  - apply htmlEscaper_written_for.
  - apply htmlEscaper_verbatim_iff.
  - intros Hne. rewrite (Hline Hne), <- htmlEscaper_verbatim_iff. split.
    + apply badge_line_inj.
    + by intros ->.
Qed.

Lemma badge_line_follows_badge_url_witness :
  exists rest,
    fst (Execute (Fixture.reportData (GenerateBadgeURL 180 Fixture.float_18)))
    = Spec.report_header (Fixture.reportData (GenerateBadgeURL 180 Fixture.float_18))
        +:+ Spec.badge_line (GenerateBadgeURL 180 Fixture.float_18)
        +:+ "

## Latest Commit Analyzed
- **Hash:** " +:+ rest.
Proof.
  destruct (badge_line_follows_badge_url Fixture.fileEnv
              (Fixture.reportData (GenerateBadgeURL 180 Fixture.float_18))
              "test_report.md"
              (fst (Execute (Fixture.reportData (GenerateBadgeURL 180 Fixture.float_18)))))
    as (rest & Hreport & _ & _ & _ & _ & _ & _ & Hverbatim).
  - vm_compute. reflexivity.
  - exists rest. rewrite Hreport at 1.
    assert (Hne : BadgeURL (Fixture.reportData (GenerateBadgeURL 180 Fixture.float_18))
                  <> "") by (vm_compute; discriminate).
    destruct (Hverbatim Hne) as [_ Hshown]. rewrite Hshown by (vm_compute; reflexivity).
    reflexivity.
Defined.

(** C6 as stated fails: a badge URL with a query string is not in the
    report as it stands; the report holds it with [&] written [&amp;]. *)
Lemma badge_url_is_not_verbatim :
  String.eqb Fixture.queryBadge "" = false
  /\ exists report,
       GenerateMarkdownReport Fixture.fileEnv (Fixture.reportData Fixture.queryBadge)
         "test_report.md" = (Some report, None)
       /\ contains report Fixture.queryBadge = false
       /\ contains report
            (Spec.badge_line
               "https://img.shields.io/badge/ZenWatch-ok-blue?style=flat&amp;logo=git")
          = true.
Proof.
  split; [reflexivity|]. eexists. split; [vm_compute; reflexivity|].
  split; vm_compute; reflexivity.
Qed.

(** ** Numbers in a report *)

Lemma string_of_uint_plain (d : Decimal.uint) :
  forallb Spec.html_plain (chars (NilEmpty.string_of_uint d)) = true.
Proof. induction d; cbn; done. Qed.

Lemma fmt_d_plain (n : Z) : forallb Spec.html_plain (chars (go_fmt.fmt_d n)) = true.
Proof.
  unfold go_fmt.fmt_d, NilZero.string_of_int, NilZero.string_of_uint.
  destruct (Z.to_int n) as [d|d]; destruct d; try done;
    cbn; apply string_of_uint_plain.
Qed.

Lemma htmlEscaper_fmt_d (n : Z) :
  html_template.htmlEscaper (go_fmt.fmt_d n) = go_fmt.fmt_d n.
Proof. apply htmlEscaper_plain, fmt_d_plain. Qed.

(** ** The complexity section *)

Lemma complexityRow_run (stat : metrics.ComplexityStat) :
  complexityRow stat = (Spec.complexity_table_row stat, None).
Proof.
  unfold complexityRow, Spec.complexity_table_row, action.
  rewrite !htmlEscaper_fmt_d. reflexivity.
Qed.

Lemma complexityRows_run (l : list metrics.ComplexityStat) :
  range complexityRow l = (sconcat (map Spec.complexity_table_row l), None).
Proof.
  induction l as [|stat l IH]; [done|].
  cbn [range map sconcat]. rewrite complexityRow_run, IH. reflexivity.
Qed.

Lemma complexitySection_quiet (data : ReportData) (stats : metrics.OverallStats) :
  Stats data = Some stats ->
  (0 <? metrics.FunctionsOverThreshold stats) = false ->
  complexitySection data
  = (Spec.no_functions_sentence (ComplexityThreshold data) +:+ String Spec.LF "", None).
Proof.
  intros Hs Hn. unfold complexitySection. rewrite Hs, Hn.
  unfold Spec.no_functions_sentence, action. rewrite htmlEscaper_fmt_d.
  norm_text. cbn [seq fst snd]. assoc_r_with append_assoc. reflexivity.
Qed.

Lemma complexitySection_table (data : ReportData) (stats : metrics.OverallStats) :
  Stats data = Some stats ->
  (0 <? metrics.FunctionsOverThreshold stats) = true ->
  complexitySection data
  = (Spec.complexity_table_head
       +:+ sconcat (map Spec.complexity_table_row (metrics.ComplexityStats stats))
       +:+ String Spec.LF "", None).
Proof.
  intros Hs Hn. unfold complexitySection. rewrite Hs, Hn.
  rewrite complexityRows_run. reflexivity.
Qed.

Lemma with_complexity_same (data : ReportData) (stats : metrics.OverallStats) :
  Stats data = Some stats ->
  Spec.with_stats (Some (Spec.with_complexity (metrics.ComplexityStats stats) stats)) data
  = data.
Proof. destruct data, stats. cbn. by intros ->. Qed.

(** The sections before the complexity table read no [ComplexityStats]. *)
Lemma sections_without_complexity (data : ReportData) (stats : metrics.OverallStats)
  (l : list metrics.ComplexityStat) :
  Stats data = Some stats ->
  statsPart (Spec.with_stats (Some (Spec.with_complexity l stats)) data) = statsPart data
  /\ complexityHead (Spec.with_stats (Some (Spec.with_complexity l stats)) data)
     = complexityHead data.
Proof.
  intros Hs. unfold statsPart, complexityHead, statsField, fileTypeRows.
  cbn [Stats Spec.with_stats Spec.with_complexity ComplexityThreshold]. rewrite Hs.
  split; reflexivity.
Qed.

Lemma complexityHead_ending (data : ReportData) (stats : metrics.OverallStats) :
  Stats data = Some stats ->
  exists before,
    fst (complexityHead data)
    = before +:+ "- **Functions Over Threshold:** "
        +:+ go_fmt.fmt_d (metrics.FunctionsOverThreshold stats) +:+ "

".
Proof.
  intros Hs. unfold complexityHead, statsField, field. rewrite Hs.
  rewrite !seq_fst_ok by done.
  norm_text. unfold action. cbn [fst].
  rewrite !htmlEscaper_fmt_d.
  eexists (_ +:+ _ +:+ _ +:+ _ +:+ String Spec.LF "").
  assoc_r_with append_assoc. reflexivity.
Qed.

(** A report with another list of flagged functions: everything before
    the complexity section stays, the section is executed anew. *)
Lemma Execute_with_complexity (data : ReportData) (stats : metrics.OverallStats)
  (l : list metrics.ComplexityStat) (section : string) :
  snd (Execute data) = None ->
  Stats data = Some stats ->
  complexitySection (Spec.with_stats (Some (Spec.with_complexity l stats)) data)
  = (section, None) ->
  Execute (Spec.with_stats (Some (Spec.with_complexity l stats)) data)
  = ((fst (headerPart data) +:+ fst (badgeSection data) +:+ fst (commitPart data)
        +:+ fst (statsPart data) +:+ fst (complexityHead data))
       +:+ section +:+ String Spec.LF "", None).
Proof.
  intros Hok Hs Hsec. apply Execute_parts in Hok.
  destruct Hok as (H1 & H2 & H3 & H4 & H5 & _ & _).
  destruct (sections_without_complexity data stats l Hs) as [Hst Hch].
  rewrite (exec_eta (Execute _)). unfold Execute.
  rewrite Hst, Hch, Hsec.
  change (headerPart (Spec.with_stats _ data)) with (headerPart data).
  change (badgeSection (Spec.with_stats _ data)) with (badgeSection data).
  change (commitPart (Spec.with_stats _ data)) with (commitPart data).
  f_equal.
  - rewrite !seq_fst_ok by (rewrite ?seq_ok; repeat split; assumption || reflexivity). cbn [fst].
    assoc_r_with append_assoc. reflexivity.
  - rewrite !seq_ok. repeat split; assumption || reflexivity.
Qed.

(** C7. In a report that was written, everything before the complexity
    section ends with the count of functions over the threshold and is
    the same whatever [ComplexityStats] holds.  When the count is 0 the
    section is the sentence "No functions found with cyclomatic
    complexity greater than {threshold}." and nothing of
    [ComplexityStats] is written: the report is the same for every
    list.  When the count is greater than 0 the section is the head of
    the table and one row per [ComplexityStat], in the order of the
    list, each with complexity, function name, file:line and package. *)
Theorem complexity_section_follows_count (env : FileEnv) (data : ReportData)
  (outputPath report : string) (stats : metrics.OverallStats) :
  GenerateMarkdownReport env data outputPath = (Some report, None) ->
  Stats data = Some stats ->
  exists before,
    let pre := before +:+ "- **Functions Over Threshold:** "
                 +:+ go_fmt.fmt_d (metrics.FunctionsOverThreshold stats) +:+ "

" in
    (metrics.FunctionsOverThreshold stats = 0 ->
     report = pre +:+ Spec.no_functions_sentence (ComplexityThreshold data) +:+ "

"
     /\ forall l,
          GenerateMarkdownReport env
            (Spec.with_stats (Some (Spec.with_complexity l stats)) data) outputPath
          = (Some report, None))
    /\ (0 < metrics.FunctionsOverThreshold stats ->
        report = pre +:+ Spec.complexity_table_head
                   +:+ sconcat (map Spec.complexity_table_row
                                  (metrics.ComplexityStats stats)) +:+ "

"
        /\ forall l,
             GenerateMarkdownReport env
               (Spec.with_stats (Some (Spec.with_complexity l stats)) data) outputPath
             = (Some (pre +:+ Spec.complexity_table_head
                        +:+ sconcat (map Spec.complexity_table_row l) +:+ "

"), None)).
Proof.
  intros H Hs. apply GenerateMarkdownReport_ok in H. destruct H as (Hmk & Hcr & Hex).
  assert (Hok : snd (Execute data) = None) by (by rewrite Hex).
  destruct (complexityHead_ending data stats Hs) as [before0 Hend].
  exists (fst (headerPart data) +:+ fst (badgeSection data) +:+ fst (commitPart data)
            +:+ fst (statsPart data) +:+ before0).
  cbn zeta.
  assert (Hpre : (fst (headerPart data) +:+ fst (badgeSection data)
                    +:+ fst (commitPart data) +:+ fst (statsPart data)
                    +:+ fst (complexityHead data))
                 = (fst (headerPart data) +:+ fst (badgeSection data)
                      +:+ fst (commitPart data) +:+ fst (statsPart data) +:+ before0)
                     +:+ "- **Functions Over Threshold:** "
                     +:+ go_fmt.fmt_d (metrics.FunctionsOverThreshold stats) +:+ "

").
  { rewrite Hend. assoc_r_with append_assoc. reflexivity. }
  rewrite <- Hpre. clear Hpre Hend.
  split.
  - intros Hzero.
    assert (Hall : forall l,
              Execute (Spec.with_stats (Some (Spec.with_complexity l stats)) data)
              = ((fst (headerPart data) +:+ fst (badgeSection data)
                    +:+ fst (commitPart data) +:+ fst (statsPart data)
                    +:+ fst (complexityHead data))
                   +:+ Spec.no_functions_sentence (ComplexityThreshold data) +:+ "

", None)).
    { intros l.
      rewrite (Execute_with_complexity data stats l _ Hok Hs
                 (complexitySection_quiet
                    (Spec.with_stats (Some (Spec.with_complexity l stats)) data)
                    (Spec.with_complexity l stats) eq_refl
                    ltac:(cbn; by rewrite Hzero))).
      cbn [ComplexityThreshold Spec.with_stats].
      assoc_r_with append_assoc. reflexivity. }
    assert (Hreport : report
              = (fst (headerPart data) +:+ fst (badgeSection data)
                   +:+ fst (commitPart data) +:+ fst (statsPart data)
                   +:+ fst (complexityHead data))
                  +:+ Spec.no_functions_sentence (ComplexityThreshold data) +:+ "

").
    { specialize (Hall (metrics.ComplexityStats stats)).
      rewrite (with_complexity_same data stats Hs), Hex in Hall. by injection Hall. }
    split; [exact Hreport|].
    intros l. apply GenerateMarkdownReport_ok. rewrite Hreport. auto.
  - intros Hpos.
    assert (Hall : forall l,
              Execute (Spec.with_stats (Some (Spec.with_complexity l stats)) data)
              = ((fst (headerPart data) +:+ fst (badgeSection data)
                    +:+ fst (commitPart data) +:+ fst (statsPart data)
                    +:+ fst (complexityHead data))
                   +:+ Spec.complexity_table_head
                   +:+ sconcat (map Spec.complexity_table_row l) +:+ "

", None)).
    { intros l.
      rewrite (Execute_with_complexity data stats l _ Hok Hs
                 (complexitySection_table
                    (Spec.with_stats (Some (Spec.with_complexity l stats)) data)
                    (Spec.with_complexity l stats) eq_refl
                    ltac:(cbn; by apply Z.ltb_lt))).
      cbn [metrics.ComplexityStats Spec.with_complexity].
      assoc_r_with append_assoc. reflexivity. }
    split.
    + specialize (Hall (metrics.ComplexityStats stats)).
      rewrite (with_complexity_same data stats Hs), Hex in Hall. by injection Hall.
    + intros l. apply GenerateMarkdownReport_ok. auto.
Qed.

Lemma complexity_section_follows_count_witness :
  (exists before,
     fst (Execute (Fixture.reportData ""))
     = (before +:+ "- **Functions Over Threshold:** " +:+ go_fmt.fmt_d 2 +:+ "

") +:+ Spec.complexity_table_head
       +:+ sconcat (map Spec.complexity_table_row
                      (metrics.ComplexityStats Fixture.overallStats)) +:+ "

")
  /\ (exists before,
        fst (Execute Fixture.quietData)
        = (before +:+ "- **Functions Over Threshold:** " +:+ go_fmt.fmt_d 0 +:+ "

") +:+ Spec.no_functions_sentence 15 +:+ "

").
Proof.
  split.
  - destruct (complexity_section_follows_count Fixture.fileEnv (Fixture.reportData "")
                "test_report_no_badge.md" (fst (Execute (Fixture.reportData "")))
                Fixture.overallStats) as (before & _ & Hpos).
    + vm_compute. reflexivity.
    + reflexivity.
    + exists before. apply Hpos. reflexivity.
  - destruct (complexity_section_follows_count Fixture.fileEnv Fixture.quietData
                "test_report_no_badge.md" (fst (Execute Fixture.quietData))
                Fixture.quietStats) as (before & Hzero & _).
    + vm_compute. reflexivity.
    + reflexivity.
    + exists before. apply Hzero. reflexivity.
Defined.

(** ** Predicates that every piece of a report satisfies *)

Section Closed.

Variable Q : string -> Prop.
Hypothesis Q_empty : Q "".
Hypothesis Q_app : forall a b, Q a -> Q b -> Q (a +:+ b).
Hypothesis Q_escaped : forall v, Q (html_template.htmlEscaper v).

Lemma seq_closed (a b : exec) : Q (fst a) -> Q (fst b) -> Q (fst (a ;; b)).
Proof.
  intros Ha Hb. rewrite seq_fst. apply Q_app; [done|]. by destruct (snd a).
Qed.

Lemma action_closed (v : string) : Q (fst (action v)).
Proof. apply Q_escaped. Qed.

Lemma field_closed {A : Type} (typ name : string) (ptr : option A) (get : A -> string) :
  Q (fst (field typ name ptr get)).
Proof. destruct ptr; [apply Q_escaped | apply Q_empty]. Qed.

Lemma range_closed {A : Type} (body : A -> exec) (l : list A) :
  (forall x, Q (fst (body x))) -> Q (fst (range body l)).
Proof.
  intros H. induction l as [|x l IH]; [apply Q_empty|].
  cbn [range]. by apply seq_closed.
Qed.

End Closed.

(** *** No raw markup *)

Lemma markup_free_app (a b : string) :
  Spec.markup_free a = true -> Spec.markup_free b = true ->
  Spec.markup_free (a +:+ b) = true.
Proof.
  unfold Spec.markup_free. intros Ha Hb. rewrite chars_app, forallb_app.
  by rewrite Ha, Hb.
Qed.

Lemma htmlReplacement_cases (c : ascii) :
  (html_template.htmlReplacement c = String c ""
   /\ c <> "<"%char /\ c <> ">"%char /\ c <> "&"%char
   /\ c <> "'"%char /\ c <> Spec.DQUOTE)
  \/ In (html_template.htmlReplacement c)
       [ String "239"%char (String "191"%char (String "189"%char ""));
         "&#34;"; "&amp;"; "&#39;"; "&#43;"; "&lt;"; "&gt;" ].
Proof.
  unfold html_template.htmlReplacement.
  repeat (destruct (decide _) as [->|?]; [right; cbn; tauto|]).
  left. repeat split; done.
Qed.

Lemma markup_free_htmlEscaper (v : string) :
  Spec.markup_free (html_template.htmlEscaper v) = true.
Proof.
  induction v as [|c v IH]; [done|].
  cbn [html_template.htmlEscaper flat_map_bytes]. apply markup_free_app; [|exact IH].
  destruct (htmlReplacement_cases c) as [(-> & H1 & _ & _ & H2 & H3)|Hin].
  - unfold Spec.markup_free, Spec.raw_markup. cbn.
    rewrite !orb_false_r.
    destruct (Ascii.eqb_spec c "<"); [done|].
    destruct (Ascii.eqb_spec c "'"); [done|].
    destruct (Ascii.eqb_spec c Spec.DQUOTE); done.
  - cbn in Hin. repeat (destruct Hin as [<-|Hin]; [reflexivity|]). done.
Qed.

(** *** The greater-than signs *)

Lemma count_byte_app (c : ascii) (a b : string) :
  Spec.count_byte c (a +:+ b) = (Spec.count_byte c a + Spec.count_byte c b)%nat.
Proof. unfold Spec.count_byte. by rewrite chars_app, count_occ_app. Qed.

Lemma count_gt_htmlEscaper (v : string) :
  Spec.count_byte ">" (html_template.htmlEscaper v) = 0%nat.
Proof.
  induction v as [|c v IH]; [done|].
  cbn [html_template.htmlEscaper flat_map_bytes]. rewrite count_byte_app.
  fold (html_template.htmlEscaper v). rewrite IH, Nat.add_0_r.
  destruct (htmlReplacement_cases c) as [(-> & _ & H & _)|Hin].
  - unfold Spec.count_byte. cbn. destruct (ascii_dec c ">"); done.
  - cbn in Hin. repeat (destruct Hin as [<-|Hin]; [reflexivity|]). done.
Qed.

(** *** Character references *)

Lemma entity_closed_empty : Spec.entity_closed "".
Proof. intros rest H. exact H. Qed.

Lemma entity_closed_app (a b : string) :
  Spec.entity_closed a -> Spec.entity_closed b -> Spec.entity_closed (a +:+ b).
Proof. intros Ha Hb rest H. rewrite append_assoc. apply Ha, Hb, H. Qed.

Lemma entity_closed_byte (c : ascii) :
  c <> "&"%char -> Spec.entity_closed (String c "").
Proof.
  intros Hc rest H. change (String c "" +:+ rest) with (String c rest).
  cbn [Spec.entities_only]. destruct (decide (c = "&"%char)); [done|exact H].
Qed.

Lemma entity_closed_htmlEscaper (v : string) :
  Spec.entity_closed (html_template.htmlEscaper v).
Proof.
  induction v as [|c v IH]; [apply entity_closed_empty|].
  cbn [html_template.htmlEscaper flat_map_bytes]. apply entity_closed_app; [|exact IH].
  destruct (htmlReplacement_cases c) as [(-> & _ & _ & H & _)|Hin].
  - by apply entity_closed_byte.
  - cbn in Hin.
    repeat (destruct Hin as [<-|Hin];
            [intros rest H; destruct rest; cbn in *; exact H|]).
    done.
Qed.

Lemma entity_closed_plain (s : string) :
  forallb (fun c => negb (Ascii.eqb c "&")) (chars s) = true -> Spec.entity_closed s.
Proof.
  induction s as [|c s IH]; intros H; [apply entity_closed_empty|].
  rewrite chars_cons in H. cbn [forallb] in H. apply andb_true_iff in H as [Hc Hs].
  change (String c s) with (String c "" +:+ s). apply entity_closed_app; [|by apply IH].
  apply entity_closed_byte. intros ->. done.
Qed.

(** Whatever the data, and whether or not the execution fails, what
    [Execute] writes holds no [<], no ['] and no double quote. *)
Lemma Execute_markup_free (data : ReportData) :
  Spec.markup_free (fst (Execute data)) = true.
Proof.
  unfold Execute, headerPart, badgeSection, commitPart, statsPart, complexityHead,
    complexitySection, fileTypeRows, fileTypeRow, complexityRow, commitField, statsField.
  destruct (decide (BadgeURL data = "")), (Stats data) as [stats|];
    try destruct (0 <? metrics.FunctionsOverThreshold stats);
    closed_exec
      ltac:(apply (seq_closed (fun s => Spec.markup_free s = true) eq_refl markup_free_app))
      ltac:(apply (action_closed (fun s => Spec.markup_free s = true) markup_free_htmlEscaper))
      ltac:(apply (field_closed (fun s => Spec.markup_free s = true) eq_refl markup_free_htmlEscaper))
      ltac:(apply (range_closed (fun s => Spec.markup_free s = true) eq_refl markup_free_app))
      ltac:(reflexivity).
Qed.

Lemma entity_closed_text (s : string) :
  forallb (fun c => negb (Ascii.eqb c "&")) (chars (html_template.escapeText s)) = true
  \/ html_template.escapeText s = " &lt;" ->
  Spec.entity_closed (fst (text s)).
Proof.
  unfold text. cbn [fst]. intros [H| ->]; [by apply entity_closed_plain|].
  intros rest H. destruct rest; cbn in *; exact H.
Qed.

(** Every [&] that [Execute] writes starts a character reference. *)
Lemma Execute_entities_only (data : ReportData) :
  Spec.entities_only (fst (Execute data)) = true.
Proof.
  rewrite <- (append_nil_r (fst (Execute data))).
  assert (H : Spec.entity_closed (fst (Execute data))); [|by apply H].
  unfold Execute, headerPart, badgeSection, commitPart, statsPart, complexityHead,
    complexitySection, fileTypeRows, fileTypeRow, complexityRow, commitField, statsField.
  destruct (decide (BadgeURL data = "")), (Stats data) as [stats|];
    try destruct (0 <? metrics.FunctionsOverThreshold stats);
    closed_exec
      ltac:(apply (seq_closed Spec.entity_closed entity_closed_empty entity_closed_app))
      ltac:(apply (action_closed Spec.entity_closed entity_closed_htmlEscaper))
      ltac:(apply (field_closed Spec.entity_closed entity_closed_empty entity_closed_htmlEscaper))
      ltac:(apply (range_closed Spec.entity_closed entity_closed_empty entity_closed_app))
      ltac:(first [ apply entity_closed_empty
                  | apply entity_closed_text; first [ left; reflexivity | right; reflexivity ] ]).
Qed.

Lemma commitPart_run (data : ReportData) (commit : git.CommitInfo) :
  Commit data = Some commit ->
  commitPart data
  = ("

## Latest Commit Analyzed
- **Hash:** " +:+ html_template.htmlEscaper (git.Hash commit) +:+ "
" +:+ Spec.author_line (git.Author commit) (git.Email commit) +:+ "
- **Date:** " +:+ html_template.htmlEscaper (git.Date commit) +:+ "
- **Message:** " +:+ html_template.htmlEscaper (git.Message commit), None).
Proof.
  intros Hc. unfold commitPart, commitField, field. rewrite Hc.
  norm_text. unfold action, Spec.author_line. cbn [seq fst snd].
  assoc_r_with append_assoc. reflexivity.
Qed.

Lemma complexityHead_run (data : ReportData) (stats : metrics.OverallStats) :
  Stats data = Some stats ->
  complexityHead data
  = ("

## Cyclomatic Complexity Analysis (Threshold > "
       +:+ go_fmt.fmt_d (ComplexityThreshold data) +:+ ")
- **Average Complexity (of functions over threshold):** "
       +:+ html_template.htmlEscaper (go_fmt.fmt_f 2 (metrics.AverageComplexity stats)) +:+ "
- **Functions Over Threshold:** "
       +:+ go_fmt.fmt_d (metrics.FunctionsOverThreshold stats) +:+ "

", None).
Proof.
  intros Hs. unfold complexityHead, statsField, field. rewrite Hs.
  norm_text. unfold action. rewrite !htmlEscaper_fmt_d. cbn [seq fst snd].
  reflexivity.
Qed.

Lemma count_gt_fmt_d (n : Z) : Spec.count_byte ">" (go_fmt.fmt_d n) = 0%nat.
Proof. rewrite <- htmlEscaper_fmt_d. apply count_gt_htmlEscaper. Qed.

Lemma count_gt_app_zero (a b : string) :
  Spec.count_byte ">" a = 0%nat -> Spec.count_byte ">" b = 0%nat ->
  Spec.count_byte ">" (a +:+ b) = 0%nat.
Proof. intros Ha Hb. by rewrite count_byte_app, Ha, Hb. Qed.

(** The sections of the template whose own text has no [>]. *)
Lemma count_gt_other_sections (data : ReportData) :
  Spec.count_byte ">" (fst (headerPart data)) = 0%nat
  /\ Spec.count_byte ">" (fst (badgeSection data)) = 0%nat
  /\ Spec.count_byte ">" (fst (statsPart data)) = 0%nat
  /\ Spec.count_byte ">" (fst (complexitySection data)) = 0%nat.
Proof.
  unfold headerPart, badgeSection, statsPart, complexitySection, fileTypeRows,
    fileTypeRow, complexityRow, statsField.
  destruct (decide (BadgeURL data = "")), (Stats data) as [stats|];
    try destruct (0 <? metrics.FunctionsOverThreshold stats);
    repeat split;
    closed_exec
      ltac:(apply (seq_closed (fun s => Spec.count_byte ">" s = 0%nat) eq_refl count_gt_app_zero))
      ltac:(apply (action_closed (fun s => Spec.count_byte ">" s = 0%nat) count_gt_htmlEscaper))
      ltac:(apply (field_closed (fun s => Spec.count_byte ">" s = 0%nat) eq_refl count_gt_htmlEscaper))
      ltac:(apply (range_closed (fun s => Spec.count_byte ">" s = 0%nat) eq_refl count_gt_app_zero))
      ltac:(reflexivity).
Qed.

(** A report that was executed without error holds two [>]: the one
    that closes the e-mail address and the one of the threshold. *)
Lemma Execute_count_gt (data : ReportData) :
  snd (Execute data) = None -> Spec.count_byte ">" (fst (Execute data)) = 2%nat.
Proof.
  intros Hok. apply Execute_parts in Hok.
  destruct Hok as (_ & _ & Hc & _ & Hh & _ & ->).
  destruct (count_gt_other_sections data) as (H1 & H2 & H3 & H4).
  assert (exists commit, Commit data = Some commit) as [commit Hcommit].
  { unfold commitPart in Hc. rewrite !seq_ok in Hc. destruct Hc as (_ & Hf & _).
    by apply field_ok in Hf. }
  assert (exists stats, Stats data = Some stats) as [stats Hstats].
  { unfold complexityHead in Hh. rewrite !seq_ok in Hh.
    destruct Hh as (_ & _ & _ & Hf & _). by apply field_ok in Hf. }
  rewrite !count_byte_app, H1, H2, H3, H4.
  rewrite (commitPart_run data commit Hcommit), (complexityHead_run data stats Hstats).
  cbn [fst]. unfold Spec.author_line.
  rewrite !count_byte_app, !count_gt_htmlEscaper, !count_gt_fmt_d. reflexivity.
Qed.

(** ** The whole report *)

Lemma fileTypeRow_present (row : string * metrics.FileTypeStat) :
  fileTypeRow (Spec.present row) = (Spec.file_type_row row, None).
Proof.
  unfold fileTypeRow, Spec.present, Spec.file_type_row, field, action. cbn [fst snd].
  rewrite htmlEscaper_fmt_d. reflexivity.
Qed.

Lemma fileTypeRows_present (rows : list (string * metrics.FileTypeStat)) :
  range fileTypeRow (map Spec.present rows)
  = (sconcat (map Spec.file_type_row rows), None).
Proof.
  induction rows as [|row rows IH]; [done|].
  cbn [range map sconcat]. rewrite fileTypeRow_present, IH. reflexivity.
Qed.

(** The rows of a table that was written have no nil pointer. *)
Lemma fileTypeRows_ok_present (entries : list (string * option metrics.FileTypeStat)) :
  snd (range fileTypeRow entries) = None ->
  exists rows, entries = map Spec.present rows.
Proof.
  rewrite range_ok. induction 1 as [|[ext ptr] entries Hrow _ [rows ->]].
  - by exists [].
  - destruct ptr as [stat|].
    + by exists ((ext, stat) :: rows).
    + unfold fileTypeRow in Hrow. rewrite !seq_ok in Hrow.
      destruct Hrow as (_ & _ & _ & Hf & _). apply field_ok in Hf as [a [=]].
Qed.

Lemma statsPart_run (data : ReportData) (stats : metrics.OverallStats)
  (rows : list (string * metrics.FileTypeStat)) :
  Stats data = Some stats ->
  sortedEntries (metrics.FileStats stats) = map Spec.present rows ->
  statsPart data
  = (Spec.stats_block stats +:+ sconcat (map Spec.file_type_row rows), None).
Proof.
  intros Hs Hrows. unfold statsPart, statsField, fileTypeRows, field. rewrite Hs, Hrows.
  rewrite fileTypeRows_present. norm_text. unfold action, Spec.stats_block.
  rewrite !htmlEscaper_fmt_d. cbn [seq fst snd].
  assoc_r_with append_assoc. reflexivity.
Qed.

Lemma complexitySection_run (data : ReportData) (stats : metrics.OverallStats) :
  Stats data = Some stats ->
  complexitySection data
  = (Spec.complexity_section (ComplexityThreshold data) stats, None).
Proof.
  intros Hs. unfold Spec.complexity_section.
  destruct (0 <? metrics.FunctionsOverThreshold stats) eqn:Hn.
  - by apply (complexitySection_table data stats).
  - by apply (complexitySection_quiet data stats).
Qed.

(** [Execute] succeeds on data whose pointers are not nil, and writes
    the report text. *)
Lemma Execute_run (data : ReportData) (commit : git.CommitInfo)
  (stats : metrics.OverallStats) (rows : list (string * metrics.FileTypeStat)) :
  Commit data = Some commit ->
  Stats data = Some stats ->
  sortedEntries (metrics.FileStats stats) = map Spec.present rows ->
  Execute data = (Spec.report_text data commit stats rows, None).
Proof.
  intros Hc Hs Hrows. unfold Execute.
  rewrite headerPart_run, badgeSection_run, (commitPart_run data commit Hc),
    (statsPart_run data stats rows Hs Hrows), (complexityHead_run data stats Hs),
    (complexitySection_run data stats Hs).
  unfold text. cbn [seq fst snd]. unfold Spec.report_text, Spec.commit_block,
    Spec.complexity_head.
  f_equal. assoc_r_with append_assoc. reflexivity.
Qed.

(** Conversely, an execution without error had no nil pointer to
    follow. *)
Lemma Execute_ok_inv (data : ReportData) :
  snd (Execute data) = None ->
  exists commit stats rows,
    Commit data = Some commit
    /\ Stats data = Some stats
    /\ sortedEntries (metrics.FileStats stats) = map Spec.present rows.
Proof.
  intros Hok. apply Execute_parts in Hok.
  destruct Hok as (_ & _ & Hc & Hst & _).
  assert (exists commit, Commit data = Some commit) as [commit Hcommit].
  { unfold commitPart in Hc. rewrite !seq_ok in Hc. destruct Hc as (_ & Hf & _).
    by apply field_ok in Hf. }
  unfold statsPart in Hst. rewrite !seq_ok in Hst.
  destruct Hst as (_ & Hf & _ & _ & _ & Hrows).
  apply field_ok in Hf as [stats Hstats].
  unfold fileTypeRows in Hrows. rewrite Hstats in Hrows.
  apply fileTypeRows_ok_present in Hrows as [rows Hrows].
  by exists commit, stats, rows.
Qed.

(** C10. [GenerateMarkdownReport] renders through html/template.  A
    report that was written is the report text in which every
    interpolated field (repository URL, date, badge URL, the commit's
    hash, author, e-mail, date and message, the file extensions, the
    function names, files and packages, and the numbers) stands as the
    HTML escaper writes it; its author line reads
    [- **Author:** {Author} &lt;{Email}>].  The report holds no [<], no
    ['] and no double quote; its only two [>] are the template's own;
    every [&] in it starts a character reference.  The escaper works
    byte by byte, writes [<], [>], [&], ['] and the double quote as
    [&lt;], [&gt;], [&amp;], [&#39;] and [&#34;], and what it returns
    holds none of [<], [>], ['] and the double quote. *)
Theorem report_fields_are_html_escaped (env : FileEnv) (data : ReportData)
  (outputPath report : string) :
  GenerateMarkdownReport env data outputPath = (Some report, None) ->
  (exists commit stats rows,
     Commit data = Some commit
     /\ Stats data = Some stats
     /\ sortedEntries (metrics.FileStats stats) = map Spec.present rows
     /\ report = Spec.report_text data commit stats rows
     /\ exists before after,
          report = before +:+ Spec.author_line (git.Author commit) (git.Email commit)
                     +:+ after)
  /\ Spec.markup_free report = true
  /\ Spec.count_byte ">" report = 2%nat
  /\ Spec.entities_only report = true
  /\ (forall a b,
        html_template.htmlEscaper (a +:+ b)
        = html_template.htmlEscaper a +:+ html_template.htmlEscaper b)
  /\ (forall v,
        Spec.markup_free (html_template.htmlEscaper v) = true
        /\ Spec.count_byte ">" (html_template.htmlEscaper v) = 0%nat
        /\ Spec.entities_only (html_template.htmlEscaper v) = true)
  /\ html_template.htmlEscaper "<" = "&lt;"
  /\ html_template.htmlEscaper ">" = "&gt;"
  /\ html_template.htmlEscaper "&" = "&amp;"
  /\ html_template.htmlEscaper "'" = "&#39;"
  /\ html_template.htmlEscaper (String Spec.DQUOTE "") = "&#34;".
Proof.
  intros H. apply GenerateMarkdownReport_ok in H. destruct H as (_ & _ & Hex).
  assert (Hok : snd (Execute data) = None) by (by rewrite Hex).
  assert (Hreport : report = fst (Execute data)) by (by rewrite Hex).
  split; [|split; [|split; [|split; [|split; [|split]]]]].
  - destruct (Execute_ok_inv data Hok) as (commit & stats & rows & Hc & Hs & Hrows).
    exists commit, stats, rows. repeat (split; [assumption|]).
    rewrite Hreport, (Execute_run data commit stats rows Hc Hs Hrows). cbn [fst].
    split; [reflexivity|].
    unfold Spec.report_text, Spec.commit_block.
    exists (Spec.report_header data +:+ Spec.badge_part (BadgeURL data) +:+ "

## Latest Commit Analyzed
- **Hash:** " +:+ html_template.htmlEscaper (git.Hash commit) +:+ String Spec.LF "").
    eexists. assoc_r_with append_assoc. reflexivity.
  - rewrite Hreport. apply Execute_markup_free.
  - rewrite Hreport. by apply Execute_count_gt.
  - rewrite Hreport. apply Execute_entities_only.
  - apply flat_map_bytes_app.
  - intros v. split; [apply markup_free_htmlEscaper|].
    split; [apply count_gt_htmlEscaper|].
    rewrite <- (append_nil_r (html_template.htmlEscaper v)).
    by apply entity_closed_htmlEscaper.
  - repeat split; reflexivity.
Qed.

Lemma report_fields_are_html_escaped_witness :
  (exists before after,
     fst (Execute Fixture.markupData)
     = before +:+ "- **Author:** Verne &amp; Sons &lt;R&amp;D&gt; &lt;jules&#43;zen@example.com>"
         +:+ after)
  /\ Spec.markup_free (fst (Execute Fixture.markupData)) = true
  /\ Spec.count_byte ">" (fst (Execute Fixture.markupData)) = 2%nat.
Proof.
  destruct (report_fields_are_html_escaped Fixture.fileEnv Fixture.markupData
              "reports/latest.md" (fst (Execute Fixture.markupData)))
    as (Htext & Hfree & Hcount & _).
  - vm_compute. reflexivity.
  - split; [|split; assumption].
    destruct Htext as (commit & stats & rows & Hc & _ & _ & _ & before & after & Hline).
    injection Hc as <-. exists before, after. exact Hline.
Defined.

(** ** The model against the repository's own output *)

(** Executing the template on the data of [main_test_report.go] with
    an empty badge URL gives the report the repository keeps. *)
Example Execute_reproduces_test_report :
  Execute (Fixture.reportData "") = (Fixture.test_report_no_badge, None).
Proof. vm_compute. reflexivity. Qed.

(** A text node without [<] keeps the escaper in the text state and is
    written as it stands. *)
Lemma text_without_lt (s : string) :
  forallb (fun c => negb (Ascii.eqb c "<")) (chars s) = true ->
  html_template.staysText s = true /\ html_template.escapeText s = s.
Proof.
  induction s as [|c s IH]; [done|].
  rewrite chars_cons. cbn [forallb]. intros H. apply andb_true_iff in H as [Hc Hs].
  destruct (IH Hs) as [IH1 IH2].
  assert (Hne : c <> "<"%char) by (intros ->; done).
  cbn [html_template.staysText html_template.escapeText].
  rewrite !decide_False by done. split; [exact IH1|]. by rewrite IH2.
Qed.

(** The one [<] of the template ends its text node (line 26): it opens
    no tag, and is written [&lt;]. *)
Lemma author_text_stays_text :
  html_template.staysText " <" = true /\ html_template.escapeText " <" = " &lt;".
Proof. split; reflexivity. Qed.

End ReportFacts.

(** * Further properties *)

(** ** The analyzer: when it succeeds, and what its errors are *)

(** X1. [AnalyzeLatestCommit] never panics.  It returns a
    [RepositoryInfo] exactly when the repository opens, the head
    resolves, the commit and its tree load and a patch is made; whether
    [Stats()] works plays no part.  The [RepositoryInfo] it returns has
    an empty [URL] and the given path as [TempPath]. *)
Theorem AnalyzeLatestCommit_succeeds_iff `{VCS : VersionControlProvider}
  (unicodeLower : string -> string) (repoPath : string) :
  (exists r, git.AnalyzeLatestCommit unicodeLower repoPath = Some r)
  /\ ((exists info, git.AnalyzeLatestCommit unicodeLower repoPath = Some (Ok info))
      <-> (exists repo headRef latestCommit currentTree patch,
             PlainOpen repoPath = Ok repo
             /\ Head repo = Ok headRef
             /\ CommitObject repo headRef = Ok latestCommit
             /\ commit_Tree latestCommit = Ok currentTree
             /\ git.latestPatch latestCommit currentTree = Ok patch))
  /\ (forall info,
        git.AnalyzeLatestCommit unicodeLower repoPath = Some (Ok info) ->
        git.URL info = "" /\ git.TempPath info = repoPath).
Proof.
  split; [|split].
  - unfold git.AnalyzeLatestCommit.
    destruct (PlainOpen repoPath) as [repo|]; [|eauto].
    destruct (Head repo) as [headRef|]; [|eauto].
    destruct (CommitObject repo headRef) as [c|]; [|eauto].
    destruct (Split_single_head "010"%char (commit_Message c)) as (p & ps & -> & _).
    cbn [lookup list_lookup].
    destruct (match commit_Stats c with
              | Err _ => (0, 0)
              | Ok commitStats => git.sumStats commitStats
              end) as [a d].
    destruct (commit_Tree c) as [t|]; [|eauto].
    destruct (git.latestPatch c t); eauto.
  - split.
    + intros [info H]. apply AnalyzeLatestCommit_Ok_inv in H.
      destruct H as (repo & headRef & c & l & tot & t & patch & H).
      exists repo, headRef, c, t, patch. tauto.
    + intros (repo & headRef & c & t & patch & Ho & Hh & Hc & Ht & Hp).
      unfold git.AnalyzeLatestCommit. rewrite Ho, Hh, Hc.
      destruct (Split_single_head "010"%char (commit_Message c)) as (p & ps & -> & _).
      cbn [lookup list_lookup].
      destruct (match commit_Stats c with
                | Err _ => (0, 0)
                | Ok commitStats => git.sumStats commitStats
                end) as [a d].
      rewrite Ht, Hp. eauto.
  - intros info H. apply AnalyzeLatestCommit_Ok_inv in H.
    destruct H as (repo & headRef & c & l & tot & t & patch & H).
    destruct H as (_ & _ & _ & _ & _ & _ & _ & ->). done.
Qed.

(** X2. Every error [AnalyzeLatestCommit] returns is wrapped: its
    message starts with "failed to ". *)
Theorem AnalyzeLatestCommit_errors_are_wrapped `{VCS : VersionControlProvider}
  (unicodeLower : string -> string) (repoPath : string) (err : error) :
  git.AnalyzeLatestCommit unicodeLower repoPath = Some (Err err) ->
  String.prefix "failed to " err = true.
Proof.
  unfold git.AnalyzeLatestCommit, git.latestPatch.
  destruct (PlainOpen repoPath) as [repo|]; [|by intros [= <-]].
  destruct (Head repo) as [headRef|]; [|by intros [= <-]].
  destruct (CommitObject repo headRef) as [c|]; [|by intros [= <-]].
  destruct (go_strings.Split _ _ !! 0%nat); [|done].
  destruct (match commit_Stats c with
            | Err _ => (0, 0)
            | Ok commitStats => git.sumStats commitStats
            end) as [a d].
  destruct (commit_Tree c) as [t|]; [|by intros [= <-]].
  destruct (decide (commit_NumParents c = 0%nat)).
  - destruct (DiffTree None t) as [ch|]; [|by intros [= <-]].
    destruct (changes_Patch ch); [done | by intros [= <-]].
  - destruct (commit_Parent c 0) as [parent|].
    + destruct (commit_Tree parent) as [pt|]; [|by intros [= <-]].
      destruct (tree_Patch pt t); [done | by intros [= <-]].
    + destruct (DiffTree None t) as [ch|]; [|by intros [= <-]].
      destruct (changes_Patch ch); [done | by intros [= <-]].
Qed.

Lemma AnalyzeLatestCommit_errors_are_wrapped_witness :
  @git.AnalyzeLatestCommit Sample.notARepository Fixture.asciiOnly "./project"
  = Some (Err "failed to open repository at ./project: repository does not exist")
  /\ String.prefix "failed to "
       "failed to open repository at ./project: repository does not exist" = true.
Proof.
  split; [reflexivity|].
  apply (@AnalyzeLatestCommit_errors_are_wrapped Sample.notARepository
           Fixture.asciiOnly "./project"). reflexivity.
Defined.

(** X3. A commit whose parent cannot be loaded is analysed like a root
    commit: when the diff of its tree against the empty tree gives a
    patch, the analysis succeeds and the changed files are those of
    that patch; the parent's absence is no error. *)
Theorem missing_parent_falls_back_to_empty_tree `{VCS : VersionControlProvider}
  (unicodeLower : string -> string) (repoPath : string)
  (repo : Repository) (headRef : string) (latestCommit : Commit)
  (currentTree : Tree) (changes : Changes) (patch : option object.Patch) :
  PlainOpen repoPath = Ok repo ->
  Head repo = Ok headRef ->
  CommitObject repo headRef = Ok latestCommit ->
  commit_Tree latestCommit = Ok currentTree ->
  commit_NumParents latestCommit = 0%nat
  \/ (exists errParent, commit_Parent latestCommit 0 = Err errParent) ->
  DiffTree None currentTree = Ok changes ->
  changes_Patch changes = Ok patch ->
  exists info,
    git.AnalyzeLatestCommit unicodeLower repoPath = Some (Ok info)
    /\ git.ChangedFiles info
       = match patch with
         | Some patch => git.collectChangedFiles unicodeLower (object.FilePatches patch)
         | None => []
         end.
Proof.
  intros Ho Hh Hc Ht Hparent Hd Hp.
  assert (Hpatch : git.latestPatch latestCommit currentTree = Ok patch).
  { unfold git.latestPatch.
    destruct (decide (commit_NumParents latestCommit = 0%nat)) as [|Hn].
    - by rewrite Hd, Hp.
    - destruct Hparent as [|[e He]]; [done|]. by rewrite He, Hd, Hp. }
  unfold git.AnalyzeLatestCommit. rewrite Ho, Hh, Hc.
  destruct (Split_single_head "010"%char (commit_Message latestCommit))
    as (p & ps & -> & _).
  cbn [lookup list_lookup].
  destruct (match commit_Stats latestCommit with
            | Err _ => (0, 0)
            | Ok commitStats => git.sumStats commitStats
            end) as [a d].
  rewrite Ht, Hpatch. eauto.
Qed.

Lemma missing_parent_falls_back_to_empty_tree_witness :
  exists info,
    @git.AnalyzeLatestCommit Fixture.shallowClone Fixture.asciiOnly
      "/tmp/zenwatch-clone-1" = Some (Ok info)
    /\ map git.Path (git.ChangedFiles info) = ["vendor/foo.GO"; "old.txt"; "LICENSE"].
Proof.
  destruct (@missing_parent_falls_back_to_empty_tree Fixture.shallowClone
              Fixture.asciiOnly "/tmp/zenwatch-clone-1" tt
              "6ecf0ef2c2dffb796033e5a02219af86ec6584e5" tt tt tt _
              eq_refl eq_refl eq_refl eq_refl
              (or_intror (ex_intro _ "object not found" eq_refl)) eq_refl eq_refl)
    as (info & Hinfo & Hfiles).
  exists info. split; [exact Hinfo|]. rewrite Hfiles. reflexivity.
Defined.

(** ** The totals of a commit *)

Lemma sumStats_from (stats : list object.FileStat) (a d : Z) :
  fold_left
    (fun '(totalAdded, totalDeleted) fileStat =>
       (int_add totalAdded (object.Addition fileStat),
        int_add totalDeleted (object.Deletion fileStat)))
    stats (int_wrap a, int_wrap d)
  = (int_wrap (a + Extra.sum_additions stats), int_wrap (d + Extra.sum_deletions stats)).
Proof.
  revert a d. induction stats as [|s stats IH]; intros a d; cbn [fold_left].
  - cbn. by rewrite !Z.add_0_r.
  - cbv beta iota. unfold int_add. rewrite !int_wrap_add_l, IH.
    unfold Extra.sum_additions, Extra.sum_deletions. cbn [fold_right].
    f_equal; f_equal; lia.
Qed.

Lemma sumStats_sums (stats : list object.FileStat) :
  git.sumStats stats
  = (int_wrap (Extra.sum_additions stats), int_wrap (Extra.sum_deletions stats)).
Proof. apply (sumStats_from stats 0 0). Qed.

(** X4. When [Stats()] succeeds, the totals of a successful analysis are
    the sums of the additions and of the deletions over the files of
    the commit, as Go [int]s: the sums themselves when they are below
    [2^63] in size. *)
Theorem totals_are_sums_of_file_stats `{VCS : VersionControlProvider}
  (unicodeLower : string -> string) (repoPath : string)
  (repo : Repository) (headRef : string) (latestCommit : Commit)
  (commitStats : list object.FileStat) (info : git.RepositoryInfo) :
  PlainOpen repoPath = Ok repo ->
  Head repo = Ok headRef ->
  CommitObject repo headRef = Ok latestCommit ->
  commit_Stats latestCommit = Ok commitStats ->
  git.AnalyzeLatestCommit unicodeLower repoPath = Some (Ok info) ->
  git.TotalLinesAdded info = int_wrap (Extra.sum_additions commitStats)
  /\ git.TotalLinesDeleted info = int_wrap (Extra.sum_deletions commitStats)
  /\ (- 2 ^ 63 <= Extra.sum_additions commitStats < 2 ^ 63 ->
      git.TotalLinesAdded info = Extra.sum_additions commitStats)
  /\ (- 2 ^ 63 <= Extra.sum_deletions commitStats < 2 ^ 63 ->
      git.TotalLinesDeleted info = Extra.sum_deletions commitStats).
Proof.
  intros Ho Hh Hc Hs H. apply AnalyzeLatestCommit_Ok_inv in H.
  destruct H as (repo' & headRef' & c' & l & tot & t & patch & H).
  destruct H as (Ho' & Hh' & Hc' & _ & Htot & _ & _ & ->).
  rewrite Ho in Ho'. injection Ho' as <-.
  rewrite Hh in Hh'. injection Hh' as <-.
  rewrite Hc in Hc'. injection Hc' as <-.
  rewrite Hs, sumStats_sums in Htot. subst tot.
  cbn [git.TotalLinesAdded git.TotalLinesDeleted fst snd].
  repeat split; try done; intros Hr; by apply int_wrap_small.
Qed.

Lemma totals_are_sums_of_file_stats_witness :
  exists info,
    @git.AnalyzeLatestCommit Sample.fullClone Fixture.asciiOnly "/tmp/zenwatch-clone-2"
    = Some (Ok info)
    /\ git.TotalLinesAdded info = 8 /\ git.TotalLinesDeleted info = 3.
Proof.
  eexists. split; [reflexivity|].
  destruct (@totals_are_sums_of_file_stats Sample.fullClone Fixture.asciiOnly
              "/tmp/zenwatch-clone-2" tt
              "6ecf0ef2c2dffb796033e5a02219af86ec6584e5" true _ _
              eq_refl eq_refl eq_refl eq_refl eq_refl) as (Ha & Hd & _).
  split; [exact Ha | exact Hd].
Defined.

(** ** File types *)

(** The scan of [filepath.Ext], started anywhere in a path: [acc] is
    empty or the part of the path from the last dot seen, with neither
    a dot nor a separator between that dot and the place of the scan. *)
Lemma ext_scan_spec (s whole pre : string) (acc : string) :
  whole = pre +:+ s ->
  acc = ""
  \/ (exists before seen,
        whole = before +:+ acc /\ acc = String "."%char (seen +:+ s)
        /\ forallb (fun c => negb (Ascii.eqb c "." || Ascii.eqb c "/")) (chars seen) = true) ->
  (exists stem, whole = stem +:+ go_filepath.ext_scan s acc)
  /\ (go_filepath.ext_scan s acc = ""
      \/ exists rest,
           go_filepath.ext_scan s acc = String "."%char rest
           /\ forallb (fun c => negb (Ascii.eqb c "." || Ascii.eqb c "/")) (chars rest) = true).
Proof.
  revert pre acc. induction s as [|c s IH]; intros pre acc Hwhole Hacc.
  - cbn [go_filepath.ext_scan]. destruct Hacc as [->|(before & seen & Hb & Ha & Hseen)].
    + split; [exists whole; by rewrite append_nil_r | by left].
    + split; [by exists before|]. right. exists seen.
      rewrite append_nil_r in Ha. done.
  - cbn [go_filepath.ext_scan]. unfold go_filepath.IsPathSeparator.
    assert (Hnext : whole = (pre +:+ String c "") +:+ s).
    { rewrite Hwhole, append_assoc. done. }
    destruct (decide (c = "/"%char)) as [->|Hsep].
    + apply (IH _ _ Hnext). by left.
    + destruct (decide (c = "."%char)) as [->|Hdot].
      * apply (IH _ _ Hnext). right. exists pre, "". done.
      * apply (IH _ _ Hnext). destruct Hacc as [->|(before & seen & Hb & Ha & Hseen)];
          [by left|]. right. exists before, (seen +:+ String c "").
        split; [done|]. split; [by rewrite append_assoc|].
        rewrite chars_app, forallb_app, Hseen. cbn.
        destruct (Ascii.eqb_spec c "."); [done|].
        destruct (Ascii.eqb_spec c "/"); done.
Qed.

(** [filepath.Ext] returns a suffix of the path that is empty or a dot
    followed by bytes that are neither a dot nor a separator. *)
Lemma Ext_spec (path : string) :
  (exists stem, path = stem +:+ go_filepath.Ext path)
  /\ (go_filepath.Ext path = ""
      \/ exists rest,
           go_filepath.Ext path = String "."%char rest
           /\ forallb (fun c => negb (Ascii.eqb c "." || Ascii.eqb c "/")) (chars rest) = true).
Proof. apply (ext_scan_spec path path "" ""); [done | by left]. Qed.

Lemma lower_byte_not_upper (c : ascii) :
  Extra.upper_case (go_strings.lower_byte c) = false.
Proof.
  unfold go_strings.lower_byte, Extra.upper_case.
  destruct ((65 <=? N_of_ascii c) && (N_of_ascii c <=? 90))%N eqn:H; [|exact H].
  apply andb_true_iff in H as [H1 H2]. apply N.leb_le in H1, H2.
  rewrite N_ascii_embedding by lia.
  apply andb_false_iff. right. apply N.leb_gt. lia.
Qed.

Lemma ToLower_ascii (unicodeLower : string -> string) (s : string) :
  go_strings.isASCII s = true ->
  String.length (go_strings.ToLower unicodeLower s) = String.length s
  /\ forallb (fun c => negb (Extra.upper_case c))
       (chars (go_strings.ToLower unicodeLower s)) = true.
Proof.
  intros H. unfold go_strings.ToLower. rewrite H. clear H.
  induction s as [|c s [IH1 IH2]]; [done|]. cbn [flat_map_bytes].
  change (String (go_strings.lower_byte c) "" +:+ ?x)
    with (String (go_strings.lower_byte c) x).
  split; [cbn [String.length]; by rewrite IH1|].
  rewrite chars_cons. cbn [forallb]. by rewrite lower_byte_not_upper, IH2.
Qed.

(** X5. Every record of a successful analysis has as [FileType] the
    lower-cased [filepath.Ext] of its [Path]; that extension is a
    suffix of the path, empty or a dot followed by bytes that are
    neither a dot nor a slash; and when the extension is ASCII the
    [FileType] has its length and no capital letter. *)
Theorem file_type_is_lowered_extension `{VCS : VersionControlProvider}
  (unicodeLower : string -> string) (repoPath : string) (info : git.RepositoryInfo) :
  git.AnalyzeLatestCommit unicodeLower repoPath = Some (Ok info) ->
  Forall (fun cf =>
    git.FileType cf = go_strings.ToLower unicodeLower (go_filepath.Ext (git.Path cf))
    /\ (exists stem, git.Path cf = stem +:+ go_filepath.Ext (git.Path cf))
    /\ (go_filepath.Ext (git.Path cf) = ""
        \/ exists rest,
             go_filepath.Ext (git.Path cf) = String "."%char rest
             /\ forallb (fun c => negb (Ascii.eqb c "." || Ascii.eqb c "/"))
                  (chars rest) = true)
    /\ (go_strings.isASCII (go_filepath.Ext (git.Path cf)) = true ->
        String.length (git.FileType cf) = String.length (go_filepath.Ext (git.Path cf))
        /\ forallb (fun c => negb (Extra.upper_case c)) (chars (git.FileType cf)) = true))
    (git.ChangedFiles info).
Proof.
  intros H. apply AnalyzeLatestCommit_Ok_inv in H.
  destruct H as (repo & headRef & c & l & tot & t & patch & H).
  destruct H as (_ & _ & _ & _ & _ & _ & _ & ->). cbn [git.ChangedFiles].
  destruct patch as [patch|]; [|constructor].
  eapply Forall_impl; [apply collectChangedFiles_types|].
  intros cf Hcf. cbn beta in Hcf. split; [exact Hcf|].
  destruct (Ext_spec (git.Path cf)) as [Hsuffix Hshape].
  split; [exact Hsuffix|]. split; [exact Hshape|].
  intros Hascii. rewrite Hcf. by apply ToLower_ascii.
Qed.

Lemma file_type_is_lowered_extension_witness :
  Forall (fun cf =>
    git.FileType cf = go_strings.ToLower Fixture.asciiOnly (go_filepath.Ext (git.Path cf))
    /\ (exists stem, git.Path cf = stem +:+ go_filepath.Ext (git.Path cf)))
    (git.ChangedFiles Fixture.shallowInfo)
  /\ map git.FileType (git.ChangedFiles Fixture.shallowInfo) = [".go"; ".txt"; ""].
Proof.
  split; [|reflexivity].
  eapply Forall_impl.
  - apply (@file_type_is_lowered_extension Fixture.shallowClone Fixture.asciiOnly
             "/tmp/zenwatch-clone-1" Fixture.shallowInfo). reflexivity.
  - intros cf (H1 & H2 & _). split; assumption.
Defined.

(** ** Cloning and cleaning up *)

(** X6. When the temporary directory is new and the clone, before it
    fails, touches nothing outside it, [CloneRepository] leaves the
    file system exactly as it found it.  ([os.MkdirTemp] returns a
    name that is not empty; [os.RemoveAll] of the empty path removes
    nothing.) *)
Theorem failed_clone_restores_file_system (env : os.Env) (url : string)
  (fs : gset string) (tempDir : string) (fs2 : gset string) (err : error) :
  os.MkdirTemp env "" "zenwatch-clone-*" fs = Ok tempDir ->
  tempDir <> "" ->
  (forall p, p ∈ fs -> os.under tempDir p = false) ->
  os.PlainClone env tempDir url ({[ tempDir ]} ∪ fs) = (fs2, Some err) ->
  (forall p, os.under tempDir p = false -> (p ∈ fs2 <-> p ∈ fs)) ->
  fst (git.CloneRepository env url fs) = fs.
Proof.
  intros Hmk _ Hfresh Hclone Hframe. unfold git.CloneRepository.
  rewrite Hmk, Hclone. cbn [fst]. apply set_eq. intros p. rewrite RemoveAll_spec.
  split.
  - intros [Hp Hin]. by apply Hframe.
  - intros Hin. split; [by apply Hfresh|]. apply Hframe; [by apply Hfresh | done].
Qed.

Lemma someFiles_outside (p : string) :
  p ∈ Fixture.someFiles -> os.under "/tmp/zenwatch-clone-1" p = false.
Proof.
  unfold Fixture.someFiles. rewrite elem_of_union, !elem_of_singleton.
  intros [->| ->]; reflexivity.
Qed.

Lemma failed_clone_restores_file_system_witness :
  fst (git.CloneRepository Fixture.failingClone "https://example.invalid/repo.git"
         Fixture.someFiles) = Fixture.someFiles.
Proof.
  apply (failed_clone_restores_file_system Fixture.failingClone
           "https://example.invalid/repo.git" Fixture.someFiles
           "/tmp/zenwatch-clone-1"
           ({[ "/tmp/zenwatch-clone-1/.git" ]}
              ∪ ({[ "/tmp/zenwatch-clone-1" ]} ∪ Fixture.someFiles))
           "repository not found" eq_refl ltac:(discriminate) someFiles_outside eq_refl).
  intros p Hp. rewrite !elem_of_union, !elem_of_singleton.
  split; [|tauto]. intros [->|[->|H]]; [discriminate Hp | discriminate Hp | exact H].
Defined.

(** X7. A clone that succeeds returns the temporary directory and no
    error; when the directory is new and the clone wrote below it only,
    [Cleanup] of the returned path gives back the file system as it was
    before the clone. *)
Theorem cleanup_undoes_clone (env : os.Env) (url : string)
  (fs : gset string) (tempDir : string) (fs2 : gset string) :
  os.MkdirTemp env "" "zenwatch-clone-*" fs = Ok tempDir ->
  tempDir <> "" ->
  (forall p, p ∈ fs -> os.under tempDir p = false) ->
  os.PlainClone env tempDir url ({[ tempDir ]} ∪ fs) = (fs2, None) ->
  (forall p, os.under tempDir p = false -> (p ∈ fs2 <-> p ∈ fs)) ->
  git.CloneRepository env url fs = (fs2, (tempDir, None))
  /\ git.Cleanup tempDir fs2 = fs.
Proof.
  intros Hmk _ Hfresh Hclone Hframe. unfold git.CloneRepository, git.Cleanup.
  rewrite Hmk, Hclone. split; [done|].
  apply set_eq. intros p. rewrite RemoveAll_spec. split.
  - intros [Hp Hin]. by apply Hframe.
  - intros Hin. split; [by apply Hfresh|]. apply Hframe; [by apply Hfresh | done].
Qed.

Lemma cleanup_undoes_clone_witness :
  snd (git.CloneRepository Sample.workingClone "https://github.com/git-fixtures/basic.git"
         Fixture.someFiles) = ("/tmp/zenwatch-clone-1", None)
  /\ git.Cleanup "/tmp/zenwatch-clone-1"
       (fst (git.CloneRepository Sample.workingClone
               "https://github.com/git-fixtures/basic.git" Fixture.someFiles))
     = Fixture.someFiles.
Proof.
  destruct (cleanup_undoes_clone Sample.workingClone
              "https://github.com/git-fixtures/basic.git" Fixture.someFiles
              "/tmp/zenwatch-clone-1"
              ({[ "/tmp/zenwatch-clone-1/.git"; "/tmp/zenwatch-clone-1/LICENSE" ]}
                 ∪ ({[ "/tmp/zenwatch-clone-1" ]} ∪ Fixture.someFiles))
              eq_refl ltac:(discriminate) someFiles_outside eq_refl) as [Hrun Hclean].
  - intros p Hp. rewrite !elem_of_union, !elem_of_singleton.
    split; [|tauto].
    intros [[->| ->]|[->|H]]; [discriminate Hp | discriminate Hp | discriminate Hp | exact H].
  - rewrite Hrun. split; [reflexivity | exact Hclean].
Defined.

Section ReportOutcomes.

Import report.
Local Open Scope exec_scope.

(** ** The outcomes of [GenerateMarkdownReport] *)

Lemma sortedEntries_Permutation {V : Type} (m : gmap string V) :
  sortedEntries m ≡ₚ map_to_list m.
Proof. apply merge_sort_Permutation. Qed.





(** X9. With a nil [Commit] the call returns an error of the template,
    and the file it has created is left on disk with the report up to
    the place of the commit hash. *)
Theorem nil_commit_leaves_partial_report (env : FileEnv) (data : ReportData)
  (outputPath : string) :
  MkdirAll env (Dir env outputPath) = None ->
  Create env outputPath = None ->
  Commit data = None ->
  exists err,
    GenerateMarkdownReport env data outputPath
    = (Some (Extra.report_until_commit data),
       Some ("failed to execute template: " +:+ err)).
Proof.
  intros Hmk Hcr Hc. unfold GenerateMarkdownReport. rewrite Hmk, Hcr.
  unfold Execute. rewrite headerPart_run, badgeSection_run.
  unfold commitPart, commitField, field. rewrite Hc.
  unfold text at 1. cbn [seq fst snd].
  eexists. unfold Extra.report_until_commit. rewrite append_nil_r.
  reflexivity.
Qed.

Lemma nil_commit_leaves_partial_report_witness :
  exists err,
    GenerateMarkdownReport Fixture.fileEnv Sample.noCommit "reports/latest.md"
    = (Some "
# ZenWatch Analysis Report

**Repository:** https://github.com/user/testrepo
**Analyzed At:** 2025-06-04 04:50:44 UTC



## Latest Commit Analyzed
- **Hash:** ", Some ("failed to execute template: " +:+ err)).
Proof.
  apply (nil_commit_leaves_partial_report Fixture.fileEnv Sample.noCommit
           "reports/latest.md" eq_refl eq_refl eq_refl).
Defined.

(** ** The order of the file-type table *)

#[local] Instance entry_le_trans {V : Type} :
  Transitive (fun a b : string * V => String.le (fst a) (fst b)).
Proof. intros a b c. apply transitivity. Qed.

#[local] Instance entry_le_total {V : Type} :
  Total (fun a b : string * V => String.le (fst a) (fst b)).
Proof. intros a b. apply total, _. Qed.

Lemma StronglySorted_strict {A : Type} (R : relation A) (key : A -> string) (l : list A) :
  StronglySorted R l -> NoDup (map key l) ->
  StronglySorted (fun a b => R a b /\ key a <> key b) l.
Proof.
  induction 1 as [|a l Hl IH Ha]; intros Hnd; [constructor|].
  cbn [map] in Hnd. apply NoDup_cons in Hnd as [Hnotin Hnd].
  constructor; [by apply IH|].
  rewrite Forall_forall in Ha |- *. intros b Hb. split; [by apply Ha|].
  intros Heq. apply Hnotin. rewrite Heq. apply list_elem_of_fmap. by exists b.
Qed.

Lemma sortedEntries_sorted {V : Type} (m : gmap string V) :
  StronglySorted (fun a b => String.le (fst a) (fst b) /\ fst a <> fst b)
    (sortedEntries m).
Proof.
  apply StronglySorted_strict.
  - apply (StronglySorted_merge_sort _).
  - rewrite sortedEntries_Permutation. apply NoDup_fst_map_to_list.
Qed.

Lemma StronglySorted_present (rows : list (string * metrics.FileTypeStat)) :
  StronglySorted (fun a b => String.le (fst a) (fst b) /\ fst a <> fst b)
    (map Spec.present rows) ->
  StronglySorted Extra.row_before rows.
Proof.
  induction rows as [|row rows IH]; [constructor|].
  cbn [map]. intros H. apply StronglySorted_inv in H as [Hrows Hrow].
  constructor; [by apply IH|].
  rewrite Forall_map in Hrow. exact Hrow.
Qed.

(** X10. A report that was written has one row in its file-type table
    for each entry of [FileStats], and nothing else; the rows are in
    the strictly increasing byte order of the extensions, whatever the
    order in which the map was filled. *)
Theorem file_type_rows_are_sorted (env : FileEnv) (data : ReportData)
  (outputPath report : string) :
  GenerateMarkdownReport env data outputPath = (Some report, None) ->
  exists commit stats rows,
    Commit data = Some commit
    /\ Stats data = Some stats
    /\ report = Spec.report_text data commit stats rows
    /\ StronglySorted Extra.row_before rows
    /\ (forall ext stat,
          (ext, stat) ∈ rows <-> metrics.FileStats stats !! ext = Some (Some stat)).
Proof.
  intros H. apply GenerateMarkdownReport_ok in H as (_ & _ & Hex).
  assert (Hok : snd (Execute data) = None) by (by rewrite Hex).
  apply Execute_ok_inv in Hok as (commit & stats & rows & Hc & Hs & Hrows).
  exists commit, stats, rows. split; [done|]. split; [done|].
  rewrite (Execute_run data commit stats rows Hc Hs Hrows) in Hex.
  split; [congruence|]. split.
  - apply StronglySorted_present. rewrite <- Hrows. apply sortedEntries_sorted.
  - intros ext stat. rewrite <- elem_of_map_to_list, <- sortedEntries_Permutation, Hrows.
    rewrite list_elem_of_fmap. split.
    + intros Hin. by exists (ext, stat).
    + intros ([ext' stat'] & [= -> ->] & Hin). exact Hin.
Qed.

Lemma file_type_rows_are_sorted_witness :
  exists commit stats rows,
    Commit (Fixture.reportData "") = Some commit
    /\ Stats (Fixture.reportData "") = Some stats
    /\ Fixture.test_report_no_badge
       = Spec.report_text (Fixture.reportData "") commit stats rows
    /\ StronglySorted Extra.row_before rows
    /\ (forall ext stat,
          (ext, stat) ∈ rows <-> metrics.FileStats stats !! ext = Some (Some stat)).
Proof.
  apply (file_type_rows_are_sorted Fixture.fileEnv (Fixture.reportData "")
           "test_report_no_badge.md" Fixture.test_report_no_badge).
  vm_compute. reflexivity.
Defined.

End ReportOutcomes.

(** ** The bytes of a printed number *)

Lemma forallb_chars_app (P : ascii -> bool) (a b : string) :
  forallb P (chars (a +:+ b)) = forallb P (chars a) && forallb P (chars b).
Proof. by rewrite chars_app, forallb_app. Qed.

Lemma string_of_uint_number (d : Decimal.uint) :
  forallb Extra.number_byte (chars (NilEmpty.string_of_uint d)) = true.
Proof. induction d; cbn; done. Qed.

Lemma digits_number (n : Z) : forallb Extra.number_byte (chars (go_fmt.digits n)) = true.
Proof.
  unfold go_fmt.digits, NilZero.string_of_uint.
  destruct (N.to_uint (Z.to_N n)); try done; cbn; apply string_of_uint_number.
Qed.

Lemma fmt_d_number (n : Z) : forallb Extra.number_byte (chars (go_fmt.fmt_d n)) = true.
Proof.
  unfold go_fmt.fmt_d, NilZero.string_of_int, NilZero.string_of_uint.
  destruct (Z.to_int n) as [d|d]; destruct d; try done;
    cbn; apply string_of_uint_number.
Qed.

Lemma repeat_zero_number (k : nat) :
  forallb Extra.number_byte (chars (repeat_byte "0" k)) = true.
Proof. induction k as [|k IH]; [done|]. cbn [repeat_byte]. by rewrite chars_cons. Qed.

Lemma fixed_number (prec : nat) (q : Z) :
  forallb Extra.number_byte (chars (go_fmt.fixed prec q)) = true.
Proof.
  unfold go_fmt.fixed, go_fmt.pad_digits. rewrite forallb_chars_app, digits_number.
  destruct prec as [|prec]; [done|].
  by rewrite !forallb_chars_app, repeat_zero_number, digits_number.
Qed.

(** A float is printed as one of three words or with the bytes of a
    number. *)
Lemma fmt_f_number (prec : nat) (a : spec_float) :
  match a with
  | S754_nan => go_fmt.fmt_f prec a = "NaN"
  | S754_infinity s => go_fmt.fmt_f prec a = if s then "-Inf" else "+Inf"
  | _ => forallb Extra.number_byte (chars (go_fmt.fmt_f prec a)) = true
  end.
Proof.
  destruct a as [s|s| |s m e]; cbn [go_fmt.fmt_f]; [|by destruct s|done|].
  - rewrite forallb_chars_app, fixed_number. by destruct s.
  - rewrite forallb_chars_app, fixed_number. by destruct s.
Qed.

Lemma number_byte_cases (c : ascii) :
  Extra.number_byte c = true ->
  Spec.html_plain c = true
  /\ c <> "%"%char /\ c <> " "%char /\ c <> "|"%char
  /\ Spec.percent_encode_byte c = String c "".
Proof.
  unfold Extra.number_byte. cbn [chars String.list_ascii_of_string existsb].
  rewrite !orb_true_iff. intros H.
  repeat (destruct H as [H|H];
          [apply Ascii.eqb_eq in H; subst c; repeat split; done|]).
  done.
Qed.

Lemma number_bytes (P : ascii -> bool) (s : string) :
  (forall c, Extra.number_byte c = true -> P c = true) ->
  forallb Extra.number_byte (chars s) = true -> forallb P (chars s) = true.
Proof.
  intros HP. rewrite !forallb_forall. intros H c Hc. by apply HP, H.
Qed.

(** ** The badge URL in a report *)

Lemma GenerateBadgeURL_run (n : Z) (a : spec_float) :
  report.GenerateBadgeURL n a
  = "https://img.shields.io/badge/ZenWatch-"
      +:+ Spec.percent_encode (Spec.badge_message n a) +:+ "-blue".
Proof. unfold report.GenerateBadgeURL. by rewrite ReplaceAll_space_pipe. Qed.

Lemma percent_encode_app (a b : string) :
  Spec.percent_encode (a +:+ b) = Spec.percent_encode a +:+ Spec.percent_encode b.
Proof. apply flat_map_bytes_app. Qed.

Lemma percent_encode_number (s : string) :
  forallb Extra.number_byte (chars s) = true -> Spec.percent_encode s = s.
Proof.
  intros H. apply flat_map_bytes_id. intros c Hc.
  rewrite forallb_forall in H. apply list_elem_of_In, H in Hc.
  by apply number_byte_cases in Hc as (_ & _ & _ & _ & ->).
Qed.

Lemma htmlEscaper_app (a b : string) :
  html_template.htmlEscaper (a +:+ b)
  = html_template.htmlEscaper a +:+ html_template.htmlEscaper b.
Proof. apply flat_map_bytes_app. Qed.

Lemma htmlEscaper_number (s : string) :
  forallb Extra.number_byte (chars s) = true -> html_template.htmlEscaper s = s.
Proof.
  intros H. apply htmlEscaper_plain. revert H. apply number_bytes.
  intros c Hc. by apply number_byte_cases in Hc as (-> & _).
Qed.

Lemma badge_message_encoded (n : Z) (a : spec_float) :
  Spec.percent_encode (Spec.badge_message n a)
  = "changes%20" +:+ go_fmt.fmt_d n +:+ "%20%7C%20avg%20complx%20"
      +:+ Spec.percent_encode (go_fmt.fmt_f 1 a).
Proof.
  unfold Spec.badge_message. rewrite !percent_encode_app.
  rewrite (percent_encode_number (go_fmt.fmt_d n)) by apply fmt_d_number.
  reflexivity.
Qed.

Lemma fmt_f_encoded (prec : nat) (a : spec_float) :
  Spec.percent_encode (go_fmt.fmt_f prec a) = go_fmt.fmt_f prec a.
Proof.
  pose proof (fmt_f_number prec a) as H.
  destruct a as [s|s| |s m e]; try (by apply percent_encode_number).
  - rewrite H. by destruct s.
  - by rewrite H.
Qed.

(** X11. The URL that [GenerateBadgeURL] builds holds no byte that
    html/template rewrites, so a report shows it as it is; the one
    exception is an average of plus infinity, whose [+] the report
    shows as [&#43;]. *)
Theorem generated_badge_url_is_shown_verbatim (n : Z) (a : spec_float) :
  html_template.htmlEscaper (report.GenerateBadgeURL n a)
  = match a with
    | S754_infinity false =>
        "https://img.shields.io/badge/ZenWatch-changes%20" +:+ go_fmt.fmt_d n
          +:+ "%20%7C%20avg%20complx%20&#43;Inf-blue"
    | _ => report.GenerateBadgeURL n a
    end.
Proof.
  rewrite GenerateBadgeURL_run, badge_message_encoded, fmt_f_encoded.
  rewrite !htmlEscaper_app, (htmlEscaper_number (go_fmt.fmt_d n)) by apply fmt_d_number.
  pose proof (fmt_f_number 1 a) as H.
  destruct a as [s|s| |s m e]; try (by rewrite (htmlEscaper_number _ H)).
  - rewrite H. destruct s; [done|].
    assoc_r_with append_assoc. reflexivity.
  - by rewrite H.
Qed.

(** ** Dashes *)

Lemma count_dash_uint (d : Decimal.uint) :
  Spec.count_byte "-" (NilEmpty.string_of_uint d) = 0%nat.
Proof. induction d; cbn; done. Qed.

Lemma count_dash_digits (n : Z) : Spec.count_byte "-" (go_fmt.digits n) = 0%nat.
Proof.
  unfold go_fmt.digits, NilZero.string_of_uint.
  destruct (N.to_uint (Z.to_N n)); try done; cbn; apply count_dash_uint.
Qed.

Lemma count_dash_pos (p : positive) :
  Spec.count_byte "-" (NilZero.string_of_uint (Pos.to_uint p)) = 0%nat.
Proof.
  unfold NilZero.string_of_uint.
  destruct (Pos.to_uint p); try done; cbn; apply count_dash_uint.
Qed.

Lemma count_dash_fmt_d (n : Z) :
  Spec.count_byte "-" (go_fmt.fmt_d n) = if n <? 0 then 1%nat else 0%nat.
Proof.
  unfold go_fmt.fmt_d. destruct n as [|p|p]; cbn [Z.to_int NilZero.string_of_int Z.ltb Z.compare].
  - reflexivity.
  - apply count_dash_pos.
  - change (String "-" ?s) with ("-" +:+ s). rewrite count_byte_app, count_dash_pos.
    reflexivity.
Qed.

Lemma count_dash_repeat_zero (k : nat) :
  Spec.count_byte "-" (repeat_byte "0" k) = 0%nat.
Proof. induction k as [|k IH]; [done|]. exact IH. Qed.

Lemma count_dash_fixed (prec : nat) (q : Z) :
  Spec.count_byte "-" (go_fmt.fixed prec q) = 0%nat.
Proof.
  unfold go_fmt.fixed, go_fmt.pad_digits. rewrite count_byte_app, count_dash_digits.
  destruct prec as [|prec]; [done|].
  by rewrite !count_byte_app, count_dash_repeat_zero, count_dash_digits.
Qed.

Lemma count_dash_fmt_f (prec : nat) (a : spec_float) :
  Spec.count_byte "-" (go_fmt.fmt_f prec a)
  = if Extra.float_sign a then 1%nat else 0%nat.
Proof.
  destruct a as [s|s| |s m e]; cbn [go_fmt.fmt_f Extra.float_sign];
    [|by destruct s|done|].
  - rewrite count_byte_app, count_dash_fixed. by destruct s.
  - rewrite count_byte_app, count_dash_fixed. by destruct s.
Qed.

(** X12. [GenerateBadgeURL] writes a minus sign of the count or of the
    average into the URL as it is: the URL has the two dashes that
    separate label, message and colour, and one more for each of the
    two numbers that is negative. *)
Theorem badge_url_dashes (n : Z) (a : spec_float) :
  Spec.count_byte "-" (report.GenerateBadgeURL n a)
  = (2 + (if (n <? 0)%Z then 1 else 0) + (if Extra.float_sign a then 1 else 0))%nat.
Proof.
  rewrite GenerateBadgeURL_run, badge_message_encoded, fmt_f_encoded.
  rewrite !count_byte_app, count_dash_fmt_d, count_dash_fmt_f.
  change (Spec.count_byte "-" "https://img.shields.io/badge/ZenWatch-") with 1%nat.
  change (Spec.count_byte "-" "changes%20") with 0%nat.
  change (Spec.count_byte "-" "%20%7C%20avg%20complx%20") with 0%nat.
  change (Spec.count_byte "-" "-blue") with 1%nat.
  lia.
Qed.

(** ** Which inputs share a URL *)

Lemma fmt_d_inj (n n' : Z) : go_fmt.fmt_d n = go_fmt.fmt_d n' -> n = n'.
Proof.
  unfold go_fmt.fmt_d. intros H.
  assert (Hint : forall z, NilZero.int_of_string (NilZero.string_of_int (Z.to_int z))
                           = Some (Z.to_int z)).
  { intros z. apply NilZero.isi; destruct z; cbn; try discriminate;
      intros [= Hp]; by apply Unsigned.to_uint_nonnil in Hp. }
  pose proof (Hint n) as Hn. rewrite H, Hint in Hn. injection Hn as Hn.
  by rewrite <- (DecimalZ.of_to n), <- (DecimalZ.of_to n'), Hn.
Qed.

(** Up to the first space, then after it. *)
Lemma split_at_space (d d' r r' : string) :
  forallb Extra.number_byte (chars d) = true ->
  forallb Extra.number_byte (chars d') = true ->
  d +:+ String " " r = d' +:+ String " " r' -> d = d' /\ r = r'.
Proof.
  revert d'. induction d as [|c d IH]; intros [|c' d'] Hd Hd' H.
  - by injection H as ->.
  - injection H as <- _. discriminate Hd'.
  - injection H as -> _. discriminate Hd.
  - rewrite !append_cons in H. injection H as -> H.
    rewrite chars_cons in Hd, Hd'. cbn [forallb] in Hd, Hd'.
    apply andb_true_iff in Hd as [_ Hd]. apply andb_true_iff in Hd' as [_ Hd'].
    destruct (IH d' Hd Hd' H) as [-> ->]. done.
Qed.

Lemma percent_decode_encode (s : string) :
  forallb (fun c => negb (Ascii.eqb c "%")) (chars s) = true ->
  Extra.percent_decode (Spec.percent_encode s) = s.
Proof.
  induction s as [|c s IH]; [done|]. rewrite chars_cons. cbn [forallb].
  intros H. apply andb_true_iff in H as [Hc Hs].
  apply negb_true_iff, Ascii.eqb_neq in Hc.
  unfold Spec.percent_encode. cbn [flat_map_bytes]. fold (Spec.percent_encode s).
  specialize (IH Hs). revert IH. generalize (Spec.percent_encode s). intros e IH.
  unfold Spec.percent_encode_byte.
  destruct (decide (c = " "%char)) as [->|Hsp].
  { change ("%20" +:+ e) with (String "%" (String "2" (String "0" e))).
    cbn. by rewrite IH. }
  destruct (decide (c = "|"%char)) as [->|Hpipe].
  { change ("%7C" +:+ e) with (String "%" (String "7" (String "C" e))).
    cbn. by rewrite IH. }
  change (String c "" +:+ e) with (String c e). cbn [Extra.percent_decode].
  destruct (decide (c = "%"%char)); [done|]. by rewrite IH.
Qed.

Lemma badge_message_no_percent (n : Z) (a : spec_float) :
  forallb (fun c => negb (Ascii.eqb c "%")) (chars (Spec.badge_message n a)) = true.
Proof.
  assert (Hnum : forall s, forallb Extra.number_byte (chars s) = true ->
                           forallb (fun c => negb (Ascii.eqb c "%")) (chars s) = true).
  { intros s. apply number_bytes. intros c Hc.
    apply number_byte_cases in Hc as (_ & Hc & _).
    by apply negb_true_iff, Ascii.eqb_neq. }
  unfold Spec.badge_message. rewrite !forallb_chars_app.
  rewrite (Hnum (go_fmt.fmt_d n)) by apply fmt_d_number.
  pose proof (fmt_f_number 1 a) as H.
  destruct a as [s|s| |s m e]; try (by rewrite (Hnum _ H)).
  - rewrite H. by destruct s.
  - by rewrite H.
Qed.

(** X13. Two calls of [GenerateBadgeURL] give the same URL exactly when
    the counts are equal and the averages are printed alike with one
    decimal place: the count can be read back from the URL, the
    average up to its rounding. *)
Theorem badge_url_determines_count (n n' : Z) (a a' : spec_float) :
  report.GenerateBadgeURL n a = report.GenerateBadgeURL n' a'
  <-> n = n' /\ go_fmt.fmt_f 1 a = go_fmt.fmt_f 1 a'.
Proof.
  split.
  - rewrite !GenerateBadgeURL_run. intros H.
    apply (inj (String.app _)), append_inj_r in H.
    apply (f_equal Extra.percent_decode) in H.
    rewrite !percent_decode_encode in H by apply badge_message_no_percent.
    unfold Spec.badge_message in H. apply (inj (String.app _)) in H.
    change (" | avg complx " +:+ ?f) with (String " " ("| avg complx " +:+ f)) in H.
    apply split_at_space in H; [|apply fmt_d_number..].
    destruct H as [Hd Hf]. apply fmt_d_inj in Hd.
    apply (inj (String.app _)) in Hf. done.
  - intros [-> Hf]. unfold report.GenerateBadgeURL. by rewrite Hf.
Qed.

(** ** The command line *)

(** An argument that does not start with a minus ends the flags. *)
Lemma classify_positional (s : string) :
  String.prefix "-" s = false -> flag.classify s = (false, None).
Proof.
  destruct s as [|c0 [|c1 s2]]; [done..|]. cbn [String.prefix flag.classify].
  destruct (decide (c0 = "-"%char)) as [->|Hne]; [discriminate|done].
Qed.

Lemma Parse_cons (out s : string) (rest : list string) :
  flag.Parse out (s :: rest)
  = match flag.classify s with
    | (true, _) => flag.Parsed out rest
    | (false, None) => flag.Parsed out (s :: rest)
    | (false, Some (flag.SetOut v)) => flag.Parse v rest
    | (false, Some flag.SetOutNext) =>
        match rest with
        | v :: rest' => flag.Parse v rest'
        | [] => flag.Failed "flag needs an argument: -out"
        end
    | (false, Some flag.StepHelp) => flag.Help
    | (false, Some (flag.StepFailed message)) => flag.Failed message
    end.
Proof. reflexivity. Qed.

Lemma Parse_positional (out url : string) (rest : list string) :
  String.prefix "-" url = false ->
  flag.Parse out (url :: rest) = flag.Parsed out (url :: rest).
Proof. intros H. by rewrite Parse_cons, classify_positional. Qed.

(** X14. Parsing stops at the repository URL: whatever follows it on
    the command line, [--out] and its value too, is ignored, and the
    output file stays [reports/latest.md]. *)
Theorem flags_after_url_are_ignored (program url : string) (rest : list string) :
  String.prefix "-" url = false ->
  zenwatch.main (program :: "analyze" :: url :: rest)
  = {| zenwatch.stdout := "Repository URL: " +:+ url +:+ "
Output File: reports/latest.md
";
       zenwatch.stderr := "";
       zenwatch.status := 0 |}.
Proof.
  intros H. unfold zenwatch.main. cbn [decide]. rewrite decide_True by done.
  by rewrite Parse_positional.
Qed.

Lemma flags_after_url_are_ignored_witness :
  zenwatch.main [ "zenwatch"; "analyze"; "https://github.com/example/project.git";
                  "--out"; "project_report.md" ]
  = {| zenwatch.stdout := "Repository URL: https://github.com/example/project.git
Output File: reports/latest.md
";
       zenwatch.stderr := "";
       zenwatch.status := 0 |}.
Proof.
  apply (flags_after_url_are_ignored "zenwatch" "https://github.com/example/project.git"
           [ "--out"; "project_report.md" ]).
  reflexivity.
Defined.

Lemma split_value_eq (p : string) :
  flag.split_value (String "=" p) = ("", Some p).
Proof. cbn [flag.split_value]. by rewrite decide_True. Qed.

Lemma classify_out_eq (p : string) :
  flag.classify ("--out=" +:+ p) = (false, Some (flag.SetOut p))
  /\ flag.classify ("-out=" +:+ p) = (false, Some (flag.SetOut p)).
Proof.
  change ("--out=" +:+ p)
    with (String "-" (String "-" (String "o" (String "u" (String "t" (String "=" p)))))).
  change ("-out=" +:+ p)
    with (String "-" (String "o" (String "u" (String "t" (String "=" p))))).
  split; vm_compute; reflexivity.
Qed.

(** X15. Before the repository URL the flag is honoured in each of its
    four spellings, [--out P], [-out P], [--out=P] and [-out=P]: the
    command prints the URL and [P] as the output file. *)
Theorem out_flag_before_url (program p url : string) (rest : list string) :
  String.prefix "-" url = false ->
  let shown :=
    {| zenwatch.stdout := "Repository URL: " +:+ url +:+ "
Output File: " +:+ p +:+ "
";
       zenwatch.stderr := "";
       zenwatch.status := 0 |} in
  zenwatch.main (program :: "analyze" :: "--out" :: p :: url :: rest) = shown
  /\ zenwatch.main (program :: "analyze" :: "-out" :: p :: url :: rest) = shown
  /\ zenwatch.main (program :: "analyze" :: ("--out=" +:+ p) :: url :: rest) = shown
  /\ zenwatch.main (program :: "analyze" :: ("-out=" +:+ p) :: url :: rest) = shown.
Proof.
  intros H shown. destruct (classify_out_eq p) as [H2 H1].
  unfold zenwatch.main. rewrite decide_True by done.
  repeat split.
  - change (flag.Parse "reports/latest.md" ("--out" :: p :: url :: rest))
      with (flag.Parse p (url :: rest)). by rewrite Parse_positional.
  - change (flag.Parse "reports/latest.md" ("-out" :: p :: url :: rest))
      with (flag.Parse p (url :: rest)). by rewrite Parse_positional.
  - by rewrite Parse_cons, H2, Parse_positional.
  - by rewrite Parse_cons, H1, Parse_positional.
Qed.

Lemma out_flag_before_url_witness :
  zenwatch.main [ "zenwatch"; "analyze"; "--out=project_report.md";
                  "https://github.com/example/project.git" ]
  = {| zenwatch.stdout := "Repository URL: https://github.com/example/project.git
Output File: project_report.md
";
       zenwatch.stderr := "";
       zenwatch.status := 0 |}.
Proof.
  apply (out_flag_before_url "zenwatch" "project_report.md"
           "https://github.com/example/project.git" [] eq_refl).
Defined.

(** What [Parse] has decided is not changed by more arguments, once it
    has seen a request for help or a first positional argument. *)
Lemma Parse_app (extra : list string) (k : nat) :
  forall (arguments : list string) (out : string),
    (length arguments <= k)%nat ->
    match flag.Parse out arguments with
    | flag.Help => flag.Parse out (arguments ++ extra) = flag.Help
    | flag.Parsed o (u :: r) =>
        flag.Parse out (arguments ++ extra) = flag.Parsed o (u :: r ++ extra)
    | _ => True
    end.
Proof.
  induction k as [|k IH]; intros [|s rest] out Hk; cbn [length] in Hk; try lia; [done..|].
  cbn [app]. rewrite !Parse_cons.
  destruct (flag.classify s) as [[|] step].
  - destruct rest as [|u r]; done.
  - destruct step as [[v| | |message]|]; try done.
    + apply IH. lia.
    + destruct rest as [|v rest']; [done|]. cbn [app]. apply IH. cbn [length] in Hk. lia.
Qed.

(** X16. A command line that is served with status 0 is served the same
    way whatever is appended to it. *)
Theorem trailing_arguments_change_nothing (Args extra : list string) :
  zenwatch.status (zenwatch.main Args) = 0 ->
  zenwatch.main (Args ++ extra) = zenwatch.main Args.
Proof.
  destruct Args as [|program [|subcommand rest]]; [discriminate..|].
  cbn [app]. unfold zenwatch.main.
  destruct (decide (subcommand = "analyze")); [|discriminate].
  pose proof (Parse_app extra (length rest) rest "reports/latest.md" (le_n _)) as H.
  destruct (flag.Parse "reports/latest.md" rest) as [o [|u r]| |message];
    [discriminate| | |discriminate].
  - intros _. by rewrite H.
  - intros _. by rewrite H.
Qed.

Lemma trailing_arguments_change_nothing_witness :
  zenwatch.main ([ "zenwatch"; "analyze"; "https://github.com/example/project.git" ]
                   ++ [ "--out"; "project_report.md" ])
  = zenwatch.main [ "zenwatch"; "analyze"; "https://github.com/example/project.git" ].
Proof.
  apply (trailing_arguments_change_nothing
           [ "zenwatch"; "analyze"; "https://github.com/example/project.git" ]
           [ "--out"; "project_report.md" ]).
  reflexivity.
Defined.

(** ** The program that writes the two test reports *)




(** With the clock at the time of the report the repository keeps, the
    program writes that report as its second file. *)
Example test_report_main_runs :
  test_report.status (test_report.main Sample.clock) = 0
  /\ test_report.stdout (test_report.main Sample.clock)
     = "Generated Badge URL: https://img.shields.io/badge/ZenWatch-changes%20180%20%7C%20avg%20complx%2018.0-blue
Markdown report generated at test_report.md
Report generation test complete. Check test_report.md
Markdown report generated at test_report_no_badge.md
Report generation (no badge) test complete. Check test_report_no_badge.md
"
  /\ test_report.written (test_report.main Sample.clock) !! 1%nat
     = Some ("test_report_no_badge.md", Fixture.test_report_no_badge).
Proof. vm_compute. repeat split; reflexivity. Qed.
